(** * artemis.experiments.ui: the experiment browser

    A shallow embedding of the parts of [artemis/experiments/ui.py] that
    decide how rows are fetched and cached, how one command line is
    dispatched, how the delete handlers confirm, and how the nested table
    is spliced together.

    Python values are modelled as follows: [str] as [string], lists as
    [list], the [OrderedDict] of experiments as an association list, the
    cache directory as a [gmap] from paths to file contents.  Code that
    raises, reads input, prints or touches the disk lives in a small
    state-and-exception monad [M]. *)

From Stdlib Require Import Ascii.
From stdpp Require Import base strings pretty gmap list.

(** ** Exceptions and the state-and-exception monad *)

Inductive exn : Type :=
  | PyError (cls : string) (msg : string)
  | SystemExit.

Inductive result (A : Type) : Type :=
  | Ok (a : A)
  | Raise (e : exn).
Arguments Ok {A} a.
Arguments Raise {A} e.

Definition M (S A : Type) : Type := S → result A * S.

Definition ret {S A} (a : A) : M S A := λ s, (Ok a, s).

Definition raise {S A} (e : exn) : M S A := λ s, (Raise e, s).

Definition lift {S A} (r : result A) : M S A := λ s, (r, s).

Definition bind {S A B} (c : M S A) (k : A → M S B) : M S B :=
  λ s, match c s with
       | (Ok a, s') => k a s'
       | (Raise e, s') => (Raise e, s')
       end.

(** [try: c  except: handler] with a bare [except], which catches everything. *)
Definition try_except {S A} (c : M S A) (handler : exn → M S A) : M S A :=
  λ s, match c s with
       | (Ok a, s') => (Ok a, s')
       | (Raise e, s') => handler e s'
       end.

Notation "'let!' x ':=' c 'in' k" := (bind c (λ x, k))
  (at level 10, x binder, c at level 100, k at level 200).
Notation "c ';;' k" := (bind c (λ _, k))
  (at level 100, k at level 200, right associativity).

(** ** Python string and list helpers *)

Module Py.

(** [sep.join(l)] *)
Fixpoint join (sep : string) (l : list string) : string :=
  match l with
  | [] => ""
  | [s] => s
  | s :: rest => s +:+ sep +:+ join sep rest
  end.

(** [s.replace(c, by)] for a one-character pattern [c]. *)
Fixpoint replace_char (c : ascii) (by_ : string) (s : string) : string :=
  match s with
  | EmptyString => EmptyString
  | String a s' =>
      if Ascii.eqb a c then by_ +:+ replace_char c by_ s'
      else String a (replace_char c by_ s')
  end.

Definition lower_ascii (a : ascii) : ascii :=
  let n := Ascii.nat_of_ascii a in
  if (65 <=? n) && (n <=? 90) then Ascii.ascii_of_nat (n + 32) else a.

(** [s.lower()] on a byte string. *)
Fixpoint lower (s : string) : string :=
  match s with
  | EmptyString => EmptyString
  | String a s' => String (lower_ascii a) (lower s')
  end.

(** [s.split(' ')]: splits at every single space, keeping empty pieces. *)
Fixpoint split_space_aux (cur : string) (s : string) : list string :=
  match s with
  | EmptyString => [String.rev cur]
  | String a s' =>
      if Ascii.eqb a " "%char then String.rev cur :: split_space_aux "" s'
      else split_space_aux (String a cur) s'
  end.

Definition split_space (s : string) : list string := split_space_aux "" s.

(** [x in l] for strings. *)
Definition contains (x : string) (l : list string) : bool :=
  bool_decide (x ∈ l).

(** [l[:-1]] *)
Definition but_last {A} (l : list A) : list A := removelast l.

(** [l[1:-1]] *)
Definition inner {A} (l : list A) : list A := removelast (tail l).

End Py.

(** ** Display fields *)

Module ExpInfoFields.
Inductive t : Type := TIMESTAMP | RUNTIME | STATUS | ARGS | NOTES.
End ExpInfoFields.

Module ExpRecordDisplayFields.
Inductive t : Type := RUNS | DURATION | STATUS | ARGS_CHANGED | RESULT_STR | NOTES.

Definition value (h : t) : string :=
  match h with
  | RUNS => "All Runs"
  | DURATION => "Duration"
  | STATUS => "Status"
  | ARGS_CHANGED => "Args Changed?"
  | RESULT_STR => "Result"
  | NOTES => "Notes"
  end.

#[global] Instance eq_dec : EqDecision t.
Proof. solve_decision. Defined.
End ExpRecordDisplayFields.

(** ** Collaborators that ui.py imports

    The record loader, the record's [info] accessors, the two string
    renderers, [truncate_string], [compute_fixed_hash],
    [get_artemis_data_path] and the constant [ExpStatusOptions.STARTED]
    are imported by ui.py from other modules; the row fetchers are
    embedded over any implementation of them.  [is_STARTED status] is the
    outcome of the test [status == ExpStatusOptions.STARTED]. *)

Record externals (Rec : Type) : Type := {
  load_experiment_record : string → result Rec;
  info_get_field_text : Rec → ExpInfoFields.t → result string;
  info_has_field : Rec → ExpInfoFields.t → bool;
  info_get_notes : Rec → option (list string);
  get_record_invalid_arg_string : Rec → result string;
  get_oneline_result_string : Rec → result string;
  truncate_string : string → nat → string → string;
  compute_fixed_hash : string → list ExpRecordDisplayFields.t → string;
  get_artemis_data_path : string → string;
  is_STARTED : string → bool
}.
Arguments load_experiment_record {Rec} _ _.
Arguments info_get_field_text {Rec} _ _ _.
Arguments info_has_field {Rec} _ _ _.
Arguments info_get_notes {Rec} _ _.
Arguments get_record_invalid_arg_string {Rec} _ _.
Arguments get_oneline_result_string {Rec} _ _.
Arguments truncate_string {Rec} _ _ _ _.
Arguments compute_fixed_hash {Rec} _ _ _.
Arguments get_artemis_data_path {Rec} _ _.
Arguments is_STARTED {Rec} _ _.

(** ** The disk cache and the observable effects of a row fetch *)

(** What [pickle.load] finds in a cache file: a pickled list of cells, or
    bytes it cannot read. *)
Inductive file : Type :=
  | Pickled (cells : list string)
  | Unreadable.

(** [files] is the cache directory, [warnings] what [logging.warn] was
    given, [getter_calls] the field getters invoked so far, oldest first. *)
Record world : Type := {
  files : gmap string file;
  warnings : list string;
  getter_calls : list (string * ExpRecordDisplayFields.t)
}.

Definition set_files (f : gmap string file → gmap string file) (w : world) : world :=
  {| files := f (files w); warnings := warnings w; getter_calls := getter_calls w |}.

Definition add_warning (msg : string) (w : world) : world :=
  {| files := files w; warnings := warnings w ++ [msg]; getter_calls := getter_calls w |}.

Definition add_call (c : string * ExpRecordDisplayFields.t) (w : world) : world :=
  {| files := files w; warnings := warnings w; getter_calls := getter_calls w ++ [c] |}.

Definition logging_warn (msg : string) : M world unit :=
  λ w, (Ok tt, add_warning msg w).

(** [with open(path, 'wb') as f: pickle.dump(cells, f)] *)
Definition pickle_dump (path : string) (cells : list string) : M world unit :=
  λ w, (Ok tt, set_files (λ fs, <[path := Pickled cells]> fs) w).

Definition os_path_exists (path : string) : M world bool :=
  λ w, (Ok (bool_decide (is_Some (files w !! path))), w).

(** [with open(path, 'rb') as f: pickle.load(f)] *)
Definition pickle_load (path : string) : M world (list string) :=
  λ w, match files w !! path with
       | Some (Pickled cells) => (Ok cells, w)
       | Some Unreadable => (Raise (PyError "UnpicklingError" path), w)
       | None => (Raise (PyError "IOError" path), w)
       end.

Definition os_path_join (a b : string) : string := a +:+ "/" +:+ b.

Section RowFetch.
Context {Rec : Type} (E : externals Rec).

Definition _show_notes (rec : Rec) : result string :=
  if info_has_field E rec ExpInfoFields.NOTES then
    match info_get_notes E rec with
    | None => Ok ""
    | Some notes => Ok (Py.replace_char "010"%char ";;" (Py.join ";" notes))
    end
  else Ok "".

Definition _exp_record_field_getters (h : ExpRecordDisplayFields.t) (rec : Rec)
  : result string :=
  match h with
  | ExpRecordDisplayFields.RUNS => info_get_field_text E rec ExpInfoFields.TIMESTAMP
  | ExpRecordDisplayFields.DURATION => info_get_field_text E rec ExpInfoFields.RUNTIME
  | ExpRecordDisplayFields.STATUS => info_get_field_text E rec ExpInfoFields.STATUS
  | ExpRecordDisplayFields.ARGS_CHANGED => get_record_invalid_arg_string E rec
  | ExpRecordDisplayFields.RESULT_STR => get_oneline_result_string E rec
  | ExpRecordDisplayFields.NOTES => _show_notes rec
  end.

(** One invocation [_exp_record_field_getters[h](rec)], recorded in the world. *)
Definition call_getter (record_id : string) (rec : Rec) (h : ExpRecordDisplayFields.t)
  : M world string :=
  λ w, (_exp_record_field_getters h rec, add_call (record_id, h) w).

Definition display_error : string := "<Display Error>".

(** The loop of the [if not raise_display_errors] branch. *)
Fixpoint guarded_values (record_id : string) (rec : Rec)
    (headers : list ExpRecordDisplayFields.t) : M world (list string) :=
  match headers with
  | [] => ret []
  | h :: hs =>
      let! v := try_except (call_getter record_id rec h) (λ _, ret display_error) in
      let! vs := guarded_values record_id rec hs in
      ret (v :: vs)
  end.

(** The list comprehension of the [else] branch. *)
Fixpoint strict_values (record_id : string) (rec : Rec)
    (headers : list ExpRecordDisplayFields.t) : M world (list string) :=
  match headers with
  | [] => ret []
  | h :: hs =>
      let! v := call_getter record_id rec h in
      let! vs := strict_values record_id rec hs in
      ret (v :: vs)
  end.

Definition _get_record_rows (record_id : string) (headers : list ExpRecordDisplayFields.t)
    (raise_display_errors : bool) (truncate_to : option nat) : M world (list string) :=
  let! rec := lift (load_experiment_record E record_id) in
  let! values :=
    (if negb raise_display_errors then guarded_values record_id rec headers
     else strict_values record_id rec headers) in
  match truncate_to with
  | Some n => ret (map (λ val, truncate_string E val n "...") values)
  | None => ret values
  end.

Definition cache_path (record_id : string) (headers : list ExpRecordDisplayFields.t)
  : string :=
  let cache_key := compute_fixed_hash E record_id headers in
  get_artemis_data_path E (os_path_join "_ui_cache" cache_key).

(** The part of [_get_record_rows_cached] after the cache lookup. *)
Definition compute_and_store (path : string) (record_id : string)
    (headers : list ExpRecordDisplayFields.t)
    (raise_display_errors : bool) (truncate_to : option nat) : M world (list string) :=
  let! info_plus_status :=
    _get_record_rows record_id (headers ++ [ExpRecordDisplayFields.STATUS])
      raise_display_errors truncate_to in
  match last info_plus_status with
  | None => raise (PyError "IndexError" "list index out of range")
  | Some status =>
      let info := Py.but_last info_plus_status in
      if is_STARTED E status then ret info
      else (pickle_dump path (Py.but_last info);; ret info)
  end.

Definition _get_record_rows_cached (record_id : string)
    (headers : list ExpRecordDisplayFields.t)
    (raise_display_errors : bool) (truncate_to : option nat) : M world (list string) :=
  let path := cache_path record_id headers in
  let! found := os_path_exists path in
  let! hit :=
    (if found : bool then
       try_except (let! info := pickle_load path in ret (Some info))
         (λ _, logging_warn ("Failed to load cached record info: " +:+ record_id);;
               ret None)
     else ret None) in
  match hit with
  | Some info => ret info
  | None => compute_and_store path record_id headers raise_display_errors truncate_to
  end.

End RowFetch.

(** ** Reference implementations of the imported helpers

    Used to run the embedding on concrete records. *)

Module Model.

(** Modelled from the spec: [truncate_string] (artemis.general.display) is
    not among the sources.  The renderer pipeline says: "truncate any value
    exceeding the limit by cutting and appending an ellipsis marker". *)
Definition truncate_string (s : string) (truncation : nat) (message : string) : string :=
  if truncation <? String.length s
  then String.substring 0 (truncation - String.length message) s +:+ message
  else s.

(** Modelled from the spec: [compute_fixed_hash] (artemis.general.hashing)
    is not among the sources.  The data model says: "key = stable hash of
    (RecordId, requested field list)"; here the key spells both out. *)
Definition compute_fixed_hash (record_id : string)
    (headers : list ExpRecordDisplayFields.t) : string :=
  record_id +:+ "#" +:+ Py.join "," (map ExpRecordDisplayFields.value headers).

Definition get_artemis_data_path (rel : string) : string := "~/.artemis/" +:+ rel.

(** A record as the getters see it. *)
Record rec : Type := {
  timestamp : string;
  runtime : string;
  status : string;
  args_changed : string;
  oneline_result : result string;
  notes : option (option (list string))
}.

Definition info_get_field_text (r : rec) (f : ExpInfoFields.t) : result string :=
  match f with
  | ExpInfoFields.TIMESTAMP => Ok (timestamp r)
  | ExpInfoFields.RUNTIME => Ok (runtime r)
  | ExpInfoFields.STATUS => Ok (status r)
  | ExpInfoFields.ARGS => Ok ""
  | ExpInfoFields.NOTES => Ok ""
  end.

Definition info_has_field (r : rec) (f : ExpInfoFields.t) : bool :=
  match f with
  | ExpInfoFields.NOTES => bool_decide (is_Some (notes r))
  | _ => true
  end.

Definition info_get_notes (r : rec) : option (list string) :=
  match notes r with
  | Some n => n
  | None => None
  end.

(** Three records on disk: a finished one, a running one, and one whose
    result can no longer be rendered. *)
Definition finished : rec :=
  {| timestamp := "2017-03-01 10:00"; runtime := "12.5s"; status := "Finished";
     args_changed := "<No Change>"; oneline_result := Ok "accuracy: 0.93";
     notes := Some (Some ["first run"; "seed 3"]) |}.

Definition running : rec :=
  {| timestamp := "2017-03-02 11:30"; runtime := "3.1s"; status := "Started";
     args_changed := "<No Change>"; oneline_result := Ok "<No result>";
     notes := None |}.

Definition broken : rec :=
  {| timestamp := "2017-03-03 09:15"; runtime := "40.2s"; status := "Finished";
     args_changed := "<No Change>";
     oneline_result := Raise (PyError "IOError" "result.pkl");
     notes := Some None |}.

Definition load_experiment_record (record_id : string) : result rec :=
  if String.eqb record_id "demo.finished" then Ok finished
  else if String.eqb record_id "demo.running" then Ok running
  else if String.eqb record_id "demo.broken" then Ok broken
  else Raise (PyError "IOError" record_id).

Definition env : externals rec :=
  Build_externals rec
    load_experiment_record info_get_field_text info_has_field info_get_notes
    (λ r, Ok (args_changed r)) oneline_result
    truncate_string compute_fixed_hash get_artemis_data_path
    (λ status, String.eqb status "Started").

Definition empty_world : world :=
  {| files := ∅; warnings := []; getter_calls := [] |}.

(** A cache directory in which the file of the finished record, for the
    headers "All Runs" and "Result", holds bytes that do not unpickle. *)
Definition corrupted_world : world :=
  {| files := {[ cache_path env "demo.finished"
                   [ExpRecordDisplayFields.RUNS; ExpRecordDisplayFields.RESULT_STR]
                 := Unreadable ]};
     warnings := []; getter_calls := [] |}.

End Model.

(** ** The command dispatcher: one pass of the [try] body of
    [ExperimentBrowser.launch] *)

Definition dquote : string := String (Ascii.ascii_of_nat 34) EmptyString.

Module Dispatch.

(** The keys of [func_dict], in the order the source lists them. *)
Definition func_dict_keys : list string :=
  ["run"; "test"; "show"; "call"; "selectexp"; "selectrec"; "allruns"; "view";
   "h"; "filter"; "explist"; "sidebyside"; "argtable"; "compare"; "delete";
   "errortrace"; "q"; "records"; "pull"].

(** What the pass decides to do with the line. *)
Inductive action : Type :=
  | Continue
  | Call (cmd : string) (args : list string)
  | Run (user_range : string) (args : list string)
  | AskUnrecognised (prompt : string).

(** [min(l)] *)
Definition py_min (l : list nat) : result nat :=
  match l with
  | [] => Raise (PyError "ValueError" "min() arg is an empty sequence")
  | x :: rest => Ok (foldl Nat.min x rest)
  end.

(** [l.index(x)] *)
Fixpoint py_index (x : nat) (l : list nat) : option nat :=
  match l with
  | [] => None
  | y :: rest => if x =? y then Some 0 else S <$> py_index x rest
  end.

Section Launch.
(** [interpret_numbers] (experiment_management) and [levenshtein_distance]
    (artemis.general.mymath) are imported; [keys] is [func_dict.keys()], whose
    order is the dictionary's. *)
Variable interpret_numbers : string → result (option (list nat)).
Variable levenshtein_distance : string → string → nat.
Variable keys : list string.

Definition edit_distances (cmd : string) : list nat :=
  map (λ other_cmd, levenshtein_distance cmd other_cmd) keys.

Definition closest (cmd : string) : result (nat * string) :=
  match py_min (edit_distances cmd) with
  | Raise e => Raise e
  | Ok min_distance =>
      match py_index min_distance (edit_distances cmd) with
      | None => Raise (PyError "ValueError" "not in list")
      | Some i =>
          match keys !! i with
          | None => Raise (PyError "IndexError" "list index out of range")
          | Some c => Ok (min_distance, c)
          end
      end
  end.

Definition did_you_mean (c : string) : string :=
  " Did you mean " +:+ dquote +:+ c +:+ dquote +:+ "?.  ".

Definition suggestion (cmd : string) : result string :=
  match closest cmd with
  | Raise e => Raise e
  | Ok (min_distance, c) => Ok (if min_distance <=? 2 then did_you_mean c else "")
  end.

Definition unrecognised_prompt (cmd sugg : string) : string :=
  "Unrecognised command: " +:+ dquote +:+ cmd +:+ dquote +:+ ". " +:+ sugg
  +:+ "Type " +:+ dquote +:+ "h" +:+ dquote +:+ " for help or Enter to continue. >".

Definition run_mode_flags : list string := ["-s"; "-e"; "-p"].

Definition dispatch (user_input : string) : result action :=
  match Py.split_space user_input with
  | [] => Ok Continue
  | cmd :: args =>
      if String.eqb cmd "" then Ok Continue
      else if Py.contains cmd keys then Ok (Call cmd args)
      else
        match interpret_numbers cmd with
        | Raise e => Raise e
        | Ok (Some _) =>
            if negb (existsb (λ x, Py.contains x args) run_mode_flags)
            then Ok (Run cmd (args ++ ["-e"]))
            else Ok (Run cmd args)
        | Ok None =>
            if String.eqb cmd "r" then Ok Continue
            else
              match suggestion cmd with
              | Raise e => Raise e
              | Ok sugg => Ok (AskUnrecognised (unrecognised_prompt cmd sugg))
              end
        end
  end.

End Launch.

(** Modelled from the spec: [levenshtein_distance] (artemis.general.mymath) is
    not among the sources.  The dispatcher section says: "compute edit
    distance between the typed token and every registered command name";
    this is the Levenshtein distance (insertions, deletions, substitutions). *)
Fixpoint lev (s1 : string) : string → nat :=
  fix lev_s1 (s2 : string) : nat :=
    match s1, s2 with
    | EmptyString, _ => String.length s2
    | _, EmptyString => String.length s1
    | String c1 r1, String c2 r2 =>
        if Ascii.eqb c1 c2 then lev r1 r2
        else S (Nat.min (lev r1 s2) (Nat.min (lev_s1 r2) (lev r1 r2)))
    end.

(** Modelled from the spec: [interpret_numbers] (experiment_management) is not
    among the sources.  The dispatcher section speaks of "bare numeric input
    ... run the experiment at that index"; this reads a plain decimal index
    and answers [None] to anything else. *)
Definition is_digit (a : ascii) : bool :=
  let n := Ascii.nat_of_ascii a in (48 <=? n) && (n <=? 57).

Fixpoint all_digits (s : string) : bool :=
  match s with
  | EmptyString => true
  | String a s' => is_digit a && all_digits s'
  end.

Fixpoint decimal_value (acc : nat) (s : string) : nat :=
  match s with
  | EmptyString => acc
  | String a s' => decimal_value (10 * acc + (Ascii.nat_of_ascii a - 48)) s'
  end.

Definition interpret_index (s : string) : result (option (list nat)) :=
  if all_digits s && negb (String.eqb s "") then Ok (Some [decimal_value 0 s])
  else Ok None.

End Dispatch.

(** ** The delete handlers *)

(** The terminal and the record store as the handlers see them: [stdin] the
    lines still to be typed, [stdout] what was printed (prompts included),
    [record_store] the record ids on disk, [clear_calls] the arguments of
    every call of [clear_experiment_records] so far. *)
Record console : Type := {
  stdin : list string;
  stdout : list string;
  record_store : list string;
  clear_calls : list (list string)
}.

Definition print (s : string) : M console unit :=
  λ c, (Ok tt, {| stdin := stdin c; stdout := stdout c ++ [s];
                  record_store := record_store c; clear_calls := clear_calls c |}).

Definition raw_input (prompt : string) : M console string :=
  λ c, match stdin c with
       | [] => (Raise (PyError "EOFError" ""),
                {| stdin := []; stdout := stdout c ++ [prompt];
                   record_store := record_store c; clear_calls := clear_calls c |})
       | line :: rest =>
           (Ok line,
            {| stdin := rest; stdout := stdout c ++ [prompt];
               record_store := record_store c; clear_calls := clear_calls c |})
       end.

(** Modelled from the spec: [clear_experiment_records]
    (artemis.experiments.experiment_record) is not among the sources.  The
    external interfaces list "a deletion service delete(RecordId[]) -> void":
    the named records leave the store. *)
Definition clear_experiment_records (ids : list string) : M console unit :=
  λ c, (Ok tt, {| stdin := stdin c; stdout := stdout c;
                  record_store := filter (λ rid, rid ∉ ids) (record_store c);
                  clear_calls := clear_calls c ++ [ids] |}).

Definition quit {A} : M console A := raise SystemExit.

Definition default_prompt : string := "Press Enter to continue or q then Enter to quit".

Definition _warn_with_prompt (message : option string) (prompt : string)
    (use_prompt : bool) : M console (option string) :=
  match message with Some m => print m | None => ret tt end;;
  if use_prompt then
    let! out := raw_input ("(" +:+ prompt +:+ ") >> ") in
    if String.eqb out "q" then quit else ret (Some out)
  else ret None.

Section Delete.
(** The selectors (experiment_management), the listing of the store
    ([get_all_record_ids] with the browser's names and filters applied) and the
    text of the record table are taken as given. *)
Variable select_experiment_records :
  string → list (string * list string) → result (list string).
Variable select_experiment_records_from_list :
  string → list string → result (list string).
Variable get_all_record_ids : list string → list string.
Variable get_record_table : list string → string.

Definition reload_ids : M console (list string) :=
  λ c, (Ok (get_all_record_ids (record_store c)), c).

Definition ExperimentBrowser_delete (exp_record_dict : list (string * list string))
    (close_after : bool) (user_range : string) : M console unit :=
  let! records := lift (select_experiment_records user_range exp_record_dict) in
  print (pretty (length records) +:+ " out of "
         +:+ pretty (sum_list (map (λ recs, length recs) exp_record_dict.*2))
         +:+ " Records will be deleted.");;
  print (get_record_table records);;
  let! response :=
    raw_input ("Type " +:+ dquote +:+ "yes" +:+ dquote +:+ " to continue. >") in
  if String.eqb (Py.lower response) "yes" then
    (clear_experiment_records records;;
     print "Records deleted.")
  else
    (_warn_with_prompt (Some "Records were not deleted.") default_prompt
       (negb close_after);;
     ret tt).

(** Returns the browser's new [self.record_ids]. *)
Definition ExperimentRecordBrowser_delete (record_ids : list string)
    (user_range : string) : M console (list string) :=
  let! ids := lift (select_experiment_records_from_list user_range record_ids) in
  print "We will delete the following experiments:";;
  print (get_record_table ids);;
  let! conf :=
    raw_input ("Going to clear " +:+ pretty (length ids) +:+ " of "
               +:+ pretty (length record_ids)
               +:+ " experiment records shown above.  Enter 'yes' to confirm: ") in
  (if String.eqb conf "yes" then clear_experiment_records ids
   else (_warn_with_prompt (Some "Did not delete experiments") default_prompt true;;
         ret tt));;
  reload_ids.

End Delete.

(** ** The nested table of [get_experiment_list_str] *)

Inductive cell : Type :=
  | CInt (n : nat)
  | CStr (s : string).

(** The lines [tabulate] produces, one per row: with headers, a header line
    and a rule come first; without, a rule comes first and last.  How a line
    is laid out (column widths, padding) is tabulate's business. *)
Record tabulate_format : Type := {
  header_line : list string → list (list cell) → string;
  rule_line : option (list string) → list (list cell) → string;
  row_line : option (list string) → list (list cell) → list cell → string
}.

(** [tabulate(rows, headers=headers).split('\n')] *)
Definition tabulate_lines (T : tabulate_format) (headers : option (list string))
    (rows : list (list cell)) : list string :=
  match headers with
  | Some hs =>
      header_line T hs rows :: rule_line T headers rows
        :: map (row_line T headers rows) rows
  | None =>
      match rows with
      | [] => [""]
      | _ => rule_line T None rows :: map (row_line T None rows) rows
               ++ [rule_line T None rows]
      end
  end.

(** The elements of [list2] destined for position [i] of [list1]. *)
Definition arriving_at {A} (i : nat) (pairs : list (nat * A)) : list A :=
  (filter (λ p, p.1 = i) pairs).*2.

Fixpoint insert_from {A} (i : nat) (list1 : list A) (pairs : list (nat * A)) : list A :=
  match list1 with
  | [] => arriving_at i pairs
  | x :: rest => arriving_at i pairs ++ x :: insert_from (S i) rest pairs
  end.

(** Modelled from the spec: [insert_at] (artemis.general.should_be_builtins) is
    not among the sources.  The renderer section says: "Splice each
    group-table line into the detail table's rendered text at the line offset
    ...": element [k] of [list2] is placed in front of the element that has
    index [indices[k]] in [list1] (at the end for [len(list1)]). *)
Definition insert_at {A} (list1 list2 : list A) (indices : list nat) : list A :=
  insert_from 0 list1 (zip indices list2).

(** The four variables the two loops update. *)
Record loop_state : Type := {
  record_rows : list (list cell);
  experiment_rows : list (list cell);
  experiment_row_ixs : list nat;
  counter : nat
}.

Section Nested.
Context {St : Type}.
(** [row_func] is [_get_record_rows_cached] or [_get_record_rows]; [headers]
    the display fields of the view mode; the last two are the browser's
    [raise_display_errors] and [truncate_result_to]. *)
Variable row_func :
  string → list ExpRecordDisplayFields.t → bool → option nat → M St (list string).
Variable T : tabulate_format.
Variable headers : list ExpRecordDisplayFields.t.
Variable raise_display_errors : bool.
Variable truncate_result_to : option nat.

Definition header_names : list string := map ExpRecordDisplayFields.value headers.

(** [for j, record_id in enumerate(record_ids)] *)
Fixpoint records_loop (j : nat) (record_ids : list string) (st : loop_state)
  : M St loop_state :=
  match record_ids with
  | [] => ret st
  | record_id :: rest =>
      let! cells := row_func record_id headers raise_display_errors
                      truncate_result_to in
      records_loop (S j) rest
        {| record_rows := record_rows st ++ [CStr "" :: CInt j :: map CStr cells];
           experiment_rows := experiment_rows st;
           experiment_row_ixs := experiment_row_ixs st;
           counter := counter st + 1 |}
  end.

(** [for i, (exp_id, record_ids) in enumerate(exp_record_dict.iteritems())] *)
Fixpoint experiments_loop (i : nat) (exp_record_dict : list (string * list string))
    (st : loop_state) : M St loop_state :=
  match exp_record_dict with
  | [] => ret st
  | (exp_id, record_ids) :: rest =>
      let! st' :=
        records_loop 0 record_ids
          {| record_rows := record_rows st;
             experiment_rows := experiment_rows st ++ [[CInt i; CStr ""; CStr exp_id]];
             experiment_row_ixs := experiment_row_ixs st ++ [counter st];
             counter := counter st |} in
      experiments_loop (S i) rest st'
  end.

Definition full_headers : list string := ["E#"; "R#"] ++ header_names.

Definition initial_state : loop_state :=
  {| record_rows := []; experiment_rows := []; experiment_row_ixs := []; counter := 2 |}.

(** The [display_format == 'nested'] branch, up to [all_rows]. *)
Definition nested_all_rows (exp_record_dict : list (string * list string))
  : M St (list string) :=
  let! st := experiments_loop 0 exp_record_dict initial_state in
  let record_table_rows := tabulate_lines T (Some full_headers) (record_rows st) in
  let experiment_table_rows := Py.inner (tabulate_lines T None (experiment_rows st)) in
  ret (insert_at record_table_rows experiment_table_rows (experiment_row_ixs st)).

(** The [display_format == 'nested'] branch: the table returned. *)
Definition get_experiment_list_str_nested (exp_record_dict : list (string * list string))
  : M St string :=
  let! all_rows := nested_all_rows exp_record_dict in
  ret (Py.join (String "010"%char EmptyString) all_rows).

End Nested.

(** ** Vocabulary of the statements *)

Definition add_calls (cs : list (string * ExpRecordDisplayFields.t)) (w : world) : world :=
  {| files := files w; warnings := warnings w; getter_calls := getter_calls w ++ cs |}.

(** A computation that only appends getter calls to the world, and whose
    outcome does not depend on the world it starts from. *)
Definition frames {A} (c : M world A) (r : result A)
    (cs : list (string * ExpRecordDisplayFields.t)) : Prop :=
  ∀ w, c w = (r, add_calls cs w).

Section RowVocabulary.
Context {Rec : Type} (E : externals Rec).

(** The cell of one header before truncation, when display errors are not
    raised. *)
Definition cell_or_placeholder (rec : Rec) (h : ExpRecordDisplayFields.t) : string :=
  match _exp_record_field_getters E h rec with
  | Ok v => v
  | Raise _ => display_error
  end.

Definition getter_ok (rec : Rec) (h : ExpRecordDisplayFields.t) : Prop :=
  ∃ v, _exp_record_field_getters E h rec = Ok v.

Definition truncate_cell (truncate_to : option nat) (val : string) : string :=
  match truncate_to with
  | Some n => truncate_string E val n "..."
  | None => val
  end.

Definition truncate_all (truncate_to : option nat) (values : list string) : list string :=
  match truncate_to with
  | Some n => map (λ val, truncate_string E val n "...") values
  | None => values
  end.

(** What [compute_and_store] returns and leaves behind, given the outcome [r]
    of its call of [_get_record_rows] and the getter calls [cs] that made. *)
Definition stored_outcome (path : string) (r : result (list string))
    (cs : list (string * ExpRecordDisplayFields.t)) (w : world)
  : result (list string) * world :=
  match r with
  | Raise e => (Raise e, add_calls cs w)
  | Ok info_plus_status =>
      match last info_plus_status with
      | None => (Raise (PyError "IndexError" "list index out of range"), add_calls cs w)
      | Some status =>
          if is_STARTED E status
          then (Ok (Py.but_last info_plus_status), add_calls cs w)
          else (Ok (Py.but_last info_plus_status),
                set_files
                  (λ fs, <[path := Pickled (Py.but_last (Py.but_last info_plus_status))]> fs)
                  (add_calls cs w))
      end
  end.

Definition load_warning (record_id : string) : string :=
  "Failed to load cached record info: " +:+ record_id.

(** [n] calls of [_get_record_rows_cached] in a row, with the same arguments. *)
Fixpoint fetch_repeatedly (n : nat) (record_id : string)
    (headers : list ExpRecordDisplayFields.t)
    (raise_display_errors : bool) (truncate_to : option nat)
  : M world (list (list string)) :=
  match n with
  | 0 => ret []
  | S n' =>
      let! v := _get_record_rows_cached E record_id headers raise_display_errors
                  truncate_to in
      let! vs := fetch_repeatedly n' record_id headers raise_display_errors
                   truncate_to in
      ret (v :: vs)
  end.

End RowVocabulary.


(** Running totals: [offsets c [n0; n1; ...] = [c; c + n0; c + n0 + n1; ...]],
    one per element of the list. *)
Fixpoint offsets (c : nat) (sizes : list nat) : list nat :=
  match sizes with
  | [] => []
  | n :: sizes' => c :: offsets (c + n) sizes'
  end.

(** The rows of the detail table: the fetched rows in order, cut into one
    group per experiment, each led by a blank cell and the record's index
    within its experiment. *)
Fixpoint detail_rows (sizes : list nat) (rows : list (list string)) : list (list cell) :=
  match sizes with
  | [] => []
  | n :: sizes' =>
      imap (λ j cells, CStr "" :: CInt j :: map CStr cells) (take n rows)
        ++ detail_rows sizes' (drop n rows)
  end.

(** One row fetch as the loops of the nested table make it. *)
Definition row_fetch {St} 
    (row_func : string → list ExpRecordDisplayFields.t → bool → option nat
                → M St (list string))
    (headers : list ExpRecordDisplayFields.t) (raise_display_errors : bool)
    (truncate_result_to : option nat) (record_id : string) : M St (list string) :=
  row_func record_id headers raise_display_errors truncate_result_to.

(** [mapM] for the monad [M]: call [f] on each element in turn. *)
Fixpoint for_each {St A B} (f : A → M St B) (l : list A) : M St (list B) :=
  match l with
  | [] => ret []
  | x :: rest =>
      let! y := f x in
      let! ys := for_each f rest in
      ret (y :: ys)
  end.

(** A small store for running the delete handlers: three records of two
    experiments; the selectors select everything, the listing lists the whole
    store, the table is the ids joined by commas. *)
Module DeleteModel.

Definition exp_record_dict : list (string * list string) :=
  [("exp.a", ["exp.a.1"; "exp.a.2"]); ("exp.b", ["exp.b.1"])].

Definition select_experiment_records (user_range : string)
    (d : list (string * list string)) : result (list string) :=
  Ok (concat d.*2).

Definition select_experiment_records_from_list (user_range : string)
    (ids : list string) : result (list string) :=
  Ok ids.

Definition get_all_record_ids (store : list string) : list string := store.

Definition get_record_table (ids : list string) : string := Py.join ", " ids.

Definition typing (lines : list string) : console :=
  {| stdin := lines; stdout := [];
     record_store := ["exp.a.1"; "exp.a.2"; "exp.b.1"]; clear_calls := [] |}.

End DeleteModel.

(** A plain table layout and a small collection for running the nested
    rendering: cells separated by two spaces, rules of four dashes. *)
Module NestedModel.

Definition show_cell (c : cell) : string :=
  match c with
  | CInt n => pretty n
  | CStr s => s
  end.

Definition plain : tabulate_format :=
  {| header_line := λ hs _, Py.join "  " hs;
     rule_line := λ _ _, "----";
     row_line := λ _ _ r, Py.join "  " (map show_cell r) |}.

Definition exp_record_dict : list (string * list string) :=
  [("exp.a", ["demo.finished"; "demo.running"]);
   ("exp.b", []);
   ("exp.c", ["demo.broken"])].

Definition headers : list ExpRecordDisplayFields.t :=
  [ExpRecordDisplayFields.DURATION; ExpRecordDisplayFields.STATUS].

End NestedModel.

(** ** Further parts of ui.py: dictionaries, the flat table, the record
    table, the list of experiments *)

(** An [OrderedDict] as an association list in insertion order. *)
Fixpoint od_set {V} (k : string) (v : V) (d : list (string * V)) : list (string * V) :=
  match d with
  | [] => [(k, v)]
  | (k', v') :: rest =>
      if String.eqb k k' then (k, v) :: rest else (k', v') :: od_set k v rest
  end.

(** [OrderedDict(pairs)] *)
Definition OrderedDict {V} (pairs : list (string * V)) : list (string * V) :=
  foldl (λ d kv, od_set kv.1 kv.2 d) [] pairs.

(** [d[k]] *)
Fixpoint od_get {V} (k : string) (d : list (string * V)) : result V :=
  match d with
  | [] => Raise (PyError "KeyError" k)
  | (k', v) :: rest => if String.eqb k k' then Ok v else od_get k rest
  end.

(** [[ids[-1]] if len(ids)>0 else []] *)
Definition just_last (ids : list string) : list string :=
  match last ids with
  | Some rid => [rid]
  | None => []
  end.

(** [ExperimentBrowser.reload_record_dict].  [library_keys] is
    [get_global_experiment_library().keys()], [root_variants] the names of
    [root_experiment.get_all_variants(include_self=True)] when there is a
    root, [experiment_id_to_record_ids] the imported listing of an
    experiment's records. *)
Definition reload_record_dict (library_keys : list string)
    (root_variants : option (list string))
    (experiment_id_to_record_ids : string → list string)
    (just_last_record : bool) : list (string * list string) :=
  let names :=
    match root_variants with
    | Some descendents_of_root =>
        filter (λ name, name ∈ descendents_of_root) library_keys
    | None => library_keys
    end in
  let d := OrderedDict (map (λ name, (name, experiment_id_to_record_ids name)) names) in
  if just_last_record then
    foldl (λ d k, match od_get k d with
                  | Ok ids => od_set k (just_last ids) d
                  | Raise _ => d
                  end) d d.*1
  else d.

(** The settings of an [ExperimentBrowser] that its methods read. *)
Module ExperimentBrowser.
Record t : Type := {
  root_experiment : option (list string);
  close_after : bool;
  just_last_record : bool;
  catch_errors : bool;
  exp_record_dict : list (string * list string);
  raise_display_errors : bool;
  view_mode : string;
  _filter : option string;
  truncate_result_to : option nat;
  cache_result_string : bool;
  remove_prefix : bool;
  display_format : string
}.
End ExperimentBrowser.

Section Flat.
Context {St : Type}.
Variable row_func :
  string → list ExpRecordDisplayFields.t → bool → option nat → M St (list string).
Variable T : tabulate_format.
Variable headers : list ExpRecordDisplayFields.t.
Variable raise_display_errors : bool.
Variable truncate_result_to : option nat.

(** [for j, record_id in enumerate(record_ids)] of the flat branch. *)
Fixpoint flat_records_loop (i j : nat) (exp_id : string) (record_ids : list string)
    (rows : list (list cell)) : M St (list (list cell)) :=
  match record_ids with
  | [] => ret rows
  | record_id :: rest =>
      let! cells := row_func record_id headers raise_display_errors
                      truncate_result_to in
      flat_records_loop i (S j) exp_id rest
        (rows ++ [[CStr (if j =? 0 then pretty i else ""); CInt j; CStr exp_id]
                  ++ map CStr cells])
  end.

(** [for i, (exp_id, record_ids) in enumerate(exp_record_dict.iteritems())] of
    the flat branch. *)
Fixpoint flat_experiments_loop (i : nat) (exp_record_dict : list (string * list string))
    (rows : list (list cell)) : M St (list (list cell)) :=
  match exp_record_dict with
  | [] => ret rows
  | (exp_id, record_ids) :: rest =>
      if length record_ids =? 0 then
        flat_experiments_loop (S i) rest
          (rows ++ [[CStr (pretty i); CStr ""; CStr exp_id; CStr "<No Records>"]
                    ++ replicate (length headers - 1) (CStr "-")])
      else
        let! rows' := flat_records_loop i 0 exp_id record_ids rows in
        flat_experiments_loop (S i) rest rows'
  end.

Definition flat_full_headers : list string :=
  ["E#"; "R#"; "Experiment"] ++ map ExpRecordDisplayFields.value headers.

(** The [display_format == 'flat'] branch: the table returned. *)
Definition get_experiment_list_str_flat (exp_record_dict : list (string * list string))
  : M St string :=
  let! rows := flat_experiments_loop 0 exp_record_dict [] in
  ret (Py.join (String "010"%char EmptyString)
         (tabulate_lines T (Some flat_full_headers) rows)).

End Flat.

Section ExperimentList.
Context {Rec : Type} (E : externals Rec).
Variable T : tabulate_format.
(** [deprefix_experiment_ids] is imported from experiment_management. *)
Variable deprefix_experiment_ids : list string → list string.

(** The dictionary of header lists indexed by [self.view_mode]. *)
Definition view_headers (view_mode : string) : result (list ExpRecordDisplayFields.t) :=
  if String.eqb view_mode "full" then
    Ok [ExpRecordDisplayFields.RUNS; ExpRecordDisplayFields.DURATION;
        ExpRecordDisplayFields.STATUS; ExpRecordDisplayFields.ARGS_CHANGED;
        ExpRecordDisplayFields.RESULT_STR; ExpRecordDisplayFields.NOTES]
  else if String.eqb view_mode "results" then Ok [ExpRecordDisplayFields.RESULT_STR]
  else Raise (PyError "KeyError" view_mode).

Definition get_experiment_list_str (self : ExperimentBrowser.t)
    (exp_record_dict : list (string * list string)) : M world string :=
  let! headers := lift (view_headers (ExperimentBrowser.view_mode self)) in
  let exp_record_dict :=
    if ExperimentBrowser.remove_prefix self then
      OrderedDict (zip (deprefix_experiment_ids exp_record_dict.*1) exp_record_dict.*2)
    else exp_record_dict in
  let row_func :=
    if ExperimentBrowser.cache_result_string self then _get_record_rows_cached E
    else _get_record_rows E in
  if String.eqb (ExperimentBrowser.display_format self) "nested" then
    get_experiment_list_str_nested row_func T headers
      (ExperimentBrowser.raise_display_errors self)
      (ExperimentBrowser.truncate_result_to self) exp_record_dict
  else if String.eqb (ExperimentBrowser.display_format self) "flat" then
    get_experiment_list_str_flat row_func T headers
      (ExperimentBrowser.raise_display_errors self)
      (ExperimentBrowser.truncate_result_to self) exp_record_dict
  else raise (PyError "NotImplementedError" (ExperimentBrowser.display_format self)).

End ExperimentList.

(** ** [ExperimentRecordBrowser.get_record_table] *)

Section RecordTable.
Context {Rec : Type}.
(** What the table's getters call on a record: [get_id()],
    [info.get_field_text(field, replacement_if_none='?')],
    [get_record_invalid_arg_string(rec, note_version='short')] and
    [get_oneline_result_string(rec, truncate_to=128)]; [all_equal] is
    imported from should_be_builtins. *)
Variable get_id : Rec → result string.
Variable get_field_text_or_question : Rec → ExpInfoFields.t → result string.
Variable invalid_arg_string_short : Rec → result string.
Variable oneline_result_128 : Rec → result string.
Variable all_equal : list nat → bool.
Variable T : tabulate_format.

(** [d[h]()] for row [i] and its record: the dictionary [d] of getters. *)
Definition record_table_getter (h : string) (i : nat) (experiment_record : Rec)
  : result cell :=
  if String.eqb h "#" then Ok (CInt i)
  else if String.eqb h "Identifier" then
    match get_id experiment_record with Ok s => Ok (CStr s) | Raise e => Raise e end
  else if String.eqb h "Start Time" then
    match get_field_text_or_question experiment_record ExpInfoFields.TIMESTAMP with
    | Ok s => Ok (CStr s) | Raise e => Raise e end
  else if String.eqb h "Duration" then
    match get_field_text_or_question experiment_record ExpInfoFields.RUNTIME with
    | Ok s => Ok (CStr s) | Raise e => Raise e end
  else if String.eqb h "Status" then
    match get_field_text_or_question experiment_record ExpInfoFields.STATUS with
    | Ok s => Ok (CStr s) | Raise e => Raise e end
  else if String.eqb h "Args" then
    match get_field_text_or_question experiment_record ExpInfoFields.ARGS with
    | Ok s => Ok (CStr s) | Raise e => Raise e end
  else if String.eqb h "Valid" then
    match invalid_arg_string_short experiment_record with
    | Ok s => Ok (CStr s) | Raise e => Raise e end
  else if String.eqb h "Notes" then
    match get_field_text_or_question experiment_record ExpInfoFields.NOTES with
    | Ok s => Ok (CStr s) | Raise e => Raise e end
  else if String.eqb h "Result" then
    match oneline_result_128 experiment_record with
    | Ok s => Ok (CStr s) | Raise e => Raise e end
  else Raise (PyError "KeyError" h).

Definition error_displaying_info : cell := CStr "<Error displaying info>".

(** [get_col_info(headers)] for row [i]. *)
Fixpoint get_col_info (raise_display_errors : bool) (i : nat) (experiment_record : Rec)
    (headers : list string) : result (list cell) :=
  match headers with
  | [] => Ok []
  | h :: hs =>
      match record_table_getter h i experiment_record with
      | Ok v =>
          match get_col_info raise_display_errors i experiment_record hs with
          | Ok info => Ok (v :: info)
          | Raise e => Raise e
          end
      | Raise e =>
          if raise_display_errors then Raise e
          else
            match get_col_info raise_display_errors i experiment_record hs with
            | Ok info => Ok (error_displaying_info :: info)
            | Raise e' => Raise e'
            end
      end
  end.

(** [for i, experiment_record in enumerate(records): rows.append(...)] *)
Fixpoint record_table_rows (raise_display_errors : bool) (i : nat) (records : list Rec)
    (headers : list string) : result (list (list cell)) :=
  match records with
  | [] => Ok []
  | experiment_record :: rest =>
      match get_col_info raise_display_errors i experiment_record headers with
      | Raise e => Raise e
      | Ok row =>
          match record_table_rows raise_display_errors (S i) rest headers with
          | Ok rows => Ok (row :: rows)
          | Raise e => Raise e
          end
      end
  end.

Definition default_record_table_headers : list string :=
  ["#"; "Identifier"; "Start Time"; "Duration"; "Status"; "Valid"; "Notes"; "Result"].

Definition get_record_table (records : list Rec) (headers : list string)
    (raise_display_errors : bool) : result string :=
  match record_table_rows raise_display_errors 0 records headers with
  | Raise e => Raise e
  | Ok rows =>
      if all_equal (length headers :: map length rows) then
        Ok (Py.join (String "010"%char EmptyString)
              (tabulate_lines T (Some headers) rows))
      else Raise (PyError "AssertionError" "Header length and row lengths differ")
  end.

End RecordTable.

(** ** The loop of [ExperimentBrowser.launch] *)

(** [s.lstrip(' ')] and [s.rstrip(' ')] *)
Fixpoint lstrip_space (s : string) : string :=
  match s with
  | String a s' => if Ascii.eqb a " "%char then lstrip_space s' else s
  | EmptyString => EmptyString
  end.

Definition rstrip_space (s : string) : string :=
  String.rev (lstrip_space (String.rev s)).

(** [try: c  except Exception as name: handler]: [SystemExit] is not an
    [Exception] and passes through. *)
Definition try_except_Exception {S A} (c : M S A) (handler : string → string → M S A)
  : M S A :=
  λ s, match c s with
       | (Raise (PyError cls msg), s') => handler cls msg s'
       | other => other
       end.

(** What a handler returns: the [QUIT] sentinel or [None]. *)
Inductive handler_out : Type :=
  | QUIT
  | NONE.

Definition is_QUIT (out : handler_out) : bool :=
  match out with
  | QUIT => true
  | NONE => false
  end.

Definition set_exp_record_dict (self : ExperimentBrowser.t)
    (d : list (string * list string)) : ExperimentBrowser.t :=
  {| ExperimentBrowser.root_experiment := ExperimentBrowser.root_experiment self;
     ExperimentBrowser.close_after := ExperimentBrowser.close_after self;
     ExperimentBrowser.just_last_record := ExperimentBrowser.just_last_record self;
     ExperimentBrowser.catch_errors := ExperimentBrowser.catch_errors self;
     ExperimentBrowser.exp_record_dict := d;
     ExperimentBrowser.raise_display_errors := ExperimentBrowser.raise_display_errors self;
     ExperimentBrowser.view_mode := ExperimentBrowser.view_mode self;
     ExperimentBrowser._filter := ExperimentBrowser._filter self;
     ExperimentBrowser.truncate_result_to := ExperimentBrowser.truncate_result_to self;
     ExperimentBrowser.cache_result_string := ExperimentBrowser.cache_result_string self;
     ExperimentBrowser.remove_prefix := ExperimentBrowser.remove_prefix self;
     ExperimentBrowser.display_format := ExperimentBrowser.display_format self |}.

Definition set_just_last_record (self : ExperimentBrowser.t) (v : bool)
  : ExperimentBrowser.t :=
  {| ExperimentBrowser.root_experiment := ExperimentBrowser.root_experiment self;
     ExperimentBrowser.close_after := ExperimentBrowser.close_after self;
     ExperimentBrowser.just_last_record := v;
     ExperimentBrowser.catch_errors := ExperimentBrowser.catch_errors self;
     ExperimentBrowser.exp_record_dict := ExperimentBrowser.exp_record_dict self;
     ExperimentBrowser.raise_display_errors := ExperimentBrowser.raise_display_errors self;
     ExperimentBrowser.view_mode := ExperimentBrowser.view_mode self;
     ExperimentBrowser._filter := ExperimentBrowser._filter self;
     ExperimentBrowser.truncate_result_to := ExperimentBrowser.truncate_result_to self;
     ExperimentBrowser.cache_result_string := ExperimentBrowser.cache_result_string self;
     ExperimentBrowser.remove_prefix := ExperimentBrowser.remove_prefix self;
     ExperimentBrowser.display_format := ExperimentBrowser.display_format self |}.

Definition set_view_mode (self : ExperimentBrowser.t) (v : string)
  : ExperimentBrowser.t :=
  {| ExperimentBrowser.root_experiment := ExperimentBrowser.root_experiment self;
     ExperimentBrowser.close_after := ExperimentBrowser.close_after self;
     ExperimentBrowser.just_last_record := ExperimentBrowser.just_last_record self;
     ExperimentBrowser.catch_errors := ExperimentBrowser.catch_errors self;
     ExperimentBrowser.exp_record_dict := ExperimentBrowser.exp_record_dict self;
     ExperimentBrowser.raise_display_errors := ExperimentBrowser.raise_display_errors self;
     ExperimentBrowser.view_mode := v;
     ExperimentBrowser._filter := ExperimentBrowser._filter self;
     ExperimentBrowser.truncate_result_to := ExperimentBrowser.truncate_result_to self;
     ExperimentBrowser.cache_result_string := ExperimentBrowser.cache_result_string self;
     ExperimentBrowser.remove_prefix := ExperimentBrowser.remove_prefix self;
     ExperimentBrowser.display_format := ExperimentBrowser.display_format self |}.

Definition set_filter (self : ExperimentBrowser.t) (v : option string)
  : ExperimentBrowser.t :=
  {| ExperimentBrowser.root_experiment := ExperimentBrowser.root_experiment self;
     ExperimentBrowser.close_after := ExperimentBrowser.close_after self;
     ExperimentBrowser.just_last_record := ExperimentBrowser.just_last_record self;
     ExperimentBrowser.catch_errors := ExperimentBrowser.catch_errors self;
     ExperimentBrowser.exp_record_dict := ExperimentBrowser.exp_record_dict self;
     ExperimentBrowser.raise_display_errors := ExperimentBrowser.raise_display_errors self;
     ExperimentBrowser.view_mode := ExperimentBrowser.view_mode self;
     ExperimentBrowser._filter := v;
     ExperimentBrowser.truncate_result_to := ExperimentBrowser.truncate_result_to self;
     ExperimentBrowser.cache_result_string := ExperimentBrowser.cache_result_string self;
     ExperimentBrowser.remove_prefix := ExperimentBrowser.remove_prefix self;
     ExperimentBrowser.display_format := ExperimentBrowser.display_format self |}.

(** [ExperimentBrowser.allruns] *)
Definition allruns (self : ExperimentBrowser.t) : ExperimentBrowser.t :=
  set_just_last_record self (negb (ExperimentBrowser.just_last_record self)).

(** [ExperimentBrowser.filter] *)
Definition filter_handler (self : ExperimentBrowser.t) (user_range : string)
  : ExperimentBrowser.t :=
  set_filter self
    (if Py.contains user_range ["-"; "--clear"] then None else Some user_range).

(** [ExperimentBrowser.view] *)
Definition view (self : ExperimentBrowser.t) (mode : string) : ExperimentBrowser.t :=
  set_view_mode self mode.

(** [all_experiments[exp_name] for exp_name in names], as pairs. *)
Fixpoint lookup_all (names : list string) (d : list (string * list string))
  : result (list (string * list string)) :=
  match names with
  | [] => Ok []
  | exp_name :: rest =>
      match od_get exp_name d with
      | Raise e => Raise e
      | Ok ids =>
          match lookup_all rest d with
          | Ok pairs => Ok ((exp_name, ids) :: pairs)
          | Raise e => Raise e
          end
      end
  end.

Definition launch_input_prompt : string :=
  "Enter command or experiment # to run (h for help) >> ".

Section LaunchLoop.
(** Imported or embedded elsewhere: the experiment library and the listing of
    an experiment's records in the store, the selectors, the rendering of the
    list ([get_experiment_list_str], embedded above over the cache), the text
    of the record table, [interpret_numbers], [levenshtein_distance], the
    order [keys] of [func_dict], the help text, and the handlers that only
    drive other modules ([other_handler name self args] for run, test, show,
    call, selectexp, selectrec, sidebyside, argtable, compare, errortrace,
    records and pull). *)
Variable library_keys : list string.
Variable experiment_id_to_record_ids : list string → string → list string.
Variable select_experiments :
  string → list (string * list string) → result (list string).
Variable select_experiment_records :
  string → list (string * list string) → result (list string).
Variable render_experiment_list :
  ExperimentBrowser.t → list (string * list string) → result string.
Variable get_record_table : list string → string.
Variable interpret_numbers : string → result (option (list nat)).
Variable levenshtein_distance : string → string → nat.
Variable keys : list string.
Variable HELP_TEXT : string.
Variable other_handler : string → ExperimentBrowser.t → list string → M console unit.

Definition type_error {A} (cmd : string) : M console A :=
  raise (PyError "TypeError" (cmd +:+ "() called with the wrong number of arguments")).

(** [ExperimentBrowser.help] *)
Definition help (self : ExperimentBrowser.t) : M console unit :=
  _warn_with_prompt (Some HELP_TEXT) "Press Enter to exit help."
    (negb (ExperimentBrowser.close_after self));;
  ret tt.

(** [ExperimentBrowser.explist] *)
Definition explist (self : ExperimentBrowser.t) (surround : string) : M console unit :=
  print (Py.join (String "010"%char EmptyString)
           (map (λ k, surround +:+ k +:+ surround)
              (ExperimentBrowser.exp_record_dict self).*1));;
  _warn_with_prompt None default_prompt (negb (ExperimentBrowser.close_after self));;
  ret tt.

(** A handler of another module, called with between [lo] and [hi]
    arguments ([hi = None]: any number from [lo] on). *)
Definition call_other (name : string) (lo : nat) (hi : option nat)
    (self : ExperimentBrowser.t) (args : list string)
  : M console (ExperimentBrowser.t * handler_out) :=
  if (lo <=? length args)
     && match hi with Some h => length args <=? h | None => true end
  then (other_handler name self args;; ret (self, NONE))
  else type_error name.

(** [func_dict[cmd]] applied to the argument tokens, for a registered [cmd]. *)
Definition call_handler (self : ExperimentBrowser.t) (cmd : string) (args : list string)
  : M console (ExperimentBrowser.t * handler_out) :=
  if String.eqb cmd "run" then call_other "run" 1 None self args
  else if String.eqb cmd "test" then call_other "test" 1 (Some 1) self args
  else if String.eqb cmd "show" then call_other "show" 1 (Some 1) self args
  else if String.eqb cmd "call" then call_other "call" 1 (Some 1) self args
  else if String.eqb cmd "selectexp" then call_other "selectexp" 1 (Some 1) self args
  else if String.eqb cmd "selectrec" then call_other "selectrec" 1 (Some 1) self args
  else if String.eqb cmd "allruns" then
    match args with
    | [] => ret (allruns self, NONE)
    | _ => type_error cmd
    end
  else if String.eqb cmd "view" then
    match args with
    | [mode] => ret (view self mode, NONE)
    | _ => type_error cmd
    end
  else if String.eqb cmd "h" then
    match args with
    | [] => help self;; ret (self, NONE)
    | _ => type_error cmd
    end
  else if String.eqb cmd "filter" then
    match args with
    | [user_range] => ret (filter_handler self user_range, NONE)
    | _ => type_error cmd
    end
  else if String.eqb cmd "explist" then
    match args with
    | [] => explist self "";; ret (self, NONE)
    | [surround] => explist self surround;; ret (self, NONE)
    | _ => type_error cmd
    end
  else if String.eqb cmd "sidebyside" then call_other "sidebyside" 1 (Some 1) self args
  else if String.eqb cmd "argtable" then call_other "argtable" 1 (Some 1) self args
  else if String.eqb cmd "compare" then call_other "compare" 1 (Some 1) self args
  else if String.eqb cmd "delete" then
    match args with
    | [user_range] =>
        ExperimentBrowser_delete select_experiment_records get_record_table
          (ExperimentBrowser.exp_record_dict self) (ExperimentBrowser.close_after self)
          user_range;;
        ret (self, NONE)
    | _ => type_error cmd
    end
  else if String.eqb cmd "errortrace" then call_other "errortrace" 1 (Some 1) self args
  else if String.eqb cmd "q" then
    match args with
    | [] => ret (self, QUIT)
    | _ => type_error cmd
    end
  else if String.eqb cmd "records" then call_other "records" 0 (Some 0) self args
  else if String.eqb cmd "pull" then call_other "pull" 2 (Some 2) self args
  else raise (PyError "KeyError" cmd).

(** The body of the [try]: [None] stands for [continue], [Some b] for
    reaching the test [out is self.QUIT or self.close_after] with value [b]. *)
Definition try_body (self : ExperimentBrowser.t) (user_input : string)
  : M console (ExperimentBrowser.t * option bool) :=
  match Dispatch.dispatch interpret_numbers levenshtein_distance keys user_input with
  | Raise e => raise e
  | Ok Dispatch.Continue => ret (self, None)
  | Ok (Dispatch.Call cmd args) =>
      let! r := call_handler self cmd args in
      ret (r.1, Some (is_QUIT r.2 || ExperimentBrowser.close_after r.1))
  | Ok (Dispatch.Run cmd args) =>
      other_handler "run" self (cmd :: args);;
      ret (self, Some (ExperimentBrowser.close_after self))
  | Ok (Dispatch.AskUnrecognised prompt) =>
      let! response := raw_input prompt in
      (if String.eqb (Py.lower response) "h" then help self else ret tt);;
      ret (self, Some (ExperimentBrowser.close_after self))
  end.

Definition stacktrace_prompt (cls msg : string) : string :=
  cls +:+ ": " +:+ msg +:+ String "010"%char
    ("Enter " +:+ dquote +:+ "e" +:+ dquote
     +:+ " to view the stacktrace, or anything else to continue.").

(** The [try ... except Exception] statement around the body: the boolean
    says whether the pass ended in [break]. *)
Definition try_catch (self : ExperimentBrowser.t) (user_input : string)
  : M console (ExperimentBrowser.t * bool) :=
  try_except_Exception
    (let! r := try_body self user_input in
     ret (r.1, match r.2 with Some b => b | None => false end))
    (λ cls msg,
       if ExperimentBrowser.catch_errors self then
         let! res := raw_input (stacktrace_prompt cls msg) in
         if String.eqb res "e" then raise (PyError cls msg) else ret (self, false)
       else raise (PyError cls msg)).

Definition current_record_dict (self : ExperimentBrowser.t)
  : M console (list (string * list string)) :=
  λ c, (Ok (reload_record_dict library_keys (ExperimentBrowser.root_experiment self)
              (experiment_id_to_record_ids (record_store c))
              (ExperimentBrowser.just_last_record self)), c).

(** One pass of the [while True] loop; the boolean says whether it ended in
    [break]. *)
Definition launch_pass (self : ExperimentBrowser.t) (command : option string)
  : M console (ExperimentBrowser.t * bool) :=
  let! all_experiments := current_record_dict self in
  print "==================== Experiments ====================";;
  let! shown :=
    match ExperimentBrowser._filter self with
    | None => ret all_experiments
    | Some f =>
        let! names := lift (select_experiments f all_experiments) in
        let! pairs := lift (lookup_all names all_experiments) in
        ret (OrderedDict pairs)
    end in
  let self := set_exp_record_dict self shown in
  let! table := lift (render_experiment_list self shown) in
  print table;;
  match ExperimentBrowser._filter self with
  | Some f =>
      print ("[Filtered with " +:+ dquote +:+ f +:+ dquote +:+ " to show "
             +:+ pretty (length shown) +:+ "/" +:+ pretty (length all_experiments)
             +:+ " experiments]")
  | None => ret tt
  end;;
  print "-----------------------------------------------------";;
  let! user_input :=
    match command with
    | None =>
        let! line := raw_input launch_input_prompt in
        ret (rstrip_space (lstrip_space line))
    | Some c => ret c
    end in
  try_catch self user_input.

(** [launch], run for at most [fuel] passes: [Some self] when the loop ended
    in [break], [None] when the passes ran out. *)
Fixpoint launch (fuel : nat) (self : ExperimentBrowser.t) (command : option string)
  : M console (option ExperimentBrowser.t) :=
  match fuel with
  | 0 => ret None
  | S fuel' =>
      let! r := launch_pass self command in
      if r.2 : bool then ret (Some r.1) else launch fuel' r.1 None
  end.

End LaunchLoop.

(** ** Further vocabulary *)

(** Whether the character [c] occurs in [s]. *)
Fixpoint occurs (c : ascii) (s : string) : bool :=
  match s with
  | EmptyString => false
  | String a s' => Ascii.eqb a c || occurs c s'
  end.

(** A computation over the cache that leaves the cache directory and the
    warnings alone. *)
Definition cache_untouched {A} (c : M world A) : Prop :=
  ∀ w, files (c w).2 = files w ∧ warnings (c w).2 = warnings w.

(** The console after a pass of [launch] has printed the banner, the table
    and the rule, with no filter active. *)
Definition after_listing (table : string) (c : console) : console :=
  {| stdin := stdin c;
     stdout := ((stdout c ++ ["==================== Experiments ===================="])
                ++ [table])
               ++ ["-----------------------------------------------------"];
     record_store := record_store c;
     clear_calls := clear_calls c |}.

(** ... and has then asked for a command line. *)
Definition after_prompt (table : string) (c : console) : console :=
  (raw_input launch_input_prompt (after_listing table c)).2.

(** The dictionary a pass of [launch] shows: every experiment, or with a
    filter active those the selector names, looked up in [all_experiments]. *)
Definition shown_record_dict
    (select_experiments : string → list (string * list string) → result (list string))
    (_filter : option string) (all_experiments : list (string * list string))
  : result (list (string * list string)) :=
  match _filter with
  | None => Ok all_experiments
  | Some f =>
      match select_experiments f all_experiments with
      | Raise e => Raise e
      | Ok names =>
          match lookup_all names all_experiments with
          | Raise e => Raise e
          | Ok pairs => Ok (OrderedDict pairs)
          end
      end
  end.

(** The line a pass hands to its [try] block: the command [launch] was
    called with, or else the next line typed, without the spaces around
    it. *)
Definition command_line (command : option string) (c : console) : option string :=
  match command with
  | Some user_input => Some user_input
  | None =>
      match stdin c with
      | line :: _ => Some (rstrip_space (lstrip_space line))
      | [] => None
      end
  end.

(** The console when a pass enters its [try] block, [self] being the browser
    with the shown dictionary in place: the banner, the table, the note on
    the filter when one is active and the rule have been printed; a typed
    command has been asked for and its line consumed. *)
Definition entering_try (self : ExperimentBrowser.t) (table : string)
    (all_experiments : list (string * list string)) (command : option string)
    (c : console) : console :=
  {| stdin := match command with Some _ => stdin c | None => tail (stdin c) end;
     stdout :=
       stdout c
       ++ ["==================== Experiments ===================="; table]
       ++ match ExperimentBrowser._filter self with
          | Some f =>
              ["[Filtered with " +:+ dquote +:+ f +:+ dquote +:+ " to show "
               +:+ pretty (length (ExperimentBrowser.exp_record_dict self)) +:+ "/"
               +:+ pretty (length all_experiments) +:+ " experiments]"]
          | None => []
          end
       ++ ["-----------------------------------------------------"]
       ++ match command with Some _ => [] | None => [launch_input_prompt] end;
     record_store := record_store c;
     clear_calls := clear_calls c |}.

(** The number of occurrences of the character [c] in [s]. *)
Fixpoint count_char (c : ascii) (s : string) : nat :=
  match s with
  | EmptyString => 0
  | String a s' => (if Ascii.eqb a c then 1 else 0) + count_char c s'
  end.

(** A record and accessors for running the record table. *)
Module RecordTableModel.

Definition get_id (r : Model.rec) : result string := Ok ("id:" +:+ Model.timestamp r).

Definition get_field_text_or_question (r : Model.rec) (f : ExpInfoFields.t)
  : result string :=
  match f with
  | ExpInfoFields.NOTES =>
      match Model.notes r with
      | Some (Some n) => Ok (Py.join ";" n)
      | _ => Ok "?"
      end
  | _ => Model.info_get_field_text r f
  end.

Definition all_equal (l : list nat) : bool :=
  match l with
  | [] => true
  | x :: rest => forallb (Nat.eqb x) rest
  end.

End RecordTableModel.

(** Settings and collaborators for running [launch]: two experiments in the
    library, no filter, the nested display. *)
Module LaunchModel.

Definition self : ExperimentBrowser.t :=
  {| ExperimentBrowser.root_experiment := None;
     ExperimentBrowser.close_after := false;
     ExperimentBrowser.just_last_record := false;
     ExperimentBrowser.catch_errors := true;
     ExperimentBrowser.exp_record_dict := [];
     ExperimentBrowser.raise_display_errors := false;
     ExperimentBrowser.view_mode := "full";
     ExperimentBrowser._filter := None;
     ExperimentBrowser.truncate_result_to := Some 100;
     ExperimentBrowser.cache_result_string := false;
     ExperimentBrowser.remove_prefix := true;
     ExperimentBrowser.display_format := "nested" |}.

Definition library_keys : list string := ["exp.a"; "exp.b"].

Definition experiment_id_to_record_ids (store : list string) (name : string)
  : list string :=
  filter (λ rid, String.prefix name rid = true) store.

(** A selector that knows [all] and experiment names, and rejects the rest. *)
Definition select_experiments (user_range : string) (d : list (string * list string))
  : result (list string) :=
  if String.eqb user_range "all" then Ok d.*1
  else if Py.contains user_range d.*1 then Ok [user_range]
  else Raise (PyError "RecordSelectionError" user_range).

Definition render_experiment_list (b : ExperimentBrowser.t)
    (d : list (string * list string)) : result string :=
  Ok (Py.join ", " d.*1).

(** Every handler of another module reports its name; [show] fails. *)
Definition other_handler (name : string) (b : ExperimentBrowser.t) (args : list string)
  : M console unit :=
  if String.eqb name "show" then raise (PyError "IOError" "no such record")
  else print ("<" +:+ name +:+ ">").

Definition typing (lines : list string) : console :=
  {| stdin := lines; stdout := []; record_store := ["exp.a.1"; "exp.b.1"; "exp.a.2"];
     clear_calls := [] |}.

Definition run_launch (fuel : nat) (b : ExperimentBrowser.t) (command : option string)
  : M console (option ExperimentBrowser.t) :=
  launch library_keys experiment_id_to_record_ids select_experiments
    DeleteModel.select_experiment_records render_experiment_list
    DeleteModel.get_record_table Dispatch.interpret_index Dispatch.lev
    Dispatch.func_dict_keys "help text" other_handler fuel b command.

End LaunchModel.

(** Further worlds and a second environment for running the row fetchers:
    [repaired] is [Model.env] after the broken record's result has become
    renderable again. *)
Module CacheModel.

Definition repaired : externals Model.rec :=
  Build_externals Model.rec
    Model.load_experiment_record Model.info_get_field_text Model.info_has_field
    Model.info_get_notes (λ r, Ok (Model.args_changed r)) (λ _, Ok "accuracy: 0.50")
    Model.truncate_string Model.compute_fixed_hash Model.get_artemis_data_path
    (λ status, String.eqb status "Started").

Definition unreadable_at (path : string) : world :=
  {| files := {[ path := Unreadable ]}; warnings := []; getter_calls := [] |}.

End CacheModel.

(** A record whose first note runs over two lines. *)
Module NotesModel.

Definition two_line_note : string :=
  "cold start" +:+ String "010"%char "warm start".

Definition annotated : Model.rec :=
  {| Model.timestamp := "2017-03-04 08:00"; Model.runtime := "1.0s";
     Model.status := "Finished"; Model.args_changed := "<No Change>";
     Model.oneline_result := Ok "accuracy: 0.71";
     Model.notes := Some (Some [two_line_note; "seed 3"]) |}.

End NotesModel.

(** Handlers of other modules that print the call they received. *)
Module EchoModel.

Definition other_handler (name : string) (b : ExperimentBrowser.t) (args : list string)
  : M console unit :=
  print (name +:+ "(" +:+ Py.join ", " args +:+ ")").

End EchoModel.

(** * Facts about the row fetchers *)

Import ExpRecordDisplayFields.

Lemma add_calls_nil w : add_calls [] w = w.
Proof. destruct w; unfold add_calls; simpl. by rewrite app_nil_r. Qed.

Lemma add_calls_app cs1 cs2 w :
  add_calls cs2 (add_calls cs1 w) = add_calls (cs1 ++ cs2) w.
Proof. unfold add_calls; simpl. by rewrite app_assoc. Qed.

Lemma add_call_calls c w : add_call c w = add_calls [c] w.
Proof. reflexivity. Qed.

Lemma frames_ret {A} (a : A) : frames (ret a) (Ok a) [].
Proof. intros w. unfold ret. by rewrite add_calls_nil. Qed.

Lemma frames_bind_ok {A B} (c : M world A) (k : A → M world B) a cs1 r cs2 :
  frames c (Ok a) cs1 → frames (k a) r cs2 → frames (bind c k) r (cs1 ++ cs2).
Proof.
  intros Hc Hk w. unfold bind. rewrite Hc, Hk. by rewrite add_calls_app.
Qed.

Lemma frames_bind_raise {A B} (c : M world A) (k : A → M world B) e cs :
  frames c (Raise e) cs → frames (bind c k) (Raise e) cs.
Proof. intros Hc w. unfold bind. by rewrite Hc. Qed.

Section RowFetchFacts.
Context {Rec : Type} (E : externals Rec).
Implicit Types (rec : Rec) (h : ExpRecordDisplayFields.t)
  (headers : list ExpRecordDisplayFields.t) (w : world).

Lemma frames_call_getter record_id rec h :
  frames (call_getter E record_id rec h) (_exp_record_field_getters E h rec)
    [(record_id, h)].
Proof. intros w. reflexivity. Qed.

Lemma guarded_values_frames record_id rec headers :
  frames (guarded_values E record_id rec headers)
    (Ok (map (cell_or_placeholder E rec) headers))
    (map (pair record_id) headers).
Proof.
  induction headers as [|h hs IH]; simpl.
  - apply frames_ret.
  - intros w. unfold bind, try_except, ret. rewrite frames_call_getter.
    unfold cell_or_placeholder.
    destruct (_exp_record_field_getters E h rec) as [v|e];
      rewrite IH, add_calls_app; reflexivity.
Qed.

Lemma strict_values_ok record_id rec headers :
  Forall (getter_ok E rec) headers →
  frames (strict_values E record_id rec headers)
    (Ok (map (cell_or_placeholder E rec) headers))
    (map (pair record_id) headers).
Proof.
  induction 1 as [|h hs [v Hv] _ IH]; simpl.
  - apply frames_ret.
  - intros w. unfold bind, ret. rewrite frames_call_getter.
    unfold cell_or_placeholder. rewrite Hv, IH, add_calls_app. reflexivity.
Qed.

Lemma strict_values_raise record_id rec before h after e :
  Forall (getter_ok E rec) before →
  _exp_record_field_getters E h rec = Raise e →
  frames (strict_values E record_id rec (before ++ h :: after))
    (Raise e) (map (pair record_id) (before ++ [h])).
Proof.
  intros Hb He. induction Hb as [|h0 hs [v Hv] _ IH]; simpl.
  - intros w. unfold bind. rewrite frames_call_getter, He. reflexivity.
  - intros w. unfold bind. rewrite frames_call_getter, Hv, IH, add_calls_app.
    reflexivity.
Qed.

(** Whatever the getters do, the strict comprehension only appends calls, and
    a list it returns has one cell per header. *)
Lemma strict_values_frames record_id rec headers :
  ∃ r cs, frames (strict_values E record_id rec headers) r cs
          ∧ ∀ vs, r = Ok vs →
              vs = map (cell_or_placeholder E rec) headers
              ∧ cs = map (pair record_id) headers.
Proof.
  induction headers as [|h hs (r & cs & Hf & Hlen)]; simpl.
  - exists (Ok []), []. split; [apply frames_ret|]. by intros vs [= <-].
  - destruct (_exp_record_field_getters E h rec) as [v|e] eqn:Hg.
    + destruct r as [vs|e].
      * exists (Ok (v :: vs)), ((record_id, h) :: cs). split.
        -- intros w. unfold bind, ret. rewrite frames_call_getter, Hg, Hf.
           by rewrite add_calls_app.
        -- intros ? [= <-]. destruct (Hlen vs eq_refl) as [-> ->].
           split; [|done]. simpl. f_equal. unfold cell_or_placeholder.
           by rewrite Hg.
      * exists (Raise e), ((record_id, h) :: cs). split; [|done].
        intros w. unfold bind, ret. rewrite frames_call_getter, Hg, Hf.
        by rewrite add_calls_app.
    + exists (Raise e), [(record_id, h)]. split; [|done].
      intros w. unfold bind. by rewrite frames_call_getter, Hg.
Qed.

Lemma rows_frames record_id headers raise_display_errors truncate_to :
  ∃ r cs,
    frames (_get_record_rows E record_id headers raise_display_errors truncate_to) r cs
    ∧ ∀ vs, r = Ok vs →
        length vs = length headers ∧ cs = map (pair record_id) headers.
Proof.
  unfold _get_record_rows.
  destruct (load_experiment_record E record_id) as [rec|e] eqn:Hload.
  2:{ exists (Raise e), []. split; [|done]. intros w. unfold bind, lift.
      by rewrite add_calls_nil. }
  assert (∃ r cs,
    frames (if negb raise_display_errors then guarded_values E record_id rec headers
            else strict_values E record_id rec headers) r cs
    ∧ ∀ vs, r = Ok vs → vs = map (cell_or_placeholder E rec) headers
                        ∧ cs = map (pair record_id) headers)
    as (r & cs & Hf & Hok).
  { destruct raise_display_errors; simpl.
    - apply strict_values_frames.
    - eexists _, _. split; [apply guarded_values_frames|]. by intros vs [= <-]. }
  destruct r as [vs|e].
  - destruct (Hok vs eq_refl) as [-> ->].
    exists (Ok (truncate_all E truncate_to (map (cell_or_placeholder E rec) headers))),
      (map (pair record_id) headers). split.
    + intros w. unfold bind, lift. rewrite Hf.
      by destruct truncate_to.
    + intros ? [= <-]. split; [|done].
      destruct truncate_to; simpl; by rewrite ?length_map.
  - exists (Raise e), cs. split; [|done].
    intros w. unfold bind, lift. by rewrite Hf.
Qed.

End RowFetchFacts.

Section CacheFacts.
Context {Rec : Type} (E : externals Rec).
Implicit Types (headers : list ExpRecordDisplayFields.t) (w : world).

Lemma truncate_all_map truncate_to values :
  truncate_all E truncate_to values = map (truncate_cell E truncate_to) values.
Proof. destruct truncate_to; simpl; [done|]. by rewrite map_id. Qed.

(** One run of [_get_record_rows] determines how it runs from every world. *)
Lemma rows_frames_at record_id headers raise_display_errors truncate_to w0 r w0' :
  _get_record_rows E record_id headers raise_display_errors truncate_to w0 = (r, w0') →
  ∃ cs,
    frames (_get_record_rows E record_id headers raise_display_errors truncate_to) r cs
    ∧ ∀ vs, r = Ok vs →
        length vs = length headers ∧ cs = map (pair record_id) headers.
Proof.
  intros Hrun.
  destruct (rows_frames E record_id headers raise_display_errors truncate_to)
    as (r' & cs & Hf & Hok).
  rewrite Hf in Hrun. injection Hrun as -> _. eauto.
Qed.

Lemma rows_length record_id headers raise_display_errors truncate_to w vs w' :
  _get_record_rows E record_id headers raise_display_errors truncate_to w = (Ok vs, w') →
  length vs = length headers.
Proof.
  intros Hrun. apply rows_frames_at in Hrun as (cs & _ & Hok).
  by destruct (Hok vs eq_refl).
Qed.

(** Without [raise_display_errors], a record that loads always gets a row. *)
Lemma rows_guarded_total record_id rec headers truncate_to :
  load_experiment_record E record_id = Ok rec →
  frames (_get_record_rows E record_id headers false truncate_to)
    (Ok (truncate_all E truncate_to (map (cell_or_placeholder E rec) headers)))
    (map (pair record_id) headers).
Proof.
  intros Hload w. unfold _get_record_rows, bind, lift. rewrite Hload. simpl.
  rewrite guarded_values_frames. by destruct truncate_to.
Qed.

Lemma compute_and_store_run path record_id headers raise_display_errors truncate_to r cs :
  frames (_get_record_rows E record_id (headers ++ [STATUS]) raise_display_errors
            truncate_to) r cs →
  ∀ w, compute_and_store E path record_id headers raise_display_errors truncate_to w
       = stored_outcome E path r cs w.
Proof.
  intros Hf w. unfold compute_and_store, stored_outcome, bind. rewrite Hf.
  destruct r as [ips|e]; [|done].
  destruct (last ips) as [status|]; [|done].
  by destruct (is_STARTED E status).
Qed.

Lemma cached_hit record_id headers raise_display_errors truncate_to w cells :
  files w !! cache_path E record_id headers = Some (Pickled cells) →
  _get_record_rows_cached E record_id headers raise_display_errors truncate_to w
  = (Ok cells, w).
Proof.
  intros Hfile. unfold _get_record_rows_cached, bind, os_path_exists, try_except,
    pickle_load, ret.
  rewrite Hfile. rewrite bool_decide_eq_true_2 by eauto. by rewrite Hfile.
Qed.

Lemma cached_miss record_id headers raise_display_errors truncate_to w :
  files w !! cache_path E record_id headers = None →
  _get_record_rows_cached E record_id headers raise_display_errors truncate_to w
  = compute_and_store E (cache_path E record_id headers) record_id headers
      raise_display_errors truncate_to w.
Proof.
  intros Hfile. unfold _get_record_rows_cached, bind, os_path_exists, ret.
  rewrite Hfile. rewrite bool_decide_eq_false_2; [done|]. by intros [? ?].
Qed.

Lemma cached_unreadable record_id headers raise_display_errors truncate_to w :
  files w !! cache_path E record_id headers = Some Unreadable →
  _get_record_rows_cached E record_id headers raise_display_errors truncate_to w
  = compute_and_store E (cache_path E record_id headers) record_id headers
      raise_display_errors truncate_to (add_warning (load_warning record_id) w).
Proof.
  intros Hfile. unfold _get_record_rows_cached, bind, os_path_exists, try_except,
    pickle_load, logging_warn, ret.
  rewrite Hfile. rewrite bool_decide_eq_true_2 by eauto. by rewrite Hfile.
Qed.

(** A first fetch of a record whose status cell does not test equal to
    [ExpStatusOptions.STARTED] writes the
    row without its last cell, and every later fetch returns that file. *)
Lemma terminal_fetch_then_hit record_id headers r1 t1 w0 w0' ips status w :
  _get_record_rows E record_id (headers ++ [STATUS]) r1 t1 w0 = (Ok ips, w0') →
  last ips = Some status →
  is_STARTED E status = false →
  files w !! cache_path E record_id headers = None →
  ∃ w1,
    _get_record_rows_cached E record_id headers r1 t1 w = (Ok (Py.but_last ips), w1)
    ∧ files w1 !! cache_path E record_id headers
      = Some (Pickled (Py.but_last (Py.but_last ips)))
    ∧ ∀ r2 t2,
        _get_record_rows_cached E record_id headers r2 t2 w1
        = (Ok (Py.but_last (Py.but_last ips)), w1).
Proof.
  intros Hrun Hlast Hst Hmiss.
  apply rows_frames_at in Hrun as (cs & Hf & _).
  rewrite cached_miss by done.
  rewrite (compute_and_store_run _ _ _ _ _ _ _ Hf). unfold stored_outcome.
  rewrite Hlast, Hst.
  eexists. split; [done|].
  assert (∀ w', files (set_files (λ fs, <[cache_path E record_id headers :=
      Pickled (Py.but_last (Py.but_last ips))]> fs) w')
      !! cache_path E record_id headers
      = Some (Pickled (Py.but_last (Py.but_last ips)))) as Hin.
  { intros w'. simpl. apply lookup_insert_eq. }
  split; [apply Hin|]. intros r2 t2. apply cached_hit, Hin.
Qed.

End CacheFacts.

(** * The row fetchers: row width, fault isolation, caching *)

Section CacheTheorems.
Context {Rec : Type} (E : externals Rec).
Implicit Types (headers : list ExpRecordDisplayFields.t) (w : world).

Lemma but_last_length {A} (l : list A) : length (Py.but_last l) = length l - 1.
Proof.
  unfold Py.but_last. destruct (decide (l = [])) as [->|Hne]; [done|].
  apply last_is_Some in Hne as [x Hx]. apply last_Some in Hx as [l' ->].
  rewrite removelast_last, length_app. simpl. lia.
Qed.

(** On the miss path the cached fetch returns one cell per header. *)
Lemma cached_miss_row_length record_id headers raise_display_errors truncate_to w row w' :
  files w !! cache_path E record_id headers = None →
  _get_record_rows_cached E record_id headers raise_display_errors truncate_to w
  = (Ok row, w') →
  length row = length headers.
Proof.
  intros Hmiss. rewrite cached_miss by done.
  destruct (rows_frames E record_id (headers ++ [STATUS]) raise_display_errors
              truncate_to) as (r & cs & Hf & Hok).
  rewrite (compute_and_store_run _ _ _ _ _ _ _ _ Hf). unfold stored_outcome.
  destruct r as [ips|e]; [|done].
  destruct (Hok ips eq_refl) as [Hlen _]. rewrite length_app in Hlen. simpl in Hlen.
  destruct (last ips) as [status|]; [|done].
  destruct (is_STARTED E status); intros [= <- _];
    rewrite but_last_length; lia.
Qed.

(** The test of line 617 is made on the status cell of the row, that is
    after a failing getter has been replaced by the placeholder and after
    the truncation.  When that cell tests equal to
    [ExpStatusOptions.STARTED], a cached
    fetch never changes the cache directory; and starting without a cache
    file for the key, any number of repeated fetches each return the freshly
    computed row, each invoke every getter again (the requested headers and
    the status), and leave the directory as it was, so still without a file
    for the key. *)
Lemma started_status_cell_is_recomputed_and_never_stored
    record_id headers raise_display_errors truncate_to w0 w0' info_plus_status status w :
  _get_record_rows E record_id (headers ++ [STATUS]) raise_display_errors truncate_to w0
  = (Ok info_plus_status, w0') →
  last info_plus_status = Some status →
  is_STARTED E status = true →
  files (_get_record_rows_cached E record_id headers raise_display_errors truncate_to w).2
  = files w
  ∧ (files w !! cache_path E record_id headers = None →
     ∀ n, ∃ w',
       fetch_repeatedly E n record_id headers raise_display_errors truncate_to w
       = (Ok (replicate n (Py.but_last info_plus_status)), w')
       ∧ files w' = files w
       ∧ length (getter_calls w')
         = length (getter_calls w) + n * (length headers + 1)).
Proof.
  intros Hrun Hlast Hst. apply rows_frames_at in Hrun as (cs & Hf & Hok).
  destruct (Hok _ eq_refl) as [_ ->].
  assert (∀ w1, compute_and_store E (cache_path E record_id headers) record_id headers
            raise_display_errors truncate_to w1
          = (Ok (Py.but_last info_plus_status),
             add_calls (map (pair record_id) (headers ++ [STATUS])) w1)) as Hstore.
  { intros w1. rewrite (compute_and_store_run _ _ _ _ _ _ _ _ Hf).
    unfold stored_outcome. by rewrite Hlast, Hst. }
  split.
  - destruct (files w !! cache_path E record_id headers) as [[cells|]|] eqn:Hfile.
    + by erewrite cached_hit.
    + rewrite cached_unreadable, Hstore by done. done.
    + rewrite cached_miss, Hstore by done. done.
  - intros Hmiss n. revert w Hmiss. induction n as [|n IH]; intros w Hmiss.
    + exists w. simpl. unfold ret. repeat split; lia.
    + simpl. unfold bind at 1. rewrite cached_miss, Hstore by done.
      set (w1 := add_calls _ w).
      destruct (IH w1) as (w' & Hrep & Hfiles & Hcalls); [done|].
      exists w'. unfold bind, ret. rewrite Hrep. repeat split; [done|].
      rewrite Hcalls. subst w1. simpl.
      rewrite !length_app, !length_map, length_app. simpl. lia.
Qed.

(** With [raise_display_errors] off, or when no getter fails, a record that
    loads gets the row of its getters' values, each getter invoked once. *)
Lemma rows_recomputed record_id rec headers raise_display_errors truncate_to :
  load_experiment_record E record_id = Ok rec →
  raise_display_errors = false ∨ Forall (getter_ok E rec) headers →
  frames (_get_record_rows E record_id headers raise_display_errors truncate_to)
    (Ok (map (λ h, truncate_cell E truncate_to (cell_or_placeholder E rec h)) headers))
    (map (pair record_id) headers).
Proof.
  intros Hload Hok. rewrite <- (map_map (cell_or_placeholder E rec)), <- truncate_all_map.
  destruct raise_display_errors.
  - destruct Hok as [|Hok]; [done|].
    intros w. unfold _get_record_rows, bind, lift. rewrite Hload. simpl.
    rewrite (strict_values_ok E _ _ _ Hok). by destruct truncate_to.
  - by apply rows_guarded_total.
Qed.

(** An error of the strict comprehension is that of one of its getters. *)
Lemma strict_values_raise_origin record_id rec headers w e w' :
  strict_values E record_id rec headers w = (Raise e, w') →
  ∃ h, h ∈ headers ∧ _exp_record_field_getters E h rec = Raise e.
Proof.
  revert w w'. induction headers as [|h hs IH]; intros w w'; simpl; [done|].
  unfold bind at 1. rewrite frames_call_getter.
  destruct (_exp_record_field_getters E h rec) as [v|e1] eqn:Hg.
  - unfold bind.
    destruct (strict_values E record_id rec hs (add_calls [(record_id, h)] w))
      as [[vs|e1] w1] eqn:Hrest; [done|].
    intros [= -> _]. destruct (IH _ _ Hrest) as (h' & Hin & Hh').
    exists h'. split; [by apply list_elem_of_further|done].
  - intros [= -> _]. exists h. split; [apply list_elem_of_here|done].
Qed.

(** An error of [_get_record_rows] is the loader's, or that of a getter
    invoked with [raise_display_errors] on. *)
Lemma rows_raise_origin record_id headers raise_display_errors truncate_to w e w' :
  _get_record_rows E record_id headers raise_display_errors truncate_to w = (Raise e, w') →
  load_experiment_record E record_id = Raise e
  ∨ (raise_display_errors = true
     ∧ ∃ rec h, load_experiment_record E record_id = Ok rec ∧ h ∈ headers
                ∧ _exp_record_field_getters E h rec = Raise e).
Proof.
  unfold _get_record_rows, bind, lift.
  destruct (load_experiment_record E record_id) as [rec|e0]; [|intros [= ->]; by left].
  destruct raise_display_errors; simpl.
  - destruct (strict_values E record_id rec headers w) as [[vs|e1] w1] eqn:Hrun.
    { unfold ret. by destruct truncate_to. }
    intros [= -> _]. right. split; [done|]. exists rec.
    destruct (strict_values_raise_origin _ _ _ _ _ _ Hrun) as (h & Hin & Hh).
    by exists h.
  - rewrite guarded_values_frames. unfold ret. by destruct truncate_to.
Qed.

(** C5: when the cache file for the key exists but cannot be read, the cached
    fetch logs one warning and goes on as on a miss.  Its outcome and the
    getters it invokes are those of a fetch from the same directory without
    the file.  When the record loads and the getters are guarded or do not
    fail, the row is recomputed: every cell is the value of its header's
    getter (the placeholder for a failing one), truncated; the getters of
    the headers and of the status are each invoked once; and the directory
    is left as a miss leaves it, the file replaced unless the status cell
    tests equal to [ExpStatusOptions.STARTED].  An error that reaches the
    caller is never the read failure: it is the loader's or that of a getter
    invoked with [raise_display_errors] on. *)
Theorem unreadable_cache_file_is_treated_as_miss
    record_id headers raise_display_errors truncate_to w :
  files w !! cache_path E record_id headers = Some Unreadable →
  let path := cache_path E record_id headers in
  let fetch := _get_record_rows_cached E record_id headers raise_display_errors
                 truncate_to in
  let w_miss := set_files (λ fs, delete path fs) w in
  let cell rec h :=
    truncate_cell E truncate_to
      match _exp_record_field_getters E h rec with
      | Ok v => v
      | Raise _ => "<Display Error>"
      end in
  warnings (fetch w).2 = warnings w ++ [load_warning record_id]
  ∧ (fetch w).1 = (fetch w_miss).1
  ∧ getter_calls (fetch w).2 = getter_calls (fetch w_miss).2
  ∧ (∀ rec,
       load_experiment_record E record_id = Ok rec →
       raise_display_errors = false
       ∨ Forall (getter_ok E rec) (headers ++ [STATUS]) →
       (fetch w).1 = Ok (map (cell rec) headers)
       ∧ getter_calls (fetch w).2
         = getter_calls w ++ map (pair record_id) (headers ++ [STATUS])
       ∧ files (fetch w).2
         = if is_STARTED E (cell rec STATUS) then files w
           else <[path := Pickled (Py.but_last (map (cell rec) headers))]> (files w))
  ∧ (∀ e, (fetch w).1 = Raise e →
       load_experiment_record E record_id = Raise e
       ∨ (raise_display_errors = true
          ∧ ∃ rec h, load_experiment_record E record_id = Ok rec
                     ∧ h ∈ headers ++ [STATUS]
                     ∧ _exp_record_field_getters E h rec = Raise e)).
Proof.
  intros Hfile path fetch w_miss cell.
  assert (files w_miss !! path = None) as Hmiss by apply lookup_delete_eq.
  subst fetch. simpl. rewrite cached_unreadable by done.
  rewrite (cached_miss E _ _ _ _ w_miss) by done.
  destruct (rows_frames E record_id (headers ++ [STATUS]) raise_display_errors
              truncate_to) as (r & cs & Hf & Hlen).
  rewrite !(compute_and_store_run _ _ _ _ _ _ _ _ Hf).
  split; [|split; [|split; [|split]]].
  - unfold stored_outcome. destruct r as [ips|e]; [|done].
    destruct (last ips) as [status|]; [|done].
    by destruct (is_STARTED E status).
  - unfold stored_outcome. destruct r as [ips|e]; [|done].
    destruct (last ips) as [status|]; [|done].
    by destruct (is_STARTED E status).
  - unfold stored_outcome. destruct r as [ips|e]; [|done].
    destruct (last ips) as [status|]; [|done].
    by destruct (is_STARTED E status).
  - intros rec Hload Hok.
    pose proof (rows_recomputed record_id rec (headers ++ [STATUS])
                  raise_display_errors truncate_to Hload Hok) as Hrec.
    assert (r = Ok (map (λ h, truncate_cell E truncate_to (cell_or_placeholder E rec h))
                      (headers ++ [STATUS]))
            ∧ cs = map (pair record_id) (headers ++ [STATUS])) as [-> ->].
    { specialize (Hf w). rewrite Hrec in Hf. injection Hf as Hr Hw.
      split; [done|]. by apply app_inv_head in Hw. }
    unfold stored_outcome. rewrite map_app. simpl. rewrite last_snoc.
    unfold Py.but_last. rewrite !removelast_last.
    change (map (λ h, truncate_cell E truncate_to (cell_or_placeholder E rec h)) headers)
      with (map (cell rec) headers).
    change (truncate_cell E truncate_to (cell_or_placeholder E rec STATUS))
      with (cell rec STATUS).
    by destruct (is_STARTED E (cell rec STATUS)).
  - intros e He.
    destruct r as [ips|e0].
    + exfalso. unfold stored_outcome in He.
      destruct (Hlen ips eq_refl) as [Hl _]. rewrite length_app in Hl. simpl in Hl.
      destruct (last ips) as [status|] eqn:Hlast.
      * by destruct (is_STARTED E status).
      * apply last_None in Hlast. subst ips. simpl in Hl. lia.
    + simpl in He. injection He as ->.
      apply (rows_raise_origin record_id (headers ++ [STATUS]) raise_display_errors
               truncate_to w e (add_calls cs w)). apply Hf.
Qed.

(** C10: the cache file is named by the record id and the headers alone.  A
    file found under that name is returned verbatim whatever the truncation
    limit and error flag of the call; in particular the file a first fetch
    wrote under one limit and flag is what every later fetch returns, under
    any other limit and flag. *)
Theorem cache_file_is_shared_across_truncation_limits record_id headers :
  (∀ w cells raise_display_errors truncate_to,
     files w !! cache_path E record_id headers = Some (Pickled cells) →
     _get_record_rows_cached E record_id headers raise_display_errors truncate_to w
     = (Ok cells, w))
  ∧ (∀ r1 t1 w0 w0' info_plus_status status w,
       _get_record_rows E record_id (headers ++ [STATUS]) r1 t1 w0
       = (Ok info_plus_status, w0') →
       last info_plus_status = Some status →
       is_STARTED E status = false →
       files w !! cache_path E record_id headers = None →
       ∃ w1 stored,
         _get_record_rows_cached E record_id headers r1 t1 w
         = (Ok (Py.but_last info_plus_status), w1)
         ∧ files w1 !! cache_path E record_id headers = Some (Pickled stored)
         ∧ ∀ r2 t2,
             _get_record_rows_cached E record_id headers r2 t2 w1 = (Ok stored, w1)).
Proof.
  split.
  - intros w cells r t Hfile. by apply cached_hit.
  - intros r1 t1 w0 w0' ips status w Hrun Hlast Hst Hmiss.
    destruct (terminal_fetch_then_hit E _ _ _ _ _ _ _ _ w Hrun Hlast Hst Hmiss)
      as (w1 & H1 & H2 & H3).
    eauto.
Qed.

(** C4 (as amended): without [raise_display_errors], a record that loads
    always gets a row with one cell per header; the cell of a header whose
    getter fails is the placeholder "<Display Error>" and the cell of every
    other header is its getter's value, each passed through the truncation
    when a limit is set (so the placeholder stands unchanged when there is
    no limit or the truncation leaves it alone).  With
    [raise_display_errors], the first failing getter's error is the outcome
    of the call: no row is returned and no later getter is invoked. *)
Theorem faulted_cell_gets_placeholder_or_error_propagates
    record_id rec headers truncate_to w :
  load_experiment_record E record_id = Ok rec →
  (∃ row w',
     _get_record_rows E record_id headers false truncate_to w = (Ok row, w')
     ∧ length row = length headers
     ∧ (∀ i h, headers !! i = Some h →
          row !! i
          = Some (truncate_cell E truncate_to
                    (match _exp_record_field_getters E h rec with
                     | Ok v => v
                     | Raise _ => "<Display Error>"
                     end)))
     ∧ (truncate_cell E truncate_to "<Display Error>" = "<Display Error>" →
        ∀ i h e, headers !! i = Some h →
          _exp_record_field_getters E h rec = Raise e →
          row !! i = Some "<Display Error>"))
  ∧ (∀ before h after e,
       headers = before ++ h :: after →
       Forall (getter_ok E rec) before →
       _exp_record_field_getters E h rec = Raise e →
       _get_record_rows E record_id headers true truncate_to w
       = (Raise e, add_calls (map (pair record_id) (before ++ [h])) w)).
Proof.
  intros Hload. split.
  - eexists _, _. split; [apply (rows_guarded_total E _ _ _ _ Hload)|].
    rewrite truncate_all_map.
    assert (∀ i h, headers !! i = Some h →
      map (truncate_cell E truncate_to) (map (cell_or_placeholder E rec) headers) !! i
      = Some (truncate_cell E truncate_to (cell_or_placeholder E rec h))) as Hcell.
    { intros i h Hi. by rewrite !list_lookup_fmap, Hi. }
    split; [by rewrite !length_map|]. split; [exact Hcell|].
    intros Hfix i h e Hi He. rewrite (Hcell i h Hi).
    unfold cell_or_placeholder. rewrite He. f_equal. exact Hfix.
  - intros before h after e -> Hb He.
    unfold _get_record_rows, bind, lift. rewrite Hload. simpl.
    by rewrite (strict_values_raise E _ _ _ _ _ _ Hb He).
Qed.

End CacheTheorems.

(** ** The row fetchers on the three example records *)

(** C1: a finished record fetched twice from an empty cache directory.  The
    second fetch is served from the cache file (no getter is invoked), but it
    returns one cell fewer than the first: the file was written from the row
    with its last cell cut off. *)
Theorem second_fetch_of_finished_record_drops_a_cell :
  ∃ w1 w2,
    _get_record_rows_cached Model.env "demo.finished" [RUNS; RESULT_STR; NOTES]
      false (Some 100) Model.empty_world
    = (Ok ["2017-03-01 10:00"; "accuracy: 0.93"; "first run;seed 3"], w1)
    ∧ _get_record_rows_cached Model.env "demo.finished" [RUNS; RESULT_STR; NOTES]
        false (Some 100) w1
      = (Ok ["2017-03-01 10:00"; "accuracy: 0.93"], w2)
    ∧ getter_calls w2 = getter_calls w1
    ∧ _exp_record_field_getters Model.env STATUS Model.finished = Ok "Finished"
    ∧ is_STARTED Model.env "Finished" = false.
Proof.
  eexists _, _.
  split; [vm_compute; reflexivity|].
  split; [vm_compute; reflexivity|].
  repeat split.
Qed.

(** C2: one header requested for a finished record.  The miss path returns
    one cell; the cache hit that follows returns a row with no cell at all. *)
Theorem cache_hit_row_is_shorter_than_headers :
  ∃ row1 w1 row2 w2,
    _get_record_rows_cached Model.env "demo.broken" [DURATION] true None
      Model.empty_world = (Ok row1, w1)
    ∧ _get_record_rows_cached Model.env "demo.broken" [DURATION] true None w1
      = (Ok row2, w2)
    ∧ length row1 = length [DURATION]
    ∧ length row2 = 0.
Proof.
  eexists _, _, _, _.
  split; [vm_compute; reflexivity|].
  split; [vm_compute; reflexivity|].
  split; reflexivity.
Qed.

(** C3: a running record fetched under a truncation limit of 5.  The record's
    status is "Started" and tests equal to [ExpStatusOptions.STARTED], but
    the test of line 617 sees the status cell after truncation, "St...",
    which does not: the first fetch writes a cache file for the record, and
    a later fetch, under any limit, is served from that file without
    invoking a getter. *)
Theorem started_record_with_cut_status_is_cached :
  load_experiment_record Model.env "demo.running" = Ok Model.running
  ∧ _exp_record_field_getters Model.env STATUS Model.running = Ok "Started"
  ∧ is_STARTED Model.env "Started" = true
  ∧ (_get_record_rows Model.env "demo.running" ([RUNS; RESULT_STR] ++ [STATUS]) false
       (Some 5) Model.empty_world).1
    = Ok ["20..."; "<N..."; "St..."]
  ∧ is_STARTED Model.env "St..." = false
  ∧ files Model.empty_world !! cache_path Model.env "demo.running" [RUNS; RESULT_STR]
    = None
  ∧ ∃ w1 w2,
      _get_record_rows_cached Model.env "demo.running" [RUNS; RESULT_STR] false
        (Some 5) Model.empty_world
      = (Ok ["20..."; "<N..."], w1)
      ∧ files w1 !! cache_path Model.env "demo.running" [RUNS; RESULT_STR]
        = Some (Pickled ["20..."])
      ∧ _get_record_rows_cached Model.env "demo.running" [RUNS; RESULT_STR] false
          (Some 100) w1
        = (Ok ["20..."], w2)
      ∧ getter_calls w2 = getter_calls w1
      ∧ (_get_record_rows Model.env "demo.running" [RUNS; RESULT_STR] false
           (Some 100) w1).1
        = Ok ["2017-03-02 11:30"; "<No result>"].
Proof.
  split; [reflexivity|]. split; [reflexivity|]. split; [reflexivity|].
  split; [vm_compute; reflexivity|]. split; [reflexivity|].
  split; [vm_compute; reflexivity|].
  eexists _, _.
  split; [vm_compute; reflexivity|].
  split; [vm_compute; reflexivity|].
  split; [vm_compute; reflexivity|].
  split; [reflexivity|]. vm_compute. reflexivity.
Qed.

Lemma started_status_cell_witness :
  (_get_record_rows Model.env "demo.running" ([RUNS; RESULT_STR] ++ [STATUS]) false
     (Some 100) Model.empty_world).1
  = Ok ["2017-03-02 11:30"; "<No result>"; "Started"]
  ∧ files Model.empty_world
      !! cache_path Model.env "demo.running" [RUNS; RESULT_STR] = None
  ∧ ∃ w',
      fetch_repeatedly Model.env 3 "demo.running" [RUNS; RESULT_STR] false (Some 100)
        Model.empty_world
      = (Ok (replicate 3 ["2017-03-02 11:30"; "<No result>"]), w')
      ∧ files w' = files Model.empty_world
      ∧ length (getter_calls w') = 0 + 3 * (2 + 1).
Proof.
  split; [vm_compute; reflexivity|]. split; [vm_compute; reflexivity|].
  refine (proj2 (started_status_cell_is_recomputed_and_never_stored Model.env
    "demo.running" [RUNS; RESULT_STR] false (Some 100) Model.empty_world _
    ["2017-03-02 11:30"; "<No result>"; "Started"] "Started" Model.empty_world
    _ _ _) _ 3).
  - vm_compute. reflexivity.
  - reflexivity.
  - reflexivity.
  - vm_compute. reflexivity.
Defined.

Lemma unreadable_cache_file_witness :
  files Model.corrupted_world
    !! cache_path Model.env "demo.finished" [RUNS; RESULT_STR] = Some Unreadable
  ∧ load_experiment_record Model.env "demo.finished" = Ok Model.finished
  ∧ (_get_record_rows_cached Model.env "demo.finished" [RUNS; RESULT_STR] false
       (Some 100) Model.corrupted_world).1
    = Ok ["2017-03-01 10:00"; "accuracy: 0.93"]
  ∧ getter_calls
      (_get_record_rows_cached Model.env "demo.finished" [RUNS; RESULT_STR] false
         (Some 100) Model.corrupted_world).2
    = [("demo.finished", RUNS); ("demo.finished", RESULT_STR); ("demo.finished", STATUS)]
  ∧ warnings
      (_get_record_rows_cached Model.env "demo.finished" [RUNS; RESULT_STR] false
         (Some 100) Model.corrupted_world).2
    = [load_warning "demo.finished"].
Proof.
  assert (files Model.corrupted_world
    !! cache_path Model.env "demo.finished" [RUNS; RESULT_STR] = Some Unreadable)
    as Hfile by (vm_compute; reflexivity).
  split; [exact Hfile|]. split; [reflexivity|].
  destruct (unreadable_cache_file_is_treated_as_miss Model.env "demo.finished"
    [RUNS; RESULT_STR] false (Some 100) Model.corrupted_world Hfile)
    as (Hwarn & _ & _ & Hrow & _).
  destruct (Hrow Model.finished eq_refl (or_introl eq_refl)) as (Hres & Hcalls & _).
  split; [exact Hres|]. split; [exact Hcalls | exact Hwarn].
Defined.

Lemma shared_cache_file_witness :
  ∃ w1,
    _get_record_rows_cached Model.env "demo.finished" [RUNS; RESULT_STR; NOTES]
      false (Some 100) Model.empty_world
    = (Ok ["2017-03-01 10:00"; "accuracy: 0.93"; "first run;seed 3"], w1)
    ∧ (_get_record_rows Model.env "demo.finished" [RUNS; RESULT_STR; NOTES] true
         (Some 8) w1).1
      = Ok ["2017-..."; "accur..."; "first..."]
    ∧ _get_record_rows_cached Model.env "demo.finished" [RUNS; RESULT_STR; NOTES]
        true (Some 8) w1
      = (Ok ["2017-03-01 10:00"; "accuracy: 0.93"], w1).
Proof.
  eexists. split; [vm_compute; reflexivity|].
  split; [vm_compute; reflexivity|].
  apply (proj1 (cache_file_is_shared_across_truncation_limits Model.env
                  "demo.finished" [RUNS; RESULT_STR; NOTES])).
  vm_compute. reflexivity.
Defined.

Lemma faulted_cell_witness :
  load_experiment_record Model.env "demo.broken" = Ok Model.broken
  ∧ (∃ row,
       (_get_record_rows Model.env "demo.broken" [RUNS; RESULT_STR; NOTES] false
          (Some 100) Model.empty_world).1 = Ok row
       ∧ length row = 3
       ∧ row !! 0 = Some "2017-03-03 09:15"
       ∧ row !! 1 = Some "<Display Error>"
       ∧ row !! 2 = Some "")
  ∧ (_get_record_rows Model.env "demo.broken" [RUNS; RESULT_STR; NOTES] true
       (Some 100) Model.empty_world).1
    = Raise (PyError "IOError" "result.pkl").
Proof.
  split; [reflexivity|].
  destruct (faulted_cell_gets_placeholder_or_error_propagates Model.env "demo.broken"
    Model.broken [RUNS; RESULT_STR; NOTES] (Some 100) Model.empty_world eq_refl)
    as [(row & w' & Hrun & Hlen & Hcell & _) Hraise].
  split.
  - exists row. rewrite Hrun. split; [reflexivity|]. split; [exact Hlen|].
    split; [exact (Hcell 0 RUNS eq_refl)|].
    split; [exact (Hcell 1 RESULT_STR eq_refl) | exact (Hcell 2 NOTES eq_refl)].
  - rewrite (Hraise [RUNS] RESULT_STR [NOTES] (PyError "IOError" "result.pkl") eq_refl).
    + reflexivity.
    + repeat constructor. by eexists.
    + reflexivity.
Defined.

(** C4 as stated fails under a short truncation limit: the getter of "Result"
    fails for this record, and with a limit of 8 the cell returned for it is
    the cut text, not "<Display Error>". *)
Lemma truncated_placeholder_counterexample :
  _exp_record_field_getters Model.env RESULT_STR Model.broken
  = Raise (PyError "IOError" "result.pkl")
  ∧ (_get_record_rows Model.env "demo.broken" [RUNS; RESULT_STR; NOTES] false
       (Some 8) Model.empty_world).1
    = Ok ["2017-..."; "<Disp..."; ""]
  ∧ "<Disp..." ≠ "<Display Error>".
Proof. split; [reflexivity|]. split; [vm_compute; reflexivity|]. discriminate. Qed.

(** * The dispatcher *)

Lemma foldl_min_spec (x : nat) (l : list nat) :
  foldl Nat.min x l ∈ x :: l ∧ ∀ y, y ∈ x :: l → foldl Nat.min x l ≤ y.
Proof.
  revert x. induction l as [|z l IH]; intros x; simpl.
  - split; [apply list_elem_of_here|].
    intros y Hy. apply list_elem_of_singleton in Hy. lia.
  - destruct (IH (Nat.min x z)) as [Hin Hle]. split.
    + apply elem_of_cons in Hin as [Hm|Hin].
      * rewrite Hm. destruct (Nat.min_spec x z) as [[_ ->]|[_ ->]].
        -- apply list_elem_of_here.
        -- apply list_elem_of_further, list_elem_of_here.
      * by do 2 apply list_elem_of_further.
    + intros y Hy.
      assert (foldl Nat.min (Nat.min x z) l ≤ Nat.min x z) as Hmin
        by apply Hle, list_elem_of_here.
      apply elem_of_cons in Hy as [->|Hy]; [lia|].
      apply elem_of_cons in Hy as [->|Hy]; [lia|].
      by apply Hle, list_elem_of_further.
Qed.

Lemma py_index_first (x : nat) (l : list nat) :
  x ∈ l →
  ∃ i, Dispatch.py_index x l = Some i ∧ l !! i = Some x
       ∧ ∀ j y, j < i → l !! j = Some y → y ≠ x.
Proof.
  induction l as [|z l IH]; intros Hin; [by apply elem_of_nil in Hin|].
  simpl. destruct (Nat.eqb_spec x z) as [->|Hne].
  - exists 0. repeat split. intros j y Hj. lia.
  - apply elem_of_cons in Hin as [?|Hin]; [done|].
    destruct (IH Hin) as (i & -> & Hi & Hfirst). exists (S i).
    repeat split; [done|]. intros [|j] y Hj; simpl.
    + intros [= ->]. congruence.
    + apply Hfirst. lia.
Qed.

Section DispatchFacts.
Variable interpret_numbers : string → result (option (list nat)).
Variable levenshtein_distance : string → string → nat.
Variable keys : list string.

(** [closest] is the first key, in the dictionary's order, at the least
    distance from the token. *)
Lemma closest_spec cmd :
  keys ≠ [] →
  ∃ i c,
    Dispatch.closest levenshtein_distance keys cmd = Ok (levenshtein_distance cmd c, c)
    ∧ keys !! i = Some c
    ∧ (∀ k, k ∈ keys → levenshtein_distance cmd c ≤ levenshtein_distance cmd k)
    ∧ (∀ j k, j < i → keys !! j = Some k →
         levenshtein_distance cmd c < levenshtein_distance cmd k).
Proof.
  intros Hne. unfold Dispatch.closest, Dispatch.edit_distances.
  destruct (map (λ other_cmd, levenshtein_distance cmd other_cmd) keys)
    as [|d ds'] eqn:Hds.
  { destruct keys; [done | discriminate]. }
  simpl. destruct (foldl_min_spec d ds') as [Hin Hle].
  destruct (py_index_first _ _ Hin) as (i & Hidx & Hi & Hfirst).
  simpl in Hidx. rewrite Hidx.
  rewrite <- Hds in Hi, Hle, Hfirst. rewrite list_lookup_fmap in Hi.
  destruct (keys !! i) as [c|] eqn:Hc; [|done]. simpl in Hi.
  injection Hi as Hm. exists i, c. rewrite Hm. split; [done|]. split; [done|].
  split.
  - intros k Hk. apply Hle. apply list_elem_of_fmap. eauto.
  - intros j k Hj Hk.
    assert (foldl Nat.min d ds' ≤ levenshtein_distance cmd k) as Hle'.
    { apply Hle. apply list_elem_of_fmap. exists k. split; [done|].
      by eapply list_elem_of_lookup_2. }
    assert (levenshtein_distance cmd k ≠ foldl Nat.min d ds') as Hne'.
    { apply (Hfirst j); [done|]. by rewrite list_lookup_fmap, Hk. }
    lia.
Qed.

Lemma contains_false x (l : list string) : x ∉ l → Py.contains x l = false.
Proof. intros H. unfold Py.contains. by apply bool_decide_eq_false_2. Qed.

Lemma eqb_false (s1 s2 : string) : s1 ≠ s2 → String.eqb s1 s2 = false.
Proof. intros H. by apply String.eqb_neq. Qed.

Lemma unrecognised_dispatch user_input cmd args :
  Py.split_space user_input = cmd :: args →
  cmd ≠ "" → cmd ∉ keys → interpret_numbers cmd = Ok None → cmd ≠ "r" →
  keys ≠ [] →
  ∃ i c,
    keys !! i = Some c
    ∧ (∀ k, k ∈ keys → levenshtein_distance cmd c ≤ levenshtein_distance cmd k)
    ∧ (∀ j k, j < i → keys !! j = Some k →
         levenshtein_distance cmd c < levenshtein_distance cmd k)
    ∧ Dispatch.dispatch interpret_numbers levenshtein_distance keys user_input
      = Ok (Dispatch.AskUnrecognised
              (Dispatch.unrecognised_prompt cmd
                 (if levenshtein_distance cmd c <=? 2
                  then Dispatch.did_you_mean c else ""))).
Proof.
  intros Hsplit Hempty Hreg Hnum Hr Hkeys.
  destruct (closest_spec cmd Hkeys) as (i & c & Hclosest & Hc & Hmin & Hfirst).
  exists i, c. repeat split; try done.
  unfold Dispatch.dispatch, Dispatch.suggestion.
  by rewrite Hsplit, eqb_false, contains_false, Hnum, eqb_false, Hclosest.
Qed.

(** How a line is classified whose first token is not empty, not a
    registered command, and read as a selection by [interpret_numbers]. *)
Lemma bare_number_dispatch user_input cmd args ns :
  Py.split_space user_input = cmd :: args →
  cmd ≠ "" → cmd ∉ keys → interpret_numbers cmd = Ok (Some ns) →
  Dispatch.dispatch interpret_numbers levenshtein_distance keys user_input
  = Ok (Dispatch.Run cmd
          (if decide ("-s" ∈ args ∨ "-e" ∈ args ∨ "-p" ∈ args)
           then args else args ++ ["-e"])).
Proof.
  intros Hsplit Hempty Hreg Hnum. unfold Dispatch.dispatch.
  rewrite Hsplit, eqb_false, contains_false, Hnum by done.
  unfold Dispatch.run_mode_flags, Py.contains. simpl.
  rewrite orb_false_r.
  destruct (decide ("-s" ∈ args ∨ "-e" ∈ args ∨ "-p" ∈ args)) as [Hany|Hnone].
  - destruct Hany as [H|[H|H]]; rewrite (bool_decide_eq_true_2 _ H); simpl;
      rewrite ?orb_true_r; done.
  - rewrite !bool_decide_eq_false_2 by tauto. done.
Qed.

End DispatchFacts.

Lemma fliter_distances k :
  k ∈ Dispatch.func_dict_keys →
  k ≠ "fliter" ∧ (k = "filter" ∨ 2 < Dispatch.lev "fliter" k).
Proof.
  assert (forallb (λ k, negb (String.eqb k "fliter")
                        && (String.eqb k "filter" || (2 <? Dispatch.lev "fliter" k)))
            Dispatch.func_dict_keys = true) as Hall by (vm_compute; reflexivity).
  intros Hk. apply list_elem_of_In in Hk.
  pose proof (proj1 (forallb_forall _ _) Hall k Hk) as Hone. simpl in Hone.
  apply andb_true_iff in Hone as [Hne Hd]. split.
  - apply negb_true_iff, String.eqb_neq in Hne. done.
  - apply orb_true_iff in Hd as [Heq|Hlt].
    + left. by apply String.eqb_eq.
    + right. by apply Nat.ltb_lt.
Qed.

(** * The delete handlers *)

Section DeleteFacts.
Variable select_experiment_records :
  string → list (string * list string) → result (list string).
Variable select_experiment_records_from_list :
  string → list string → result (list string).
Variable get_all_record_ids : list string → list string.
Variable get_record_table : list string → string.

Lemma warn_with_prompt_keeps_store message prompt use_prompt c :
  record_store (_warn_with_prompt message prompt use_prompt c).2 = record_store c
  ∧ clear_calls (_warn_with_prompt message prompt use_prompt c).2 = clear_calls c.
Proof.
  unfold _warn_with_prompt, bind, print, raw_input, quit, raise, ret.
  destruct message, use_prompt; simpl; try done;
    destruct (stdin c) as [|out rest]; simpl; try done;
    destruct (String.eqb out "q"); done.
Qed.

(** [ExperimentBrowser.delete] calls [clear_experiment_records], once and on
    the selected records, exactly when the lower-cased answer is "yes". *)
Lemma browser_delete_confirmation exp_record_dict close_after user_range records
    response rest c :
  select_experiment_records user_range exp_record_dict = Ok records →
  stdin c = response :: rest →
  let c' := (ExperimentBrowser_delete select_experiment_records get_record_table
               exp_record_dict close_after user_range c).2 in
  (Py.lower response = "yes" →
     clear_calls c' = clear_calls c ++ [records]
     ∧ record_store c' = filter (λ rid, rid ∉ records) (record_store c))
  ∧ (Py.lower response ≠ "yes" →
     clear_calls c' = clear_calls c ∧ record_store c' = record_store c).
Proof.
  intros Hsel Hin c'. subst c'.
  unfold ExperimentBrowser_delete, bind, lift, print, raw_input.
  rewrite Hsel. simpl. rewrite Hin. simpl.
  destruct (String.eqb_spec (Py.lower response) "yes") as [Hyes|Hno].
  - split; [|done]. intros _. done.
  - split; [done|]. intros _.
    match goal with
    | |- context [_warn_with_prompt ?m ?p ?u ?c0] =>
        pose proof (warn_with_prompt_keeps_store m p u c0) as [Hs Hc];
        destruct (_warn_with_prompt m p u c0) as [[?|?] ?]
    end; simpl in *; by rewrite Hs, Hc.
Qed.

(** [ExperimentRecordBrowser.delete] calls it exactly when the answer is
    "yes" as typed. *)
Lemma record_browser_delete_confirmation record_ids user_range ids conf rest c :
  select_experiment_records_from_list user_range record_ids = Ok ids →
  stdin c = conf :: rest →
  let c' := (ExperimentRecordBrowser_delete select_experiment_records_from_list
               get_all_record_ids get_record_table record_ids user_range c).2 in
  (conf = "yes" →
     clear_calls c' = clear_calls c ++ [ids]
     ∧ record_store c' = filter (λ rid, rid ∉ ids) (record_store c))
  ∧ (conf ≠ "yes" →
     clear_calls c' = clear_calls c ∧ record_store c' = record_store c).
Proof.
  intros Hsel Hin c'. subst c'.
  unfold ExperimentRecordBrowser_delete, bind, lift, print, raw_input, reload_ids.
  rewrite Hsel. simpl. rewrite Hin. simpl.
  destruct (String.eqb_spec conf "yes") as [Hyes|Hno].
  - split; [|done]. intros _. done.
  - split; [done|]. intros _.
    match goal with
    | |- context [_warn_with_prompt ?m ?p ?u ?c0] =>
        pose proof (warn_with_prompt_keeps_store m p u c0) as [Hs Hc];
        destruct (_warn_with_prompt m p u c0) as [[?|?] ?]
    end; simpl in *; by rewrite Hs, Hc.
Qed.

End DeleteFacts.

(** C8: the answer "YES" to the two delete handlers, on the same store.
    [ExperimentBrowser.delete] lower-cases the answer, calls
    [clear_experiment_records] and the records are gone;
    [ExperimentRecordBrowser.delete] compares the answer as typed, makes no
    call and leaves the store as it was. *)
Theorem record_browser_delete_is_case_sensitive :
  let c := DeleteModel.typing ["YES"; ""] in
  let after_browser :=
    (ExperimentBrowser_delete DeleteModel.select_experiment_records
       DeleteModel.get_record_table DeleteModel.exp_record_dict false "all" c).2 in
  let after_record_browser :=
    (ExperimentRecordBrowser_delete DeleteModel.select_experiment_records_from_list
       DeleteModel.get_all_record_ids DeleteModel.get_record_table
       (record_store c) "all" c).2 in
  Py.lower "YES" = "yes"
  ∧ clear_calls after_browser = [["exp.a.1"; "exp.a.2"; "exp.b.1"]]
  ∧ record_store after_browser = []
  ∧ clear_calls after_record_browser = []
  ∧ record_store after_record_browser = ["exp.a.1"; "exp.a.2"; "exp.b.1"].
Proof. vm_compute. repeat split. Qed.

(** * The nested table *)

Section InsertAt.
Context {A : Type}.
Implicit Types (base : list A) (pairs : list (nat * A)).







Lemma insert_from_no_pairs i base : insert_from i base [] = base.
Proof. revert i. induction base as [|y base IH]; intros i; simpl; by rewrite ?IH. Qed.

End InsertAt.


Lemma offsets_length c sizes : length (offsets c sizes) = length sizes.
Proof. revert c. induction sizes as [|n sizes IH]; intros c; simpl; by rewrite ?IH. Qed.






Section NestedFacts.
Context {St : Type}.
Variable row_func :
  string → list ExpRecordDisplayFields.t → bool → option nat → M St (list string).
Variable T : tabulate_format.
Variable headers : list ExpRecordDisplayFields.t.
Variable raise_display_errors : bool.
Variable truncate_result_to : option nat.

Local Abbreviation fetch :=
  (row_fetch row_func headers raise_display_errors truncate_result_to).
Local Abbreviation records_loop' :=
  (records_loop row_func headers raise_display_errors truncate_result_to).
Local Abbreviation experiments_loop' :=
  (experiments_loop row_func headers raise_display_errors truncate_result_to).

Lemma for_each_app (ids1 ids2 : list string) s rows s' :
  for_each fetch (ids1 ++ ids2) s = (Ok rows, s') →
  ∃ rows1 rows2 s1,
    for_each fetch ids1 s = (Ok rows1, s1)
    ∧ for_each fetch ids2 s1 = (Ok rows2, s')
    ∧ rows = rows1 ++ rows2 ∧ length rows1 = length ids1.
Proof.
  revert s rows. induction ids1 as [|rid ids1 IH]; intros s rows Hrun.
  - exists [], rows, s. done.
  - simpl in Hrun. unfold bind at 1 in Hrun.
    destruct (fetch rid s) as [[row|e] s0] eqn:Hrow; [|done].
    unfold bind at 1 in Hrun.
    destruct (for_each fetch (ids1 ++ ids2) s0) as [[rows0|e] s2] eqn:Hrest;
      [|done].
    injection Hrun as <- <-.
    destruct (IH _ _ Hrest) as (rows1 & rows2 & s1 & H1 & H2 & -> & Hlen).
    exists (row :: rows1), rows2, s1. simpl. unfold bind, ret. rewrite Hrow, H1.
    simpl. by rewrite Hlen.
Qed.


Lemma records_loop_run j record_ids st s rows s' :
  for_each fetch record_ids s = (Ok rows, s') →
  records_loop' j record_ids st s
  = (Ok {| record_rows :=
             record_rows st
             ++ imap (λ k cells, CStr "" :: CInt (j + k) :: map CStr cells) rows;
           experiment_rows := experiment_rows st;
           experiment_row_ixs := experiment_row_ixs st;
           counter := counter st + length record_ids |}, s').
Proof.
  revert j st s rows. induction record_ids as [|rid ids IH]; intros j st s rows Hrun.
  - injection Hrun as <- <-. simpl. unfold ret. rewrite app_nil_r, Nat.add_0_r.
    by destruct st.
  - simpl in Hrun. unfold bind at 1 in Hrun.
    destruct (fetch rid s) as [[row|e] s0] eqn:Hrow; [|done].
    unfold bind at 1 in Hrun.
    destruct (for_each fetch ids s0) as [[rows0|e] s1] eqn:Hrest; [|done].
    injection Hrun as <- <-. simpl. unfold bind.
    unfold row_fetch in Hrow. rewrite Hrow.
    rewrite (IH _ _ _ _ Hrest).
    cbn [record_rows experiment_rows experiment_row_ixs counter length imap].
    rewrite <- app_assoc, Nat.add_0_r.
    replace (counter st + 1 + length ids) with (counter st + S (length ids)) by lia.
    do 4 f_equal. simpl. f_equal.
    apply imap_ext. intros k cells _. simpl. do 3 f_equal. lia.
Qed.

Lemma experiments_loop_run i exp_record_dict st s rows s' :
  for_each fetch (concat exp_record_dict.*2) s = (Ok rows, s') →
  experiments_loop' i exp_record_dict st s
  = (Ok {| record_rows :=
             record_rows st
             ++ detail_rows (map length exp_record_dict.*2) rows;
           experiment_rows :=
             experiment_rows st
             ++ imap (λ k exp_id, [CInt (i + k); CStr ""; CStr exp_id])
                  exp_record_dict.*1;
           experiment_row_ixs :=
             experiment_row_ixs st
             ++ offsets (counter st) (map length exp_record_dict.*2);
           counter := counter st + length rows |}, s').
Proof.
  revert i st s rows.
  induction exp_record_dict as [|[exp_id record_ids] rest IH];
    intros i st s rows Hall.
  - injection Hall as <- <-. simpl. unfold ret. rewrite !app_nil_r, Nat.add_0_r.
    by destruct st.
  - simpl in Hall.
    apply for_each_app in Hall as (rows1 & rows2 & s1 & H1 & H2 & -> & Hlen).
    simpl. unfold bind. rewrite (records_loop_run _ _ _ _ _ _ H1).
    rewrite (IH _ _ _ _ H2).
    cbn [record_rows experiment_rows experiment_row_ixs counter length imap
         detail_rows map fmap list_fmap fst snd].
    rewrite <- Hlen, take_app_length, drop_app_length, length_app.
    rewrite <- !app_assoc, Nat.add_0_r, Nat.add_assoc.
    do 4 f_equal. simpl. f_equal.
    apply imap_ext. intros k e _. simpl. do 2 f_equal. lia.
Qed.



End NestedFacts.


(** * More about the row fetchers *)

Lemma occurs_append c s1 s2 : occurs c (s1 +:+ s2) = occurs c s1 || occurs c s2.
Proof. induction s1 as [|a s1 IH]; simpl; [done|]. by rewrite IH, orb_assoc. Qed.

Lemma replace_char_removes c by_ s :
  occurs c by_ = false → occurs c (Py.replace_char c by_ s) = false.
Proof.
  intros Hby. induction s as [|a s IH]; simpl; [done|].
  destruct (Ascii.eqb a c) eqn:Ha.
  - by rewrite occurs_append, Hby, IH.
  - simpl. by rewrite Ha, IH.
Qed.

Lemma string_length_append s1 s2 :
  String.length (s1 +:+ s2) = String.length s1 + String.length s2.
Proof. induction s1 as [|a s1 IH]; simpl; [done|]. by rewrite IH. Qed.

Lemma replace_char_length c s :
  String.length (Py.replace_char c ";;" s) = String.length s + count_char c s.
Proof.
  induction s as [|a s IH]; [done|].
  cbn [Py.replace_char count_char String.length].
  destruct (Ascii.eqb a c).
  - rewrite string_length_append, IH. simpl. lia.
  - cbn [String.length]. rewrite IH. lia.
Qed.

Lemma replace_char_absent c by_ s :
  occurs c s = false → Py.replace_char c by_ s = s.
Proof.
  induction s as [|a s IH]; simpl; [done|].
  destruct (Ascii.eqb a c); simpl; [done|]. intros Hs. by rewrite IH.
Qed.

Lemma join_keeps_out c sep (l : list string) :
  occurs c sep = false → Forall (λ x, occurs c x = false) l →
  occurs c (Py.join sep l) = false.
Proof.
  intros Hsep. induction 1 as [|x l Hx Hl IH]; [done|].
  destruct l as [|y l]; [done|].
  change (Py.join sep (x :: y :: l)) with (x +:+ sep +:+ Py.join sep (y :: l)).
  by rewrite !occurs_append, Hx, Hsep, IH.
Qed.

Lemma lookup_but_last {A} (l : list A) i :
  i + 1 < length l → Py.but_last l !! i = l !! i.
Proof.
  intros Hi. unfold Py.but_last.
  destruct (decide (l = [])) as [->|Hne]; [simpl in Hi; lia|].
  apply last_is_Some in Hne as [x Hx]. apply last_Some in Hx as [l' ->].
  rewrite length_app in Hi. simpl in Hi.
  rewrite removelast_last. by rewrite lookup_app_l by lia.
Qed.

Section MoreRowFacts.
Context {Rec : Type} (E : externals Rec).
Implicit Types (headers : list ExpRecordDisplayFields.t) (w : world).

(** X1: The notes cell.  A record without a notes field, or whose notes are
    [None], gives the empty text.  Otherwise the cell is the notes joined by
    ";" with every newline replaced by ";;": it holds no newline, it is one
    character longer than the joined notes for each newline in them, and it
    is the joined notes themselves when no note holds a newline. *)
Theorem show_notes_is_one_line (rec : Rec) :
  (info_has_field E rec ExpInfoFields.NOTES = false ∨ info_get_notes E rec = None →
   _show_notes E rec = Ok "")
  ∧ (∀ notes,
       info_has_field E rec ExpInfoFields.NOTES = true →
       info_get_notes E rec = Some notes →
       ∃ s,
         _show_notes E rec = Ok s
         ∧ s = Py.replace_char "010"%char ";;" (Py.join ";" notes)
         ∧ occurs "010"%char s = false
         ∧ String.length s
           = String.length (Py.join ";" notes)
             + count_char "010"%char (Py.join ";" notes)
         ∧ (Forall (λ note, occurs "010"%char note = false) notes →
            s = Py.join ";" notes)).
Proof.
  unfold _show_notes. split.
  - intros [-> | Hnone]; [done|]. rewrite Hnone.
    by destruct (info_has_field E rec ExpInfoFields.NOTES).
  - intros notes -> ->. eexists. split; [done|]. split; [done|].
    split; [by apply replace_char_removes|]. split.
    + apply replace_char_length.
    + intros Hnotes. apply replace_char_absent. by apply join_keeps_out.
Qed.

(** X2: When the record loads and no getter fails, raising display errors or not
    makes no difference: both modes return the same row, one truncated cell
    per header in header order, after invoking each getter once. *)
Theorem rows_agree_when_no_getter_fails record_id rec headers truncate_to w :
  load_experiment_record E record_id = Ok rec →
  Forall (getter_ok E rec) headers →
  _get_record_rows E record_id headers true truncate_to w
  = _get_record_rows E record_id headers false truncate_to w
  ∧ _get_record_rows E record_id headers true truncate_to w
    = (Ok (map (truncate_cell E truncate_to) (map (cell_or_placeholder E rec) headers)),
       add_calls (map (pair record_id) headers) w).
Proof.
  intros Hload Hok.
  rewrite (rows_guarded_total E _ _ _ _ Hload w), truncate_all_map.
  assert (_get_record_rows E record_id headers true truncate_to w
          = (Ok (map (truncate_cell E truncate_to)
                   (map (cell_or_placeholder E rec) headers)),
             add_calls (map (pair record_id) headers) w)) as Hstrict.
  { unfold _get_record_rows, bind, lift. rewrite Hload. simpl.
    rewrite (strict_values_ok E _ _ _ Hok). rewrite <- truncate_all_map.
    by destruct truncate_to. }
  by rewrite Hstrict.
Qed.

(** X3: A record that does not load makes both fetchers raise the loader's error,
    with [raise_display_errors] or without: no getter is invoked, nothing is
    logged and no cache file is written.  (If a readable cache file exists
    the cached fetcher returns it instead; the condition excludes that.) *)
Theorem unloadable_record_raises_and_is_not_cached
    record_id headers raise_display_errors truncate_to w e :
  load_experiment_record E record_id = Raise e →
  (∀ cells, files w !! cache_path E record_id headers ≠ Some (Pickled cells)) →
  _get_record_rows E record_id headers raise_display_errors truncate_to w = (Raise e, w)
  ∧ (_get_record_rows_cached E record_id headers raise_display_errors truncate_to w).1
    = Raise e
  ∧ files (_get_record_rows_cached E record_id headers raise_display_errors
             truncate_to w).2 = files w
  ∧ getter_calls (_get_record_rows_cached E record_id headers raise_display_errors
                    truncate_to w).2 = getter_calls w.
Proof.
  intros Hload Hnohit.
  assert (∀ hs w1, _get_record_rows E record_id hs raise_display_errors truncate_to w1
                   = (Raise e, w1)) as Hrows.
  { intros hs w1. unfold _get_record_rows, bind, lift. by rewrite Hload. }
  split; [apply Hrows|].
  assert (∀ w1, compute_and_store E (cache_path E record_id headers) record_id headers
                  raise_display_errors truncate_to w1 = (Raise e, w1)) as Hstore.
  { intros w1. unfold compute_and_store, bind. by rewrite Hrows. }
  destruct (files w !! cache_path E record_id headers) as [[cells|]|] eqn:Hfile.
  - by destruct (Hnohit cells).
  - rewrite cached_unreadable, Hstore by done. done.
  - rewrite cached_miss, Hstore by done. done.
Qed.

(** X4: A display error is cached.  Without [raise_display_errors], when the
    getter of a header other than the last fails for a record whose status
    cell does not test as started, the first fetch writes the placeholder
    into the cache file; every later fetch returns it in that column, under
    any flags and for any collaborators that name the cache file alike, even
    ones for which the getter no longer fails. *)
Theorem display_error_is_cached record_id rec headers i h e truncate_to w :
  load_experiment_record E record_id = Ok rec →
  headers !! i = Some h →
  i + 1 < length headers →
  _exp_record_field_getters E h rec = Raise e →
  is_STARTED E (truncate_cell E truncate_to (cell_or_placeholder E rec STATUS)) = false →
  files w !! cache_path E record_id headers = None →
  ∀ (E2 : externals Rec) r2 t2,
    cache_path E2 record_id headers = cache_path E record_id headers →
    ∃ row,
      _get_record_rows_cached E2 record_id headers r2 t2
        (_get_record_rows_cached E record_id headers false truncate_to w).2
      = (Ok row, (_get_record_rows_cached E record_id headers false truncate_to w).2)
      ∧ row !! i = Some (truncate_cell E truncate_to "<Display Error>").
Proof.
  intros Hload Hi Hlen He Hst Hmiss E2 r2 t2 Hpath.
  pose proof (rows_guarded_total E record_id rec (headers ++ [STATUS]) truncate_to
                Hload) as Hf.
  rewrite truncate_all_map, !map_app in Hf. simpl in Hf.
  rewrite (cached_miss E _ _ false truncate_to w Hmiss).
  rewrite (compute_and_store_run E _ _ _ _ _ _ _ Hf). unfold stored_outcome.
  rewrite last_snoc, Hst. unfold Py.but_last at 1 2. rewrite removelast_last.
  simpl. eexists. split.
  - apply cached_hit. rewrite Hpath. simpl. apply lookup_insert_eq.
  - unfold Py.but_last at 2. rewrite removelast_last.
    rewrite lookup_but_last by (by rewrite !length_map).
    rewrite !list_lookup_fmap, Hi. simpl.
    unfold cell_or_placeholder. by rewrite He.
Qed.

(** X5: A cached fetch changes no cache file but its own, removes none, and only
    ever appends to the warnings and to the getter calls. *)
Theorem fetch_touches_only_its_cache_file
    record_id headers raise_display_errors truncate_to w p :
  (p ≠ cache_path E record_id headers →
   files (_get_record_rows_cached E record_id headers raise_display_errors
            truncate_to w).2 !! p = files w !! p)
  ∧ (is_Some (files w !! p) →
     is_Some (files (_get_record_rows_cached E record_id headers raise_display_errors
                       truncate_to w).2 !! p))
  ∧ warnings w `prefix_of`
      warnings (_get_record_rows_cached E record_id headers raise_display_errors
                  truncate_to w).2
  ∧ getter_calls w `prefix_of`
      getter_calls (_get_record_rows_cached E record_id headers raise_display_errors
                      truncate_to w).2.
Proof.
  destruct (rows_frames E record_id (headers ++ [STATUS]) raise_display_errors
              truncate_to) as (r & cs & Hf & _).
  assert (∀ w1,
    let w' := (stored_outcome E (cache_path E record_id headers) r cs w1).2 in
    (p ≠ cache_path E record_id headers → files w' !! p = files w1 !! p)
    ∧ (is_Some (files w1 !! p) → is_Some (files w' !! p))
    ∧ warnings w' = warnings w1
    ∧ getter_calls w1 `prefix_of` getter_calls w') as Hstored.
  { intros w1. unfold stored_outcome.
    destruct r as [ips|e]; [|by repeat split; try done; apply prefix_app_r].
    destruct (last ips) as [status|];
      [|by repeat split; try done; apply prefix_app_r].
    destruct (is_STARTED E status); simpl;
      [by repeat split; try done; apply prefix_app_r|].
    repeat split; try done; [| |by apply prefix_app_r].
    - intros Hne. by rewrite lookup_insert_ne.
    - intros Hsome. destruct (decide (cache_path E record_id headers = p)) as [<-|Hne].
      + rewrite lookup_insert_eq. eauto.
      + by rewrite lookup_insert_ne. }
  destruct (files w !! cache_path E record_id headers) as [[cells|]|] eqn:Hfile.
  - erewrite cached_hit by done. done.
  - rewrite cached_unreadable by done.
    rewrite (compute_and_store_run E _ _ _ _ _ _ _ Hf).
    destruct (Hstored (add_warning (load_warning record_id) w)) as (H1 & H2 & H3 & H4).
    repeat split; try done. rewrite H3. simpl. by apply prefix_app_r.
  - rewrite cached_miss by done.
    rewrite (compute_and_store_run E _ _ _ _ _ _ _ Hf).
    destruct (Hstored w) as (H1 & H2 & H3 & H4).
    repeat split; try done. by rewrite H3.
Qed.

(** X6: An unreadable cache file of a record whose status cell does not test as
    started is replaced by the first fetch: one warning is logged, and from
    then on every fetch is served from the rewritten file without a
    warning. *)
Theorem unreadable_file_is_rewritten_once
    record_id headers r1 t1 w0 w0' info_plus_status status w :
  _get_record_rows E record_id (headers ++ [STATUS]) r1 t1 w0
  = (Ok info_plus_status, w0') →
  last info_plus_status = Some status →
  is_STARTED E status = false →
  files w !! cache_path E record_id headers = Some Unreadable →
  ∃ w1,
    _get_record_rows_cached E record_id headers r1 t1 w
    = (Ok (Py.but_last info_plus_status), w1)
    ∧ warnings w1 = warnings w ++ [load_warning record_id]
    ∧ ∀ r2 t2,
        _get_record_rows_cached E record_id headers r2 t2 w1
        = (Ok (Py.but_last (Py.but_last info_plus_status)), w1).
Proof.
  intros Hrun Hlast Hst Hfile. apply rows_frames_at in Hrun as (cs & Hf & _).
  rewrite cached_unreadable by done.
  rewrite (compute_and_store_run E _ _ _ _ _ _ _ Hf). unfold stored_outcome.
  rewrite Hlast, Hst. eexists. split; [done|]. split; [done|].
  intros r2 t2. apply cached_hit. simpl. apply lookup_insert_eq.
Qed.

(** X7: An unreadable cache file of a record whose status cell tests as started
    is never replaced: each of [n] fetches recomputes the row and logs the
    warning again. *)
Theorem unreadable_file_of_started_record_warns_each_time
    record_id headers r t w0 w0' info_plus_status status w :
  _get_record_rows E record_id (headers ++ [STATUS]) r t w0
  = (Ok info_plus_status, w0') →
  last info_plus_status = Some status →
  is_STARTED E status = true →
  files w !! cache_path E record_id headers = Some Unreadable →
  ∀ n, ∃ w',
    fetch_repeatedly E n record_id headers r t w
    = (Ok (replicate n (Py.but_last info_plus_status)), w')
    ∧ files w' = files w
    ∧ warnings w' = warnings w ++ replicate n (load_warning record_id).
Proof.
  intros Hrun Hlast Hst Hfile n. apply rows_frames_at in Hrun as (cs & Hf & _).
  revert w Hfile. induction n as [|n IH]; intros w Hfile.
  - exists w. simpl. unfold ret. by rewrite app_nil_r.
  - simpl. unfold bind at 1. rewrite cached_unreadable by done.
    rewrite (compute_and_store_run E _ _ _ _ _ _ _ Hf). unfold stored_outcome.
    rewrite Hlast, Hst.
    destruct (IH (add_calls cs (add_warning (load_warning record_id) w)))
      as (w' & Hrep & Hfiles & Hwarn); [done|].
    exists w'. unfold bind, ret. rewrite Hrep. split; [done|]. split; [done|].
    rewrite Hwarn. simpl. by rewrite <- app_assoc.
Qed.

End MoreRowFacts.

Lemma show_notes_witness :
  info_has_field Model.env NotesModel.annotated ExpInfoFields.NOTES = true
  ∧ info_get_notes Model.env NotesModel.annotated
    = Some [NotesModel.two_line_note; "seed 3"]
  ∧ ∃ s,
      _show_notes Model.env NotesModel.annotated = Ok s
      ∧ s = "cold start;;warm start;seed 3"
      ∧ occurs "010"%char s = false
      ∧ String.length s = 28 + 1.
Proof.
  split; [reflexivity|]. split; [reflexivity|].
  destruct (proj2 (show_notes_is_one_line Model.env NotesModel.annotated)
              [NotesModel.two_line_note; "seed 3"] eq_refl eq_refl)
    as (s & Hs & Heq & Hline & Hlen & _).
  exists s. split; [exact Hs|]. split; [exact Heq|]. split; [exact Hline|exact Hlen].
Defined.

Lemma rows_agree_witness :
  load_experiment_record Model.env "demo.finished" = Ok Model.finished
  ∧ _get_record_rows Model.env "demo.finished" [RUNS; RESULT_STR; NOTES] true (Some 8)
      Model.empty_world
    = _get_record_rows Model.env "demo.finished" [RUNS; RESULT_STR; NOTES] false (Some 8)
        Model.empty_world
  ∧ (_get_record_rows Model.env "demo.finished" [RUNS; RESULT_STR; NOTES] true (Some 8)
       Model.empty_world).1
    = Ok ["2017-..."; "accur..."; "first..."].
Proof.
  split; [reflexivity|].
  destruct (rows_agree_when_no_getter_fails Model.env "demo.finished" Model.finished
              [RUNS; RESULT_STR; NOTES] (Some 8) Model.empty_world eq_refl)
    as [Hsame Hrow].
  - repeat constructor; by eexists.
  - split; [exact Hsame|]. rewrite Hrow. reflexivity.
Defined.

Lemma unloadable_record_witness :
  load_experiment_record Model.env "demo.missing"
  = Raise (PyError "IOError" "demo.missing")
  ∧ (_get_record_rows_cached Model.env "demo.missing" [RUNS; STATUS] false (Some 100)
       Model.empty_world).1
    = Raise (PyError "IOError" "demo.missing")
  ∧ files (_get_record_rows_cached Model.env "demo.missing" [RUNS; STATUS] false
             (Some 100) Model.empty_world).2 = ∅.
Proof.
  split; [reflexivity|].
  destruct (unloadable_record_raises_and_is_not_cached Model.env "demo.missing"
              [RUNS; STATUS] false (Some 100) Model.empty_world
              (PyError "IOError" "demo.missing") eq_refl)
    as (_ & Hraise & Hfiles & _).
  - intros cells. simpl. by rewrite lookup_empty.
  - split; [exact Hraise | exact Hfiles].
Defined.

Lemma display_error_is_cached_witness :
  (_get_record_rows CacheModel.repaired "demo.broken" [RUNS; RESULT_STR; NOTES] true
     (Some 100) Model.empty_world).1
  = Ok ["2017-03-03 09:15"; "accuracy: 0.50"; ""]
  ∧ ∃ row,
      _get_record_rows_cached CacheModel.repaired "demo.broken" [RUNS; RESULT_STR; NOTES]
        true (Some 100)
        (_get_record_rows_cached Model.env "demo.broken" [RUNS; RESULT_STR; NOTES] false
           (Some 100) Model.empty_world).2
      = (Ok row,
         (_get_record_rows_cached Model.env "demo.broken" [RUNS; RESULT_STR; NOTES] false
            (Some 100) Model.empty_world).2)
      ∧ row !! 1 = Some "<Display Error>".
Proof.
  split; [vm_compute; reflexivity|].
  apply (display_error_is_cached Model.env "demo.broken" Model.broken
           [RUNS; RESULT_STR; NOTES] 1 RESULT_STR (PyError "IOError" "result.pkl")
           (Some 100) Model.empty_world); try reflexivity.
  simpl. lia.
Defined.

Lemma unreadable_file_is_rewritten_witness :
  files Model.corrupted_world
    !! cache_path Model.env "demo.finished" [RUNS; RESULT_STR] = Some Unreadable
  ∧ ∃ w1,
      _get_record_rows_cached Model.env "demo.finished" [RUNS; RESULT_STR] false
        (Some 100) Model.corrupted_world
      = (Ok ["2017-03-01 10:00"; "accuracy: 0.93"], w1)
      ∧ warnings w1 = [load_warning "demo.finished"]
      ∧ _get_record_rows_cached Model.env "demo.finished" [RUNS; RESULT_STR] false
          (Some 100) w1
        = (Ok ["2017-03-01 10:00"], w1).
Proof.
  assert (files Model.corrupted_world
    !! cache_path Model.env "demo.finished" [RUNS; RESULT_STR] = Some Unreadable)
    as Hfile by (vm_compute; reflexivity).
  split; [exact Hfile|].
  destruct (unreadable_file_is_rewritten_once Model.env "demo.finished"
              [RUNS; RESULT_STR] false (Some 100) Model.empty_world
              (_get_record_rows Model.env "demo.finished" ([RUNS; RESULT_STR] ++ [STATUS])
                 false (Some 100) Model.empty_world).2
              ["2017-03-01 10:00"; "accuracy: 0.93"; "Finished"] "Finished"
              Model.corrupted_world)
    as (w1 & Hfirst & Hwarn & Hlater); [vm_compute; reflexivity|done|done|exact Hfile|].
  exists w1. split; [exact Hfirst|]. split; [exact Hwarn|].
  exact (Hlater false (Some 100)).
Defined.

Lemma unreadable_file_of_started_record_witness :
  files (CacheModel.unreadable_at (cache_path Model.env "demo.running" [RUNS]))
    !! cache_path Model.env "demo.running" [RUNS] = Some Unreadable
  ∧ ∃ w',
      fetch_repeatedly Model.env 2 "demo.running" [RUNS] false None
        (CacheModel.unreadable_at (cache_path Model.env "demo.running" [RUNS]))
      = (Ok [["2017-03-02 11:30"]; ["2017-03-02 11:30"]], w')
      ∧ files w'
        = files (CacheModel.unreadable_at (cache_path Model.env "demo.running" [RUNS]))
      ∧ warnings w' = [load_warning "demo.running"; load_warning "demo.running"].
Proof.
  assert (files (CacheModel.unreadable_at (cache_path Model.env "demo.running" [RUNS]))
    !! cache_path Model.env "demo.running" [RUNS] = Some Unreadable)
    as Hfile by apply lookup_singleton_eq.
  split; [exact Hfile|].
  exact (unreadable_file_of_started_record_warns_each_time Model.env "demo.running"
           [RUNS] false None Model.empty_world
           (_get_record_rows Model.env "demo.running" ([RUNS] ++ [STATUS]) false None
              Model.empty_world).2
           ["2017-03-02 11:30"; "Started"] "Started"
           (CacheModel.unreadable_at (cache_path Model.env "demo.running" [RUNS]))
           eq_refl eq_refl eq_refl Hfile 2).
Defined.

(** * The flat table and the list of experiments *)

Section FlatFacts.
Context {St : Type}.
Variable row_func :
  string → list ExpRecordDisplayFields.t → bool → option nat → M St (list string).
Variable T : tabulate_format.
Variable headers : list ExpRecordDisplayFields.t.
Variable raise_display_errors : bool.
Variable truncate_result_to : option nat.

Local Abbreviation fetch :=
  (row_fetch row_func headers raise_display_errors truncate_result_to).

Lemma flat_records_loop_run i j exp_id record_ids acc s rows s' :
  for_each fetch record_ids s = (Ok rows, s') →
  flat_records_loop row_func headers raise_display_errors truncate_result_to
    i j exp_id record_ids acc s
  = (Ok (acc ++ imap (λ k cells,
                        [CStr (if j + k =? 0 then pretty i else ""); CInt (j + k);
                         CStr exp_id] ++ map CStr cells) rows), s').
Proof.
  revert j acc s rows. induction record_ids as [|rid ids IH]; intros j acc s rows Hrun.
  - injection Hrun as <- <-. simpl. unfold ret. by rewrite app_nil_r.
  - simpl in Hrun. unfold bind at 1 in Hrun.
    destruct (fetch rid s) as [[row|e] s0] eqn:Hrow; [|done].
    unfold bind at 1 in Hrun.
    destruct (for_each fetch ids s0) as [[rows0|e] s1] eqn:Hrest; [|done].
    injection Hrun as <- <-. simpl. unfold bind.
    unfold row_fetch in Hrow. rewrite Hrow, (IH _ _ _ _ Hrest).
    rewrite (imap_ext _
               ((λ k cells, [CStr (if j + k =? 0 then pretty i else "");
                             CInt (j + k); CStr exp_id] ++ map CStr cells) ∘ S) rows0).
    2:{ intros k cells _. simpl. replace (j + S k) with (S (j + k)) by lia. done. }
    rewrite <- app_assoc. simpl. by rewrite Nat.add_0_r.
Qed.

Lemma flat_experiments_loop_run i exp_record_dict acc s rows s' :
  for_each fetch (concat exp_record_dict.*2) s = (Ok rows, s') →
  ∃ out,
    flat_experiments_loop row_func headers raise_display_errors truncate_result_to
      i exp_record_dict acc s = (Ok (acc ++ out), s')
    ∧ length out = sum_list (map (λ ids, Nat.max 1 (length ids)) exp_record_dict.*2)
    ∧ (headers ≠ [] → Forall (λ row, length row = length headers) rows →
       Forall (λ row, length row = 3 + length headers) out).
Proof.
  revert i acc s rows.
  induction exp_record_dict as [|[exp_id record_ids] rest IH];
    intros i acc s rows Hall.
  - injection Hall as <- <-. exists []. simpl. unfold ret. by rewrite app_nil_r.
  - simpl in Hall. destruct record_ids as [|rid ids].
    + simpl in Hall. cbn [flat_experiments_loop length Nat.eqb].
      destruct (IH (S i)
                  (acc ++ [[CStr (pretty i); CStr ""; CStr exp_id; CStr "<No Records>"]
                           ++ replicate (length headers - 1) (CStr "-")])
                  s rows Hall) as (out & Hrun & Hlen & Hwidth).
      eexists (_ :: out). rewrite Hrun, <- app_assoc. split; [done|].
      split; [simpl; by rewrite Hlen|].
      intros Hne Hrows. constructor; [|by apply Hwidth].
      simpl. rewrite length_replicate. destruct headers; [done|]. simpl. lia.
    + apply for_each_app in Hall as (rows1 & rows2 & s1 & H1 & H2 & -> & Hlen1).
      cbn [flat_experiments_loop length Nat.eqb]. unfold bind.
      rewrite (flat_records_loop_run _ _ _ _ _ _ _ _ H1).
      destruct (IH (S i)
                  (acc ++ imap (λ k cells,
                                  [CStr (if 0 + k =? 0 then pretty i else "");
                                   CInt (0 + k); CStr exp_id] ++ map CStr cells) rows1)
                  s1 rows2 H2) as (out & Hrun & Hlen & Hwidth).
      eexists (_ ++ out). rewrite Hrun, <- app_assoc. split; [done|].
      split.
      * rewrite length_app, length_imap, Hlen1, Hlen. reflexivity.
      * intros Hne Hrows. apply Forall_app in Hrows as [Hrows1 Hrows2].
        apply Forall_app. split; [|by apply Hwidth].
        apply Forall_forall. intros row Hrow.
        apply elem_of_lookup_imap in Hrow as (k & cells & -> & Hk).
        simpl. rewrite length_map. f_equal. f_equal. f_equal.
        eapply Forall_lookup_1 in Hrows1; [|exact Hk]. done.
Qed.

(** X8: When every row fetch returns, the flat branch returns with one table row
    per record and one more for each experiment without records, and it has
    made the same fetches, in the same order and with the same final state,
    as the nested branch makes from the same state. *)
Theorem flat_rows_count_and_fetches exp_record_dict s rows s' :
  for_each fetch (concat exp_record_dict.*2) s = (Ok rows, s') →
  ∃ table_rows,
    flat_experiments_loop row_func headers raise_display_errors truncate_result_to
      0 exp_record_dict [] s = (Ok table_rows, s')
    ∧ length table_rows
      = sum_list (map (λ ids, Nat.max 1 (length ids)) exp_record_dict.*2)
    ∧ (nested_all_rows row_func T headers raise_display_errors truncate_result_to
         exp_record_dict s).2 = s'.
Proof.
  intros Hrows.
  destruct (flat_experiments_loop_run 0 exp_record_dict [] s rows s' Hrows)
    as (out & Hrun & Hlen & _).
  exists out. split; [exact Hrun|]. split; [exact Hlen|].
  unfold nested_all_rows, bind.
  by rewrite (experiments_loop_run _ _ _ _ _ _ _ _ _ _ Hrows).
Qed.

End FlatFacts.

Lemma flat_rows_witness :
  (for_each (row_fetch (_get_record_rows Model.env) NestedModel.headers false (Some 100))
     (concat NestedModel.exp_record_dict.*2) Model.empty_world).1
  = Ok [["12.5s"; "Finished"]; ["3.1s"; "Started"]; ["40.2s"; "Finished"]]
  ∧ ∃ table_rows,
      (flat_experiments_loop (_get_record_rows Model.env) NestedModel.headers false
         (Some 100) 0 NestedModel.exp_record_dict [] Model.empty_world).1 = Ok table_rows
      ∧ length table_rows = 4.
Proof.
  assert (for_each
            (row_fetch (_get_record_rows Model.env) NestedModel.headers false (Some 100))
            (concat NestedModel.exp_record_dict.*2) Model.empty_world
          = (Ok [["12.5s"; "Finished"]; ["3.1s"; "Started"]; ["40.2s"; "Finished"]],
             (for_each
                (row_fetch (_get_record_rows Model.env) NestedModel.headers false
                   (Some 100))
                (concat NestedModel.exp_record_dict.*2) Model.empty_world).2))
    as Hrows by (vm_compute; reflexivity).
  split; [by rewrite Hrows|].
  destruct (flat_rows_count_and_fetches (_get_record_rows Model.env) NestedModel.plain
              NestedModel.headers false (Some 100) NestedModel.exp_record_dict
              _ _ _ Hrows) as (table_rows & Hrun & Hlen & _).
  exists table_rows. rewrite Hrun. split; [reflexivity | exact Hlen].
Defined.

Lemma for_each_Forall {St A B} (f : A → M St B) (P : B → Prop) :
  (∀ x s y s', f x s = (Ok y, s') → P y) →
  ∀ l s ys s', for_each f l s = (Ok ys, s') → Forall P ys.
Proof.
  intros Hf l. induction l as [|x l IH]; intros s ys s' Hrun.
  - injection Hrun as <- _. constructor.
  - simpl in Hrun. unfold bind at 1 in Hrun.
    destruct (f x s) as [[y|e] s0] eqn:Hy; [|done].
    unfold bind at 1 in Hrun.
    destruct (for_each f l s0) as [[ys0|e] s1] eqn:Hrest; [|done].
    injection Hrun as <- _. constructor; eauto.
Qed.

Lemma cache_untouched_ret {A} (a : A) : cache_untouched (ret a).
Proof. by intros w. Qed.

Lemma cache_untouched_raise {A} e : cache_untouched (@raise world A e).
Proof. by intros w. Qed.

Lemma cache_untouched_bind {A B} (c : M world A) (k : A → M world B) :
  cache_untouched c → (∀ a, cache_untouched (k a)) → cache_untouched (bind c k).
Proof.
  intros Hc Hk w. unfold bind. destruct (Hc w) as [Hf Hw].
  destruct (c w) as [[a|e] w1]; simpl in *; [|done].
  destruct (Hk a w1) as [Hf' Hw']. by rewrite Hf', Hw'.
Qed.

Section ExperimentListFacts.
Context {Rec : Type} (E : externals Rec).
Variable T : tabulate_format.
Variable deprefix_experiment_ids : list string → list string.

Lemma rows_cache_untouched record_id headers raise_display_errors truncate_to :
  cache_untouched (_get_record_rows E record_id headers raise_display_errors truncate_to).
Proof.
  intros w.
  destruct (rows_frames E record_id headers raise_display_errors truncate_to)
    as (r & cs & Hf & _).
  by rewrite Hf.
Qed.

Section Loops.
Variable row_func :
  string → list ExpRecordDisplayFields.t → bool → option nat → M world (list string).
Variable headers : list ExpRecordDisplayFields.t.
Variable raise_display_errors : bool.
Variable truncate_result_to : option nat.
Hypothesis row_func_untouched :
  ∀ record_id, cache_untouched
    (row_func record_id headers raise_display_errors truncate_result_to).

Lemma records_loop_untouched j record_ids st :
  cache_untouched
    (records_loop row_func headers raise_display_errors truncate_result_to
       j record_ids st).
Proof.
  revert j st. induction record_ids as [|rid ids IH]; intros j st; simpl.
  - apply cache_untouched_ret.
  - apply cache_untouched_bind; [apply row_func_untouched|]. intros cells. apply IH.
Qed.

Lemma experiments_loop_untouched i exp_record_dict st :
  cache_untouched
    (experiments_loop row_func headers raise_display_errors truncate_result_to
       i exp_record_dict st).
Proof.
  revert i st. induction exp_record_dict as [|[exp_id ids] rest IH]; intros i st; simpl.
  - apply cache_untouched_ret.
  - apply cache_untouched_bind; [apply records_loop_untouched|]. intros st'. apply IH.
Qed.

Lemma flat_records_loop_untouched i j exp_id record_ids acc :
  cache_untouched
    (flat_records_loop row_func headers raise_display_errors truncate_result_to
       i j exp_id record_ids acc).
Proof.
  revert j acc. induction record_ids as [|rid ids IH]; intros j acc; simpl.
  - apply cache_untouched_ret.
  - apply cache_untouched_bind; [apply row_func_untouched|]. intros cells. apply IH.
Qed.

Lemma flat_experiments_loop_untouched i exp_record_dict acc :
  cache_untouched
    (flat_experiments_loop row_func headers raise_display_errors truncate_result_to
       i exp_record_dict acc).
Proof.
  revert i acc. induction exp_record_dict as [|[exp_id ids] rest IH]; intros i acc.
  - apply cache_untouched_ret.
  - cbn [flat_experiments_loop]. destruct (length ids =? 0); [apply IH|].
    apply cache_untouched_bind; [apply flat_records_loop_untouched|].
    intros rows. apply IH.
Qed.

End Loops.

(** X9: With the uncached fetcher and at least one header, every row of the flat
    table has exactly as many cells as the header line, for experiments with
    and without records. *)
Theorem flat_rows_fit_the_header_line
    headers raise_display_errors truncate_result_to exp_record_dict w rows w' :
  headers ≠ [] →
  for_each (row_fetch (_get_record_rows E) headers raise_display_errors
              truncate_result_to) (concat exp_record_dict.*2) w = (Ok rows, w') →
  ∃ table_rows,
    flat_experiments_loop (_get_record_rows E) headers raise_display_errors
      truncate_result_to 0 exp_record_dict [] w = (Ok table_rows, w')
    ∧ Forall (λ row, length row = length (flat_full_headers headers)) table_rows.
Proof.
  intros Hne Hrows.
  destruct (flat_experiments_loop_run (_get_record_rows E) headers raise_display_errors
              truncate_result_to 0 exp_record_dict [] w rows w' Hrows)
    as (out & Hrun & _ & Hwidth).
  exists out. split; [exact Hrun|].
  unfold flat_full_headers. rewrite length_app, length_map. simpl.
  apply Hwidth; [done|].
  eapply for_each_Forall; [|exact Hrows].
  intros rid s row s' Hrow. unfold row_fetch in Hrow. by eapply rows_length.
Qed.

(** X10: With [cache_result_string] off, rendering the list leaves every cache
    file as it was and logs no warning, whatever the view mode, the display
    format and the outcome. *)
Theorem uncached_render_leaves_cache_alone self exp_record_dict :
  ExperimentBrowser.cache_result_string self = false →
  cache_untouched (get_experiment_list_str E T deprefix_experiment_ids self
                     exp_record_dict).
Proof.
  intros Hoff. unfold get_experiment_list_str. rewrite Hoff.
  apply cache_untouched_bind.
  { intros w. unfold lift. done. }
  intros headers.
  destruct (String.eqb (ExperimentBrowser.display_format self) "nested").
  - unfold get_experiment_list_str_nested, nested_all_rows.
    apply cache_untouched_bind; [|intros; apply cache_untouched_ret].
    apply cache_untouched_bind; [|intros; apply cache_untouched_ret].
    apply experiments_loop_untouched. intros rid. apply rows_cache_untouched.
  - destruct (String.eqb (ExperimentBrowser.display_format self) "flat").
    + unfold get_experiment_list_str_flat.
      apply cache_untouched_bind; [|intros; apply cache_untouched_ret].
      apply flat_experiments_loop_untouched. intros rid. apply rows_cache_untouched.
    + apply cache_untouched_raise.
Qed.

(** X11: A view mode other than "full" and "results" makes the rendering raise
    [KeyError], and with a known view mode a display format other than
    "nested" and "flat" makes it raise [NotImplementedError]; in both cases
    before any record is loaded or any cache file looked at. *)
Theorem unknown_view_mode_or_format_raises_before_fetching self exp_record_dict w :
  (ExperimentBrowser.view_mode self ≠ "full" →
   ExperimentBrowser.view_mode self ≠ "results" →
   get_experiment_list_str E T deprefix_experiment_ids self exp_record_dict w
   = (Raise (PyError "KeyError" (ExperimentBrowser.view_mode self)), w))
  ∧ (ExperimentBrowser.view_mode self = "full"
     ∨ ExperimentBrowser.view_mode self = "results" →
     ExperimentBrowser.display_format self ≠ "nested" →
     ExperimentBrowser.display_format self ≠ "flat" →
     get_experiment_list_str E T deprefix_experiment_ids self exp_record_dict w
     = (Raise (PyError "NotImplementedError" (ExperimentBrowser.display_format self)),
        w)).
Proof.
  unfold get_experiment_list_str, view_headers, bind, lift. split.
  - intros H1 H2. by rewrite !eqb_false.
  - intros Hview H1 H2. rewrite (eqb_false _ _ H1), (eqb_false _ _ H2).
    destruct Hview as [->| ->]; done.
Qed.

End ExperimentListFacts.

(** * Dictionaries and [reload_record_dict] *)

Section DictFacts.
Context {V : Type}.
Implicit Types (d : list (string * V)).

Lemma od_set_fresh k (v : V) d : k ∉ d.*1 → od_set k v d = d ++ [(k, v)].
Proof.
  induction d as [|[k' v'] d IH]; intros Hk; simpl; [done|].
  rewrite fmap_cons, not_elem_of_cons in Hk. destruct Hk as [Hne Hk].
  rewrite eqb_false by done. by rewrite IH.
Qed.

Lemma od_get_middle k (v : V) d1 d2 :
  k ∉ d1.*1 → od_get k (d1 ++ (k, v) :: d2) = Ok v.
Proof.
  induction d1 as [|[k' v'] d1 IH]; intros Hk; simpl.
  - by rewrite String.eqb_refl.
  - rewrite fmap_cons, not_elem_of_cons in Hk. destruct Hk as [Hne Hk].
    rewrite eqb_false by done. by apply IH.
Qed.

Lemma od_set_middle k (v v' : V) d1 d2 :
  k ∉ d1.*1 → od_set k v' (d1 ++ (k, v) :: d2) = d1 ++ (k, v') :: d2.
Proof.
  induction d1 as [|[k0 v0] d1 IH]; intros Hk; simpl.
  - by rewrite String.eqb_refl.
  - rewrite fmap_cons, not_elem_of_cons in Hk. destruct Hk as [Hne Hk].
    rewrite eqb_false by done. by rewrite IH.
Qed.

(** Building a dictionary from pairs with distinct keys keeps the pairs. *)
Lemma OrderedDict_distinct_keys (pairs : list (string * V)) :
  NoDup pairs.*1 → OrderedDict pairs = pairs.
Proof.
  unfold OrderedDict.
  assert (∀ acc, NoDup (acc.*1 ++ pairs.*1) →
            foldl (λ d kv, od_set kv.1 kv.2 d) acc pairs = acc ++ pairs) as Hgen.
  { induction pairs as [|[k v] pairs IH]; intros acc Hnd; simpl.
    - by rewrite app_nil_r.
    - rewrite fmap_cons in Hnd. simpl in Hnd.
      rewrite od_set_fresh.
      2:{ apply NoDup_app in Hnd as (_ & Hdisj & _). intros Hin.
          apply (Hdisj k Hin). apply list_elem_of_here. }
      rewrite IH, <- app_assoc; [done|].
      rewrite fmap_app, <- app_assoc. done. }
  intros Hnd. by apply (Hgen []).
Qed.

End DictFacts.

Lemma just_last_loop (d1 d2 : list (string * list string)) :
  NoDup (d1.*1 ++ d2.*1) →
  foldl (λ d k, match od_get k d with
                | Ok ids => od_set k (just_last ids) d
                | Raise _ => d
                end) (d1 ++ d2) d2.*1
  = d1 ++ map (λ kv, (kv.1, just_last kv.2)) d2.
Proof.
  revert d1. induction d2 as [|[k ids] d2 IH]; intros d1 Hnd; simpl; [done|].
  assert (k ∉ d1.*1) as Hk.
  { apply NoDup_app in Hnd as (_ & Hdisj & _). intros Hin.
    apply (Hdisj k Hin). apply list_elem_of_here. }
  rewrite od_get_middle, od_set_middle by done.
  replace (d1 ++ (k, just_last ids) :: d2) with ((d1 ++ [(k, just_last ids)]) ++ d2)
    by (by rewrite <- app_assoc).
  rewrite IH, <- app_assoc; [done|].
  rewrite fmap_app, <- app_assoc. exact Hnd.
Qed.

(** X12: With distinct library keys, reloading lists the experiments in library
    order (those under the root, when there is one), each with all its
    records, or with just its last record (none if it has none) when
    [just_last_record] is set; then no experiment has more than one. *)
Theorem reload_record_dict_keeps_order_and_last
    library_keys root_variants experiment_id_to_record_ids just_last_record :
  NoDup library_keys →
  reload_record_dict library_keys root_variants experiment_id_to_record_ids
    just_last_record
  = map (λ name, (name, if just_last_record
                        then just_last (experiment_id_to_record_ids name)
                        else experiment_id_to_record_ids name))
      (match root_variants with
       | Some descendents_of_root =>
           filter (λ name, name ∈ descendents_of_root) library_keys
       | None => library_keys
       end)
  ∧ (just_last_record = true →
     Forall (λ kv, length kv.2 ≤ 1
                   ∧ last kv.2 = last (experiment_id_to_record_ids kv.1))
       (reload_record_dict library_keys root_variants experiment_id_to_record_ids
          just_last_record)).
Proof.
  intros Hnd. unfold reload_record_dict.
  set (names := match root_variants with
                | Some ds => filter (λ name, name ∈ ds) library_keys
                | None => library_keys
                end).
  assert (NoDup names) as Hnames.
  { subst names. destruct root_variants; [by apply NoDup_filter | done]. }
  assert ((map (λ name, (name, experiment_id_to_record_ids name)) names).*1 = names)
    as Hkeys.
  { clear. induction names as [|n names IH]; simpl; [done|]. by f_equal. }
  rewrite OrderedDict_distinct_keys by (by rewrite Hkeys).
  assert (just_last_record = true →
    (if just_last_record
     then foldl (λ d k, match od_get k d with
                        | Ok ids => od_set k (just_last ids) d
                        | Raise _ => d
                        end)
            (map (λ name, (name, experiment_id_to_record_ids name)) names)
            (map (λ name, (name, experiment_id_to_record_ids name)) names).*1
     else map (λ name, (name, experiment_id_to_record_ids name)) names)
    = map (λ name, (name, just_last (experiment_id_to_record_ids name))) names)
    as Hlast.
  { intros ->.
    etrans; [apply (just_last_loop []); simpl; by rewrite Hkeys|].
    simpl. by rewrite map_map. }
  destruct just_last_record.
  - rewrite Hlast by done. split; [done|]. intros _.
    apply Forall_forall. intros kv Hkv.
    apply list_elem_of_fmap in Hkv as (name & -> & _). simpl.
    unfold just_last. destruct (last (experiment_id_to_record_ids name)); simpl.
    + split; [lia|done].
    + split; [lia|done].
  - split; [done|]. discriminate.
Qed.

Lemma reload_record_dict_witness :
  NoDup ["exp.a"; "exp.b"; "exp.c"]
  ∧ reload_record_dict ["exp.a"; "exp.b"; "exp.c"] (Some ["exp.c"; "exp.a"])
      (LaunchModel.experiment_id_to_record_ids ["exp.a.1"; "exp.c.1"; "exp.a.2"]) true
    = [("exp.a", ["exp.a.2"]); ("exp.c", ["exp.c.1"])].
Proof.
  assert (NoDup ["exp.a"; "exp.b"; "exp.c"]) as Hnd
    by (apply (bool_decide_unpack _); vm_compute; exact I).
  split; [exact Hnd|].
  rewrite (proj1 (reload_record_dict_keeps_order_and_last
                    ["exp.a"; "exp.b"; "exp.c"] (Some ["exp.c"; "exp.a"])
                    (LaunchModel.experiment_id_to_record_ids
                       ["exp.a.1"; "exp.c.1"; "exp.a.2"]) true Hnd)).
  vm_compute. reflexivity.
Defined.

Lemma flat_rows_fit_witness :
  NestedModel.headers ≠ []
  ∧ ∃ table_rows,
      (flat_experiments_loop (_get_record_rows Model.env) NestedModel.headers false
         (Some 100) 0 NestedModel.exp_record_dict [] Model.empty_world).1 = Ok table_rows
      ∧ Forall (λ row, length row = 5) table_rows.
Proof.
  split; [discriminate|].
  destruct (flat_rows_fit_the_header_line Model.env NestedModel.headers false (Some 100)
              NestedModel.exp_record_dict Model.empty_world
              [["12.5s"; "Finished"]; ["3.1s"; "Started"]; ["40.2s"; "Finished"]]
              (for_each
                 (row_fetch (_get_record_rows Model.env) NestedModel.headers false
                    (Some 100))
                 (concat NestedModel.exp_record_dict.*2) Model.empty_world).2)
    as (table_rows & Hrun & Hwidth); [discriminate | vm_compute; reflexivity |].
  exists table_rows. rewrite Hrun. split; [reflexivity | exact Hwidth].
Defined.

Lemma uncached_render_witness :
  ExperimentBrowser.cache_result_string LaunchModel.self = false
  ∧ files (get_experiment_list_str Model.env NestedModel.plain (λ ids, ids)
             LaunchModel.self NestedModel.exp_record_dict Model.corrupted_world).2
    = files Model.corrupted_world
  ∧ warnings (get_experiment_list_str Model.env NestedModel.plain (λ ids, ids)
                LaunchModel.self NestedModel.exp_record_dict Model.corrupted_world).2
    = [].
Proof.
  split; [reflexivity|].
  exact (uncached_render_leaves_cache_alone Model.env NestedModel.plain (λ ids, ids)
           LaunchModel.self NestedModel.exp_record_dict eq_refl Model.corrupted_world).
Defined.

Lemma unknown_view_mode_witness :
  get_experiment_list_str Model.env NestedModel.plain (λ ids, ids)
    (view LaunchModel.self "compact") NestedModel.exp_record_dict Model.empty_world
  = (Raise (PyError "KeyError" "compact"), Model.empty_world).
Proof.
  apply (proj1 (unknown_view_mode_or_format_raises_before_fetching Model.env
                  NestedModel.plain (λ ids, ids) (view LaunchModel.self "compact")
                  NestedModel.exp_record_dict Model.empty_world)); discriminate.
Defined.

(** * The record table *)

Lemma map_length_constant {A} (rows : list (list A)) n :
  Forall (λ row, length row = n) rows → map length rows = replicate (length rows) n.
Proof. induction 1 as [|row rows Hrow _ IH]; simpl; [done|]. by rewrite Hrow, IH. Qed.

Section RecordTableFacts.
Context {Rec : Type}.
Variable get_id : Rec → result string.
Variable get_field_text_or_question : Rec → ExpInfoFields.t → result string.
Variable invalid_arg_string_short : Rec → result string.
Variable oneline_result_128 : Rec → result string.
Variable all_equal : list nat → bool.
Variable T : tabulate_format.

Local Abbreviation getter :=
  (record_table_getter get_id get_field_text_or_question invalid_arg_string_short
     oneline_result_128).
Local Abbreviation col_info :=
  (get_col_info get_id get_field_text_or_question invalid_arg_string_short
     oneline_result_128).
Local Abbreviation table_rows :=
  (record_table_rows get_id get_field_text_or_question invalid_arg_string_short
     oneline_result_128).

Lemma get_col_info_guarded i (experiment_record : Rec) headers :
  col_info false i experiment_record headers
  = Ok (map (λ h, match getter h i experiment_record with
                  | Ok v => v
                  | Raise _ => error_displaying_info
                  end) headers).
Proof.
  induction headers as [|h hs IH]; simpl; [done|].
  rewrite IH. by destruct (getter h i experiment_record).
Qed.

Lemma record_table_rows_guarded i (records : list Rec) headers :
  table_rows false i records headers
  = Ok (imap (λ k experiment_record,
                map (λ h, match getter h (i + k) experiment_record with
                          | Ok v => v
                          | Raise _ => error_displaying_info
                          end) headers) records).
Proof.
  revert i. induction records as [|r records IH]; intros i; simpl; [done|].
  rewrite get_col_info_guarded, IH. simpl. f_equal. f_equal.
  - by rewrite Nat.add_0_r.
  - apply imap_ext. intros k r' _. simpl. by rewrite Nat.add_succ_r.
Qed.

(** X13: Without [raise_display_errors] the record table is always produced, for
    any records and any header names, known or not: each row has one cell per
    header, a cell whose getter fails or whose header is unknown reads
    "<Error displaying info>", the width assertion holds, and the table has a
    header line, a rule and one line per record. *)
Theorem record_table_is_always_produced (records : list Rec) headers :
  (∀ n k, all_equal (replicate k n) = true) →
  ∃ rows,
    table_rows false 0 records headers = Ok rows
    ∧ rows = imap (λ i experiment_record,
                     map (λ h, match getter h i experiment_record with
                               | Ok v => v
                               | Raise _ => CStr "<Error displaying info>"
                               end) headers) records
    ∧ Forall (λ row, length row = length headers) rows
    ∧ get_record_table get_id get_field_text_or_question invalid_arg_string_short
        oneline_result_128 all_equal T records headers false
      = Ok (Py.join (String "010"%char EmptyString)
              (tabulate_lines T (Some headers) rows))
    ∧ length (tabulate_lines T (Some headers) rows) = 2 + length records.
Proof.
  intros Hequal. eexists. split; [apply record_table_rows_guarded|].
  split; [done|].
  assert (Forall (λ row : list cell, length row = length headers)
            (imap (λ k experiment_record,
                     map (λ h, match getter h (0 + k) experiment_record with
                               | Ok v => v
                               | Raise _ => error_displaying_info
                               end) headers) records)) as Hwidth.
  { apply Forall_forall. intros row Hrow.
    apply elem_of_lookup_imap in Hrow as (k & r & -> & _). by rewrite length_map. }
  split; [exact Hwidth|]. split.
  - unfold get_record_table. rewrite record_table_rows_guarded.
    rewrite (map_length_constant _ _ Hwidth), length_imap.
    change (length headers :: replicate (length records) (length headers))
      with (replicate (S (length records)) (length headers)).
    by rewrite Hequal.
  - simpl. by rewrite length_map, length_imap.
Qed.

Lemma get_col_info_strict_ok i (experiment_record : Rec) headers :
  Forall (λ h, ∃ v, getter h i experiment_record = Ok v) headers →
  ∃ row, col_info true i experiment_record headers = Ok row.
Proof.
  induction 1 as [|h hs [v Hv] _ [row IH]]; simpl; [by eexists|].
  rewrite Hv, IH. by eexists.
Qed.

Lemma get_col_info_strict_raise i (experiment_record : Rec) before h after e :
  Forall (λ h', ∃ v, getter h' i experiment_record = Ok v) before →
  getter h i experiment_record = Raise e →
  col_info true i experiment_record (before ++ h :: after) = Raise e.
Proof.
  intros Hbefore Hfault. induction Hbefore as [|h' hs [v Hv] _ IH]; simpl.
  - by rewrite Hfault.
  - by rewrite Hv, IH.
Qed.

(** X14: With [raise_display_errors] the first cell that cannot be produced, by a
    failing getter or an unknown header name, aborts the whole table with
    that error: the cell may belong to any record, the cells of the records
    before it and the cells before it in its own row having been produced. *)
Theorem record_table_raises_first_fault
    records_before (experiment_record : Rec) records_after before h after e :
  (∀ k r, records_before !! k = Some r →
     Forall (λ h', ∃ v, getter h' k r = Ok v) (before ++ h :: after)) →
  Forall (λ h', ∃ v, getter h' (length records_before) experiment_record = Ok v)
    before →
  getter h (length records_before) experiment_record = Raise e →
  get_record_table get_id get_field_text_or_question invalid_arg_string_short
    oneline_result_128 all_equal T
    (records_before ++ experiment_record :: records_after)
    (before ++ h :: after) true
  = Raise e.
Proof.
  intros Hearlier Hbefore Hfault. unfold get_record_table.
  assert (∀ i,
    (∀ k r, records_before !! k = Some r →
       Forall (λ h', ∃ v, getter h' (i + k) r = Ok v) (before ++ h :: after)) →
    Forall (λ h', ∃ v, getter h' (i + length records_before) experiment_record = Ok v)
      before →
    getter h (i + length records_before) experiment_record = Raise e →
    table_rows true i (records_before ++ experiment_record :: records_after)
      (before ++ h :: after) = Raise e) as Hrows.
  { clear Hearlier Hbefore Hfault.
    induction records_before as [|r rs IH]; intros i Hearlier Hbefore Hfault; simpl.
    - simpl in Hbefore, Hfault. rewrite Nat.add_0_r in Hbefore, Hfault.
      by rewrite (get_col_info_strict_raise _ _ _ _ _ _ Hbefore Hfault).
    - destruct (get_col_info_strict_ok i r (before ++ h :: after)) as [row ->].
      { specialize (Hearlier 0 r eq_refl). by rewrite Nat.add_0_r in Hearlier. }
      rewrite (IH (S i)); [done| | |].
      + intros k r' Hk. specialize (Hearlier (S k) r' Hk).
        by rewrite Nat.add_succ_r in Hearlier.
      + simpl in Hbefore. by rewrite Nat.add_succ_r in Hbefore.
      + simpl in Hfault. by rewrite Nat.add_succ_r in Hfault. }
  by rewrite (Hrows 0).
Qed.

End RecordTableFacts.

Lemma record_table_witness :
  (∀ n k, RecordTableModel.all_equal (replicate k n) = true)
  ∧ get_record_table RecordTableModel.get_id RecordTableModel.get_field_text_or_question
      (λ r, Ok (Model.args_changed r)) Model.oneline_result RecordTableModel.all_equal
      NestedModel.plain [Model.finished; Model.broken] ["#"; "Result"; "Colour"] false
    = Ok (Py.join (String "010"%char EmptyString)
            ["#  Result  Colour";
             "----";
             "0  accuracy: 0.93  <Error displaying info>";
             "1  <Error displaying info>  <Error displaying info>"]).
Proof.
  assert (∀ n k, RecordTableModel.all_equal (replicate k n) = true) as Hequal.
  { intros n [|k]; simpl; [done|]. induction k as [|k IH]; simpl; [done|].
    by rewrite Nat.eqb_refl. }
  split; [exact Hequal|].
  destruct (record_table_is_always_produced RecordTableModel.get_id
              RecordTableModel.get_field_text_or_question
              (λ r, Ok (Model.args_changed r)) Model.oneline_result
              RecordTableModel.all_equal NestedModel.plain
              [Model.finished; Model.broken] ["#"; "Result"; "Colour"] Hequal)
    as (rows & _ & -> & _ & -> & _).
  vm_compute. reflexivity.
Defined.

Lemma record_table_raises_witness :
  record_table_getter RecordTableModel.get_id RecordTableModel.get_field_text_or_question
    (λ r, Ok (Model.args_changed r)) Model.oneline_result "Result" 1 Model.broken
  = Raise (PyError "IOError" "result.pkl")
  ∧ get_record_table RecordTableModel.get_id RecordTableModel.get_field_text_or_question
      (λ r, Ok (Model.args_changed r)) Model.oneline_result RecordTableModel.all_equal
      NestedModel.plain [Model.finished; Model.broken; Model.running]
      ["#"; "Result"; "Colour"] true
    = Raise (PyError "KeyError" "Colour")
  ∧ get_record_table RecordTableModel.get_id RecordTableModel.get_field_text_or_question
      (λ r, Ok (Model.args_changed r)) Model.oneline_result RecordTableModel.all_equal
      NestedModel.plain [Model.finished; Model.broken; Model.running]
      ["#"; "Result"; "Status"] true
    = Raise (PyError "IOError" "result.pkl").
Proof.
  split; [reflexivity|]. split.
  - apply (record_table_raises_first_fault RecordTableModel.get_id
             RecordTableModel.get_field_text_or_question
             (λ r, Ok (Model.args_changed r)) Model.oneline_result
             RecordTableModel.all_equal NestedModel.plain
             [] Model.finished [Model.broken; Model.running]
             ["#"; "Result"] "Colour" []).
    + intros k r Hk. discriminate.
    + repeat constructor; by eexists.
    + reflexivity.
  - apply (record_table_raises_first_fault RecordTableModel.get_id
             RecordTableModel.get_field_text_or_question
             (λ r, Ok (Model.args_changed r)) Model.oneline_result
             RecordTableModel.all_equal NestedModel.plain
             [Model.finished] Model.broken [Model.running]
             ["#"] "Result" ["Status"]).
    + intros [|k] r Hk; [|discriminate]. injection Hk as <-.
      repeat constructor; by eexists.
    + repeat constructor. by eexists.
    + reflexivity.
Defined.

(** * The loop of [launch] *)

Section LaunchFacts.
Variable library_keys : list string.
Variable experiment_id_to_record_ids : list string → string → list string.
Variable select_experiments :
  string → list (string * list string) → result (list string).
Variable select_experiment_records :
  string → list (string * list string) → result (list string).
Variable render_experiment_list :
  ExperimentBrowser.t → list (string * list string) → result string.
Variable get_record_table : list string → string.
Variable interpret_numbers : string → result (option (list nat)).
Variable levenshtein_distance : string → string → nat.
Variable keys : list string.
Variable HELP_TEXT : string.
Variable other_handler : string → ExperimentBrowser.t → list string → M console unit.

Local Abbreviation handler :=
  (call_handler select_experiment_records get_record_table HELP_TEXT other_handler).
Local Abbreviation guarded :=
  (try_catch select_experiment_records get_record_table interpret_numbers
     levenshtein_distance keys HELP_TEXT other_handler).
Local Abbreviation pass :=
  (launch_pass library_keys experiment_id_to_record_ids select_experiments
     select_experiment_records render_experiment_list get_record_table
     interpret_numbers levenshtein_distance keys HELP_TEXT other_handler).
Local Abbreviation loop :=
  (launch library_keys experiment_id_to_record_ids select_experiments
     select_experiment_records render_experiment_list get_record_table
     interpret_numbers levenshtein_distance keys HELP_TEXT other_handler).
Local Abbreviation listed self c :=
  (set_exp_record_dict self
     (reload_record_dict library_keys (ExperimentBrowser.root_experiment self)
        (experiment_id_to_record_ids (record_store c))
        (ExperimentBrowser.just_last_record self))).

Lemma launch_pass_command self user_input c table :
  ExperimentBrowser._filter self = None →
  render_experiment_list (listed self c)
    (ExperimentBrowser.exp_record_dict (listed self c)) = Ok table →
  pass self (Some user_input) c = guarded (listed self c) user_input (after_listing table c).
Proof.
  intros Hfilter Hrender.
  unfold launch_pass, current_record_dict, bind, print, lift, ret.
  rewrite Hfilter. simpl in *. rewrite Hrender, Hfilter. reflexivity.
Qed.

Lemma launch_pass_interactive self c table :
  ExperimentBrowser._filter self = None →
  render_experiment_list (listed self c)
    (ExperimentBrowser.exp_record_dict (listed self c)) = Ok table →
  ∀ line rest, stdin c = line :: rest →
  pass self None c
  = guarded (listed self c) (rstrip_space (lstrip_space line)) (after_prompt table c).
Proof.
  intros Hfilter Hrender line rest Hin.
  unfold launch_pass, current_record_dict, bind, print, lift, ret, after_prompt,
    raw_input.
  rewrite Hfilter. simpl in *. rewrite Hrender, Hfilter. simpl. rewrite Hin.
  reflexivity.
Qed.

Lemma dispatch_registered user_input cmd args :
  Py.split_space user_input = cmd :: args → cmd ≠ "" → cmd ∈ keys →
  Dispatch.dispatch interpret_numbers levenshtein_distance keys user_input
  = Ok (Dispatch.Call cmd args).
Proof.
  intros Hsplit Hne Hin. unfold Dispatch.dispatch. rewrite Hsplit, eqb_false by done.
  unfold Py.contains. by rewrite bool_decide_eq_true_2.
Qed.

(** A registered command's pass: how the handler's outcome becomes the
    pass's. *)
Lemma guarded_registered self user_input cmd args c :
  Py.split_space user_input = cmd :: args → cmd ≠ "" → cmd ∈ keys →
  guarded self user_input c
  = match handler self cmd args c with
    | (Ok r, c') => (Ok (r.1, is_QUIT r.2 || ExperimentBrowser.close_after r.1), c')
    | (Raise (PyError cls msg), c') =>
        if ExperimentBrowser.catch_errors self then
          match stdin c' with
          | [] => (Raise (PyError "EOFError" ""),
                   (raw_input (stacktrace_prompt cls msg) c').2)
          | res :: _ =>
              if String.eqb res "e"
              then (Raise (PyError cls msg), (raw_input (stacktrace_prompt cls msg) c').2)
              else (Ok (self, false), (raw_input (stacktrace_prompt cls msg) c').2)
          end
        else (Raise (PyError cls msg), c')
    | (Raise SystemExit, c') => (Raise SystemExit, c')
    end.
Proof.
  intros Hsplit Hne Hin.
  unfold try_catch, try_except_Exception, try_body, bind at 1.
  rewrite (dispatch_registered _ _ _ Hsplit Hne Hin). unfold bind at 1.
  destruct (handler self cmd args c) as [[[self2 out]|[cls msg|]] c'];
    [done| |done].
  destruct (ExperimentBrowser.catch_errors self); [|done].
  unfold bind, raw_input. destruct (stdin c') as [|res rest]; [done|].
  by destruct (String.eqb res "e").
Qed.

Local Abbreviation body :=
  (try_body select_experiment_records get_record_table interpret_numbers
     levenshtein_distance keys HELP_TEXT other_handler).
Local Abbreviation everything self c :=
  (reload_record_dict library_keys (ExperimentBrowser.root_experiment self)
     (experiment_id_to_record_ids (record_store c))
     (ExperimentBrowser.just_last_record self)).

(** A pass whose list can be shown, with or without a filter, and which has a
    command line, given or typed, hands that line to the [try] statement. *)
Lemma launch_pass_enters_try self command c shown table user_input :
  shown_record_dict select_experiments (ExperimentBrowser._filter self) (everything self c)
  = Ok shown →
  render_experiment_list (set_exp_record_dict self shown) shown = Ok table →
  command_line command c = Some user_input →
  pass self command c
  = guarded (set_exp_record_dict self shown) user_input
      (entering_try (set_exp_record_dict self shown) table (everything self c) command c).
Proof.
  intros Hshown Hrender Hline.
  unfold launch_pass, current_record_dict, bind, print, lift, ret. simpl.
  unfold shown_record_dict in Hshown.
  destruct (ExperimentBrowser._filter self) as [f|] eqn:Hfilter.
  - destruct (select_experiments f (everything self c)) as [names|e]; [|done].
    destruct (lookup_all names (everything self c)) as [pairs|e]; [|done].
    injection Hshown as <-. simpl. rewrite Hrender. simpl. rewrite ?Hfilter. simpl.
    destruct command as [given|]; simpl in Hline.
    + injection Hline as ->. f_equal. unfold entering_try. simpl. rewrite Hfilter.
      rewrite <- !app_assoc. simpl. rewrite ?app_nil_r. reflexivity.
    + unfold raw_input. simpl. destruct (stdin c) as [|line rest] eqn:Hin; [done|].
      injection Hline as <-. f_equal. unfold entering_try. simpl.
      rewrite Hfilter, Hin.
      rewrite <- !app_assoc. simpl. rewrite ?app_nil_r. reflexivity.
  - injection Hshown as <-. simpl. rewrite Hrender. simpl. rewrite ?Hfilter. simpl.
    destruct command as [given|]; simpl in Hline.
    + injection Hline as ->. f_equal. unfold entering_try. simpl. rewrite Hfilter.
      rewrite <- !app_assoc. simpl. rewrite ?app_nil_r. reflexivity.
    + unfold raw_input. simpl. destruct (stdin c) as [|line rest] eqn:Hin; [done|].
      injection Hline as <-. f_equal. unfold entering_try. simpl.
      rewrite Hfilter, Hin.
      rewrite <- !app_assoc. simpl. rewrite ?app_nil_r. reflexivity.
Qed.

(** The loop after such a pass: it breaks, goes on, or raises as the [try]
    statement says. *)
Lemma launch_step self command c shown table user_input fuel :
  shown_record_dict select_experiments (ExperimentBrowser._filter self) (everything self c)
  = Ok shown →
  render_experiment_list (set_exp_record_dict self shown) shown = Ok table →
  command_line command c = Some user_input →
  loop (S fuel) self command c
  = match guarded (set_exp_record_dict self shown) user_input
            (entering_try (set_exp_record_dict self shown) table (everything self c)
               command c) with
    | (Ok r, c') => if r.2 : bool then (Ok (Some r.1), c') else loop fuel r.1 None c'
    | (Raise e, c') => (Raise e, c')
    end.
Proof.
  intros Hshown Hrender Hline. cbn [launch]. unfold bind at 1.
  rewrite (launch_pass_enters_try _ _ _ _ _ _ Hshown Hrender Hline).
  destruct (guarded _ _ _) as [[[self' b]|e] c']; simpl; [by destruct b|done].
Qed.

(** X15: Typing [q] ends [launch] after one pass: with no filter active and a list
    that renders, the loop breaks on the first line read when that line is
    "q" up to surrounding spaces; only that line is consumed and the record
    store is not touched. *)
Theorem typing_q_ends_launch self c table line rest fuel :
  "q" ∈ keys →
  ExperimentBrowser._filter self = None →
  render_experiment_list (listed self c)
    (ExperimentBrowser.exp_record_dict (listed self c)) = Ok table →
  stdin c = line :: rest →
  rstrip_space (lstrip_space line) = "q" →
  loop (S fuel) self None c = (Ok (Some (listed self c)), after_prompt table c)
  ∧ stdin (after_prompt table c) = rest
  ∧ record_store (after_prompt table c) = record_store c
  ∧ clear_calls (after_prompt table c) = clear_calls c.
Proof.
  intros Hq Hfilter Hrender Hin Hline. split.
  - cbn [launch]. unfold bind at 1.
    rewrite (launch_pass_interactive _ _ _ Hfilter Hrender _ _ Hin), Hline.
    rewrite (guarded_registered _ "q" "q" []); [|done|done|done].
    reflexivity.
  - unfold after_prompt, raw_input. simpl. by rewrite Hin.
Qed.

(** X16: When the handler of a registered command returns, the pass ends the loop
    exactly if the handler returned [QUIT] or [close_after] is set; otherwise
    the loop goes on with the browser the handler left and asks for input.
    The command may have been typed at the prompt or given to [launch], and
    a filter may be active. *)
Theorem handler_outcome_decides_break
    self command c shown table user_input cmd args self2 out c2 fuel :
  shown_record_dict select_experiments (ExperimentBrowser._filter self) (everything self c)
  = Ok shown →
  render_experiment_list (set_exp_record_dict self shown) shown = Ok table →
  command_line command c = Some user_input →
  Py.split_space user_input = cmd :: args → cmd ≠ "" → cmd ∈ keys →
  handler (set_exp_record_dict self shown) cmd args
    (entering_try (set_exp_record_dict self shown) table (everything self c) command c)
  = (Ok (self2, out), c2) →
  loop (S fuel) self command c
  = if is_QUIT out || ExperimentBrowser.close_after self2
    then (Ok (Some self2), c2)
    else loop fuel self2 None c2.
Proof.
  intros Hshown Hrender Hline Hsplit Hne Hin Hhandler.
  rewrite (launch_step _ _ _ _ _ _ _ Hshown Hrender Hline).
  by rewrite (guarded_registered _ _ _ _ _ Hsplit Hne Hin), Hhandler.
Qed.

(** X17: An empty command, and the refresh command [r], never end the loop, not
    even with [close_after]: the pass only lists the experiments and the loop
    goes on to ask for input.  This holds for a line typed at the prompt (one
    that is empty or all spaces, or that starts with [r]) as for a command
    given to [launch], with or without a filter. *)
Theorem blank_and_refresh_never_end_launch
    self command c shown table user_input args fuel :
  shown_record_dict select_experiments (ExperimentBrowser._filter self) (everything self c)
  = Ok shown →
  render_experiment_list (set_exp_record_dict self shown) shown = Ok table →
  command_line command c = Some user_input →
  (Py.split_space user_input = "" :: args)
  ∨ ((Py.split_space user_input = "r" :: args)
     ∧ ("r" ∉ keys) ∧ interpret_numbers "r" = Ok None) →
  loop (S fuel) self command c
  = loop fuel (set_exp_record_dict self shown) None
      (entering_try (set_exp_record_dict self shown) table (everything self c) command c).
Proof.
  intros Hshown Hrender Hline Hcases.
  rewrite (launch_step _ _ _ _ _ _ _ Hshown Hrender Hline).
  unfold try_catch, try_except_Exception, try_body, bind, Dispatch.dispatch.
  destruct Hcases as [-> | (-> & Hr & Hnum)]; simpl; [done|].
  rewrite contains_false by done. by rewrite Hnum.
Qed.

(** X18: The [filter] command, typed or given, stores any expression unchecked;
    when the selector rejects it, the next pass raises the selector's error
    before the [try], so it leaves [launch] whether [catch_errors] is set or
    not.  The record store is not touched and no further line is read. *)
Theorem rejected_filter_escapes_launch
    self command c shown table user_input f e fuel :
  "filter" ∈ keys →
  ExperimentBrowser.close_after self = false →
  shown_record_dict select_experiments (ExperimentBrowser._filter self) (everything self c)
  = Ok shown →
  render_experiment_list (set_exp_record_dict self shown) shown = Ok table →
  command_line command c = Some user_input →
  Py.split_space user_input = ["filter"; f] →
  f ≠ "-" → f ≠ "--clear" →
  select_experiments f (everything self c) = Raise e →
  (loop (S (S fuel)) self command c).1 = Raise e
  ∧ record_store (loop (S (S fuel)) self command c).2 = record_store c
  ∧ stdin (loop (S (S fuel)) self command c).2
    = stdin (entering_try (set_exp_record_dict self shown) table (everything self c)
               command c).
Proof.
  intros Hkey Hclose Hshown Hrender Hline Hsplit Hdash Hclear Hreject.
  assert (Py.contains f ["-"; "--clear"] = false) as Hkeep.
  { apply contains_false. intros Hin.
    apply elem_of_cons in Hin as [->|Hin]; [done|].
    apply list_elem_of_singleton in Hin as ->. done. }
  set (c1 := entering_try (set_exp_record_dict self shown) table (everything self c)
               command c).
  assert (∃ c', loop (S (S fuel)) self command c = (Raise e, c')
                ∧ record_store c' = record_store c ∧ stdin c' = stdin c1)
    as (c' & -> & Hstore & Hstdin); [|done].
  rewrite (launch_step _ _ _ _ _ _ _ Hshown Hrender Hline). fold c1.
  rewrite (guarded_registered _ _ _ _ _ Hsplit); [|done|done].
  unfold call_handler. simpl. unfold ret, filter_handler. rewrite Hkeep. simpl.
  rewrite Hclose. simpl.
  unfold bind at 1. unfold launch_pass, current_record_dict, bind, print, lift.
  simpl. rewrite Hreject. eexists. split; [reflexivity|]. split; reflexivity.
Qed.

(** X19: When the handler of a registered command, typed or given, raises an
    exception, [launch] raises it if [catch_errors] is off; if it is on, the
    user is asked once: the answer [e] raises the exception after all, any
    other answer lets the loop go on and ask for the next command, even when
    [close_after] is set. *)
Theorem handler_error_is_caught_on_request
    self command c shown table user_input cmd args cls msg c2 fuel :
  shown_record_dict select_experiments (ExperimentBrowser._filter self) (everything self c)
  = Ok shown →
  render_experiment_list (set_exp_record_dict self shown) shown = Ok table →
  command_line command c = Some user_input →
  Py.split_space user_input = cmd :: args → cmd ≠ "" → cmd ∈ keys →
  handler (set_exp_record_dict self shown) cmd args
    (entering_try (set_exp_record_dict self shown) table (everything self c) command c)
  = (Raise (PyError cls msg), c2) →
  (ExperimentBrowser.catch_errors self = false →
   loop (S fuel) self command c = (Raise (PyError cls msg), c2))
  ∧ (ExperimentBrowser.catch_errors self = true →
     ∀ res rest, stdin c2 = res :: rest →
       loop (S fuel) self command c
       = if String.eqb res "e"
         then (Raise (PyError cls msg), (raw_input (stacktrace_prompt cls msg) c2).2)
         else loop fuel (set_exp_record_dict self shown) None
                (raw_input (stacktrace_prompt cls msg) c2).2).
Proof.
  intros Hshown Hrender Hline Hsplit Hne Hin Hhandler.
  rewrite (launch_step _ _ _ _ _ _ _ Hshown Hrender Hline).
  rewrite (guarded_registered _ _ _ _ _ Hsplit Hne Hin), Hhandler. simpl.
  split.
  - intros ->. done.
  - intros -> res rest Hres. rewrite Hres. by destruct (String.eqb res "e").
Qed.

(** X20: Answering [q] at the prompt of the help text leaves [launch] by
    [SystemExit], which [catch_errors] does not catch; [h] may have been
    typed or given, and only the answer is consumed after it. *)
Theorem q_at_help_prompt_exits self command c shown table user_input rest fuel :
  "h" ∈ keys →
  ExperimentBrowser.close_after self = false →
  shown_record_dict select_experiments (ExperimentBrowser._filter self) (everything self c)
  = Ok shown →
  render_experiment_list (set_exp_record_dict self shown) shown = Ok table →
  command_line command c = Some user_input →
  Py.split_space user_input = ["h"] →
  stdin (entering_try (set_exp_record_dict self shown) table (everything self c)
           command c) = "q" :: rest →
  (loop (S fuel) self command c).1 = Raise SystemExit
  ∧ stdin (loop (S fuel) self command c).2 = rest.
Proof.
  intros Hkey Hclose Hshown Hrender Hline Hsplit Hin.
  rewrite (launch_step _ _ _ _ _ _ _ Hshown Hrender Hline).
  remember (entering_try (set_exp_record_dict self shown) table (everything self c)
              command c) as c1 eqn:Hc1.
  clear Hc1.
  rewrite (guarded_registered _ _ _ _ _ Hsplit); [|done|done].
  unfold call_handler. simpl.
  unfold bind, help, _warn_with_prompt, bind, print, raw_input. simpl.
  rewrite Hclose, Hin. simpl. split; reflexivity.
Qed.

(** What the [try] statement makes of a body that returns. *)
Lemma guarded_returns self user_input c self' reached c' :
  body self user_input c = (Ok (self', reached), c') →
  guarded self user_input c
  = (Ok (self', match reached with Some b => b | None => false end), c').
Proof.
  intros Hbody. unfold try_catch, try_except_Exception, bind. by rewrite Hbody.
Qed.

(** The body of the [try] for an unrecognised command. *)
Lemma unrecognised_body self user_input cmd args c :
  Py.split_space user_input = cmd :: args →
  cmd ≠ "" → cmd ∉ keys → interpret_numbers cmd = Ok None → cmd ≠ "r" →
  keys ≠ [] →
  ∃ i closest,
    keys !! i = Some closest
    ∧ (∀ k, k ∈ keys → levenshtein_distance cmd closest ≤ levenshtein_distance cmd k)
    ∧ (∀ j k, j < i → keys !! j = Some k →
         levenshtein_distance cmd closest < levenshtein_distance cmd k)
    ∧ body self user_input c
      = (let! response :=
           raw_input
             (Dispatch.unrecognised_prompt cmd
                (if levenshtein_distance cmd closest <=? 2
                 then Dispatch.did_you_mean closest else "")) in
         (if String.eqb (Py.lower response) "h" then help HELP_TEXT self else ret tt);;
         ret (self, Some (ExperimentBrowser.close_after self))) c.
Proof.
  intros Hsplit Hempty Hreg Hnum Hr Hkeys.
  destruct (unrecognised_dispatch interpret_numbers levenshtein_distance keys
              user_input cmd args Hsplit Hempty Hreg Hnum Hr Hkeys)
    as (i & closest & Hc & Hmin & Hfirst & Hdispatch).
  exists i, closest. repeat split; try done.
  unfold try_body. by rewrite Hdispatch.
Qed.

(** C7: a line whose first token is not empty, not a registered command, and
    that [interpret_numbers] reads as a selection makes the [try] body call
    [run] with that token and the argument tokens, "-e" being appended to
    them exactly when none of "-s", "-e", "-p" is among them; what [run]
    raises is raised, and when it returns the end-of-pass test is reached
    with [close_after].  So a pass of [launch] that gets such a line, typed
    or given, makes that call of [run] on the listed browser, and ends the
    loop exactly if [close_after] is set. *)
Theorem bare_number_runs_with_implicit_flag
    self command c shown table user_input cmd args ns :
  Py.split_space user_input = cmd :: args →
  cmd ≠ "" → cmd ∉ keys → interpret_numbers cmd = Ok (Some ns) →
  let run_args :=
    cmd :: (if decide ("-s" ∈ args ∨ "-e" ∈ args ∨ "-p" ∈ args)
            then args else args ++ ["-e"]) in
  (∀ b k,
     body b user_input k
     = match other_handler "run" b run_args k with
       | (Ok _, k') => (Ok (b, Some (ExperimentBrowser.close_after b)), k')
       | (Raise e, k') => (Raise e, k')
       end)
  ∧ (shown_record_dict select_experiments (ExperimentBrowser._filter self)
       (everything self c) = Ok shown →
     render_experiment_list (set_exp_record_dict self shown) shown = Ok table →
     command_line command c = Some user_input →
     ∀ c',
       other_handler "run" (set_exp_record_dict self shown) run_args
         (entering_try (set_exp_record_dict self shown) table (everything self c)
            command c)
       = (Ok tt, c') →
       pass self command c
       = (Ok (set_exp_record_dict self shown, ExperimentBrowser.close_after self), c')).
Proof.
  intros Hsplit Hempty Hreg Hnum run_args.
  assert (∀ b k,
     body b user_input k
     = match other_handler "run" b run_args k with
       | (Ok _, k') => (Ok (b, Some (ExperimentBrowser.close_after b)), k')
       | (Raise e, k') => (Raise e, k')
       end) as Hbody.
  { intros b k. unfold try_body.
    rewrite (bare_number_dispatch interpret_numbers levenshtein_distance keys
               user_input cmd args ns Hsplit Hempty Hreg Hnum).
    unfold bind, ret. fold run_args.
    by destruct (other_handler "run" b run_args k) as [[[]|e] k']. }
  split; [exact Hbody|].
  intros Hshown Hrender Hline c' Hrun.
  rewrite (launch_pass_enters_try _ _ _ _ _ _ Hshown Hrender Hline).
  rewrite (guarded_returns _ _ _ (set_exp_record_dict self shown)
             (Some (ExperimentBrowser.close_after self)) c'); [done|].
  by rewrite Hbody, Hrun.
Qed.

End LaunchFacts.

(** C6: a line whose first token is not empty, not registered, not read as a
    selection by [interpret_numbers] and not "r" makes the [try] body ask
    with the unrecognised-command prompt, which quotes the token.  The prompt
    goes on with " Did you mean ", the registered command at the least edit
    distance from the token (the first such in the dictionary's order) in
    quotes, and "?.  ", when that distance is at most 2, and carries no
    suggestion otherwise.  With the Levenshtein distance and the registry of
    [launch], in any order, "fliter" is answered with the prompt that
    suggests "filter", in the [try] body and so in a pass of [launch] that
    gets the line "fliter", typed or given. *)
Theorem unknown_command_suggests_closest_within_two :
  (∀ select_experiment_records get_record_table interpret_numbers
     levenshtein_distance keys HELP_TEXT other_handler self user_input cmd args c,
     Py.split_space user_input = cmd :: args →
     cmd ≠ "" → cmd ∉ keys → interpret_numbers cmd = Ok None → cmd ≠ "r" →
     keys ≠ [] →
     ∃ i closest,
       keys !! i = Some closest
       ∧ (∀ k, k ∈ keys →
            levenshtein_distance cmd closest ≤ levenshtein_distance cmd k)
       ∧ (∀ j k, j < i → keys !! j = Some k →
            levenshtein_distance cmd closest < levenshtein_distance cmd k)
       ∧ let prompt :=
           "Unrecognised command: " +:+ dquote +:+ cmd +:+ dquote +:+ ". "
           +:+ (if levenshtein_distance cmd closest <=? 2
                then " Did you mean " +:+ dquote +:+ closest +:+ dquote +:+ "?.  "
                else "")
           +:+ "Type " +:+ dquote +:+ "h" +:+ dquote
           +:+ " for help or Enter to continue. >" in
         try_body select_experiment_records get_record_table interpret_numbers
           levenshtein_distance keys HELP_TEXT other_handler self user_input c
         = (let! response := raw_input prompt in
            (if String.eqb (Py.lower response) "h" then help HELP_TEXT self
             else ret tt);;
            ret (self, Some (ExperimentBrowser.close_after self))) c
         ∧ stdout (raw_input prompt c).2 = stdout c ++ [prompt])
  ∧ (∀ library_keys experiment_id_to_record_ids select_experiments
       select_experiment_records render_experiment_list get_record_table
       interpret_numbers keys HELP_TEXT other_handler,
       keys ≡ₚ Dispatch.func_dict_keys →
       interpret_numbers "fliter" = Ok None →
       let prompt :=
         "Unrecognised command: " +:+ dquote +:+ "fliter" +:+ dquote
         +:+ ".  Did you mean " +:+ dquote +:+ "filter" +:+ dquote
         +:+ "?.  Type " +:+ dquote +:+ "h" +:+ dquote
         +:+ " for help or Enter to continue. >" in
       let asked (k : console) (rest : list string) :=
         {| stdin := rest; stdout := stdout k ++ [prompt];
            record_store := record_store k; clear_calls := clear_calls k |} in
       (∀ b k response rest,
          stdin k = response :: rest → Py.lower response ≠ "h" →
          try_body select_experiment_records get_record_table interpret_numbers
            Dispatch.lev keys HELP_TEXT other_handler b "fliter" k
          = (Ok (b, Some (ExperimentBrowser.close_after b)), asked k rest))
       ∧ (∀ self command c shown table response rest,
            let all_experiments :=
              reload_record_dict library_keys (ExperimentBrowser.root_experiment self)
                (experiment_id_to_record_ids (record_store c))
                (ExperimentBrowser.just_last_record self) in
            let listed := set_exp_record_dict self shown in
            let c1 := entering_try listed table all_experiments command c in
            shown_record_dict select_experiments (ExperimentBrowser._filter self)
              all_experiments = Ok shown →
            render_experiment_list listed shown = Ok table →
            command_line command c = Some "fliter" →
            stdin c1 = response :: rest → Py.lower response ≠ "h" →
            launch_pass library_keys experiment_id_to_record_ids select_experiments
              select_experiment_records render_experiment_list get_record_table
              interpret_numbers Dispatch.lev keys HELP_TEXT other_handler
              self command c
            = (Ok (listed, ExperimentBrowser.close_after self), asked c1 rest))).
Proof.
  split.
  - intros select_experiment_records get_record_table interpret_numbers
      levenshtein_distance keys HELP_TEXT other_handler self user_input cmd args c
      Hsplit Hempty Hreg Hnum Hr Hkeys.
    destruct (unrecognised_body select_experiment_records get_record_table
                interpret_numbers levenshtein_distance keys HELP_TEXT other_handler
                self user_input cmd args c Hsplit Hempty Hreg Hnum Hr Hkeys)
      as (i & closest & Hc & Hmin & Hfirst & Hbody).
    exists i, closest. split; [done|]. split; [done|]. split; [done|].
    split.
    + rewrite Hbody. unfold Dispatch.unrecognised_prompt, Dispatch.did_you_mean.
      by destruct (levenshtein_distance cmd closest <=? 2).
    + unfold raw_input. by destruct (stdin c).
  - intros library_keys experiment_id_to_record_ids select_experiments
      select_experiment_records render_experiment_list get_record_table
      interpret_numbers keys HELP_TEXT other_handler Hperm Hnum prompt asked.
    assert (∀ k, k ∈ keys → k ∈ Dispatch.func_dict_keys) as Hreg
      by (intros k Hk; by rewrite <- Hperm).
    assert ("filter" ∈ keys) as Hfilter
      by (rewrite Hperm; apply (bool_decide_unpack _); vm_compute; exact I).
    assert (∀ b k response rest,
          stdin k = response :: rest → Py.lower response ≠ "h" →
          try_body select_experiment_records get_record_table interpret_numbers
            Dispatch.lev keys HELP_TEXT other_handler b "fliter" k
          = (Ok (b, Some (ExperimentBrowser.close_after b)), asked k rest)) as Hbody.
    { intros b k response rest Hin Hresponse.
      destruct (unrecognised_body select_experiment_records get_record_table
                  interpret_numbers Dispatch.lev keys HELP_TEXT other_handler
                  b "fliter" "fliter" [] k) as (i & closest & Hc & Hmin & _ & ->);
        try done.
      - intros Hin'. by destruct (fliter_distances _ (Hreg _ Hin')).
      - intros ->. by apply elem_of_nil in Hfilter.
      - apply list_elem_of_lookup_2 in Hc.
        assert (closest = "filter") as ->.
        { destruct (fliter_distances _ (Hreg _ Hc)) as [_ [->|Hfar]]; [done|].
          specialize (Hmin _ Hfilter).
          assert (Dispatch.lev "fliter" "filter" = 2) as Hd by (vm_compute; reflexivity).
          lia. }
        unfold bind, raw_input. rewrite Hin.
        rewrite (eqb_false (Py.lower response) "h") by done. reflexivity. }
    split; [exact Hbody|].
    intros self command c shown table response rest all_experiments listed c1
      Hshown Hrender Hline Hin Hresponse.
    rewrite (launch_pass_enters_try library_keys experiment_id_to_record_ids
               select_experiments select_experiment_records render_experiment_list
               get_record_table interpret_numbers Dispatch.lev keys HELP_TEXT
               other_handler self command c shown table "fliter" Hshown Hrender Hline).
    subst c1 listed all_experiments.
    erewrite (guarded_returns select_experiment_records get_record_table
                interpret_numbers Dispatch.lev keys HELP_TEXT other_handler);
      [|by apply (Hbody _ _ response rest)].
    reflexivity.
Qed.

Lemma unknown_command_witness :
  Dispatch.interpret_index "fliter" = Ok None
  ∧ (launch_pass LaunchModel.library_keys LaunchModel.experiment_id_to_record_ids
       LaunchModel.select_experiments DeleteModel.select_experiment_records
       LaunchModel.render_experiment_list DeleteModel.get_record_table
       Dispatch.interpret_index Dispatch.lev Dispatch.func_dict_keys "help text"
       LaunchModel.other_handler LaunchModel.self None
       (LaunchModel.typing [" fliter "; ""; "q"])).1
    = Ok (set_exp_record_dict LaunchModel.self
            [("exp.a", ["exp.a.1"; "exp.a.2"]); ("exp.b", ["exp.b.1"])], false)
  ∧ stdout
      (launch_pass LaunchModel.library_keys LaunchModel.experiment_id_to_record_ids
         LaunchModel.select_experiments DeleteModel.select_experiment_records
         LaunchModel.render_experiment_list DeleteModel.get_record_table
         Dispatch.interpret_index Dispatch.lev Dispatch.func_dict_keys "help text"
         LaunchModel.other_handler LaunchModel.self None
         (LaunchModel.typing [" fliter "; ""; "q"])).2
    = ["==================== Experiments ====================";
       "exp.a, exp.b";
       "-----------------------------------------------------";
       "Enter command or experiment # to run (h for help) >> ";
       "Unrecognised command: " +:+ dquote +:+ "fliter" +:+ dquote
       +:+ ".  Did you mean " +:+ dquote +:+ "filter" +:+ dquote
       +:+ "?.  Type " +:+ dquote +:+ "h" +:+ dquote
       +:+ " for help or Enter to continue. >"].
Proof.
  split; [reflexivity|].
  rewrite (proj2 (proj2 unknown_command_suggests_closest_within_two
             LaunchModel.library_keys LaunchModel.experiment_id_to_record_ids
             LaunchModel.select_experiments DeleteModel.select_experiment_records
             LaunchModel.render_experiment_list DeleteModel.get_record_table
             Dispatch.interpret_index Dispatch.func_dict_keys "help text"
             LaunchModel.other_handler (reflexivity _) eq_refl)
           LaunchModel.self None (LaunchModel.typing [" fliter "; ""; "q"])
           [("exp.a", ["exp.a.1"; "exp.a.2"]); ("exp.b", ["exp.b.1"])]
           "exp.a, exp.b" "" ["q"]).
  - split; vm_compute; reflexivity.
  - vm_compute. reflexivity.
  - vm_compute. reflexivity.
  - vm_compute. reflexivity.
  - vm_compute. reflexivity.
  - discriminate.
Defined.

Lemma bare_number_witness :
  Py.split_space "4 -n first" = ["4"; "-n"; "first"]
  ∧ Dispatch.interpret_index "4" = Ok (Some [4])
  ∧ (∃ c',
       launch_pass LaunchModel.library_keys LaunchModel.experiment_id_to_record_ids
         LaunchModel.select_experiments DeleteModel.select_experiment_records
         LaunchModel.render_experiment_list DeleteModel.get_record_table
         Dispatch.interpret_index Dispatch.lev Dispatch.func_dict_keys "help text"
         EchoModel.other_handler LaunchModel.self None
         (LaunchModel.typing ["4 -n first"; "q"])
       = (Ok (set_exp_record_dict LaunchModel.self
                [("exp.a", ["exp.a.1"; "exp.a.2"]); ("exp.b", ["exp.b.1"])], false), c')
       ∧ last (stdout c') = Some "run(4, -n, first, -e)"
       ∧ stdin c' = ["q"])
  ∧ (try_body DeleteModel.select_experiment_records DeleteModel.get_record_table
       Dispatch.interpret_index Dispatch.lev Dispatch.func_dict_keys "help text"
       EchoModel.other_handler LaunchModel.self "4 -p" (LaunchModel.typing [])).2
    = (print "run(4, -p)" (LaunchModel.typing [])).2.
Proof.
  assert ("4" ∉ Dispatch.func_dict_keys) as Hreg
    by (apply (bool_decide_unpack _); vm_compute; exact I).
  split; [reflexivity|]. split; [reflexivity|]. split.
  - eexists. split.
    + apply (proj2 (bare_number_runs_with_implicit_flag LaunchModel.library_keys
                      LaunchModel.experiment_id_to_record_ids
                      LaunchModel.select_experiments
                      DeleteModel.select_experiment_records
                      LaunchModel.render_experiment_list DeleteModel.get_record_table
                      Dispatch.interpret_index Dispatch.lev Dispatch.func_dict_keys
                      "help text" EchoModel.other_handler LaunchModel.self None
                      (LaunchModel.typing ["4 -n first"; "q"])
                      [("exp.a", ["exp.a.1"; "exp.a.2"]); ("exp.b", ["exp.b.1"])]
                      "exp.a, exp.b" "4 -n first" "4" ["-n"; "first"] [4]
                      eq_refl ltac:(discriminate) Hreg eq_refl)).
      * vm_compute. reflexivity.
      * vm_compute. reflexivity.
      * vm_compute. reflexivity.
      * vm_compute. reflexivity.
    + split; vm_compute; reflexivity.
  - rewrite (proj1 (bare_number_runs_with_implicit_flag LaunchModel.library_keys
                      LaunchModel.experiment_id_to_record_ids
                      LaunchModel.select_experiments
                      DeleteModel.select_experiment_records
                      LaunchModel.render_experiment_list DeleteModel.get_record_table
                      Dispatch.interpret_index Dispatch.lev Dispatch.func_dict_keys
                      "help text" EchoModel.other_handler LaunchModel.self None
                      (LaunchModel.typing []) [] "" "4 -p" "4" ["-p"] [4]
                      eq_refl ltac:(discriminate) Hreg eq_refl)).
    vm_compute. reflexivity.
Defined.

Lemma typing_q_witness :
  rstrip_space (lstrip_space "  q ") = "q"
  ∧ (∃ b, (LaunchModel.run_launch 3 LaunchModel.self None
             (LaunchModel.typing ["  q "; "next"])).1 = Ok (Some b))
  ∧ stdin (LaunchModel.run_launch 3 LaunchModel.self None
             (LaunchModel.typing ["  q "; "next"])).2 = ["next"].
Proof.
  split; [vm_compute; reflexivity|].
  destruct (typing_q_ends_launch LaunchModel.library_keys
              LaunchModel.experiment_id_to_record_ids LaunchModel.select_experiments
              DeleteModel.select_experiment_records LaunchModel.render_experiment_list
              DeleteModel.get_record_table Dispatch.interpret_index Dispatch.lev
              Dispatch.func_dict_keys "help text" LaunchModel.other_handler
              LaunchModel.self (LaunchModel.typing ["  q "; "next"]) "exp.a, exp.b"
              "  q " ["next"] 2) as (Hrun & Hrest & _).
  - apply (bool_decide_unpack _). vm_compute. exact I.
  - reflexivity.
  - vm_compute. reflexivity.
  - reflexivity.
  - vm_compute. reflexivity.
  - unfold LaunchModel.run_launch. rewrite Hrun. split; [by eexists|exact Hrest].
Defined.

Lemma handler_outcome_witness :
  (LaunchModel.run_launch 2 (set_filter LaunchModel.self (Some "exp.a")) None
     (LaunchModel.typing [" view results"; "q"])).1
  = Ok (Some (set_exp_record_dict
                (view (set_filter LaunchModel.self (Some "exp.a")) "results")
                [("exp.a", ["exp.a.1"; "exp.a.2"])])).
Proof.
  unfold LaunchModel.run_launch.
  rewrite (handler_outcome_decides_break LaunchModel.library_keys
             LaunchModel.experiment_id_to_record_ids LaunchModel.select_experiments
             DeleteModel.select_experiment_records LaunchModel.render_experiment_list
             DeleteModel.get_record_table Dispatch.interpret_index Dispatch.lev
             Dispatch.func_dict_keys "help text" LaunchModel.other_handler
             (set_filter LaunchModel.self (Some "exp.a")) None
             (LaunchModel.typing [" view results"; "q"])
             [("exp.a", ["exp.a.1"; "exp.a.2"])] "exp.a"
             "view results" "view" ["results"]
             (view (set_exp_record_dict (set_filter LaunchModel.self (Some "exp.a"))
                      [("exp.a", ["exp.a.1"; "exp.a.2"])])
                "results")
             NONE
             (entering_try
                (set_exp_record_dict (set_filter LaunchModel.self (Some "exp.a"))
                   [("exp.a", ["exp.a.1"; "exp.a.2"])])
                "exp.a"
                [("exp.a", ["exp.a.1"; "exp.a.2"]); ("exp.b", ["exp.b.1"])]
                None (LaunchModel.typing [" view results"; "q"])) 1).
  - vm_compute. reflexivity.
  - vm_compute. reflexivity.
  - vm_compute. reflexivity.
  - vm_compute. reflexivity.
  - vm_compute. reflexivity.
  - discriminate.
  - apply (bool_decide_unpack _). vm_compute. exact I.
  - vm_compute. reflexivity.
Defined.

Lemma blank_line_witness :
  LaunchModel.run_launch 2 LaunchModel.self None (LaunchModel.typing ["   "; "q"])
  = LaunchModel.run_launch 1
      (set_exp_record_dict LaunchModel.self
         [("exp.a", ["exp.a.1"; "exp.a.2"]); ("exp.b", ["exp.b.1"])])
      None
      (entering_try
         (set_exp_record_dict LaunchModel.self
            [("exp.a", ["exp.a.1"; "exp.a.2"]); ("exp.b", ["exp.b.1"])])
         "exp.a, exp.b"
         [("exp.a", ["exp.a.1"; "exp.a.2"]); ("exp.b", ["exp.b.1"])]
         None (LaunchModel.typing ["   "; "q"]))
  ∧ stdin
      (entering_try
         (set_exp_record_dict LaunchModel.self
            [("exp.a", ["exp.a.1"; "exp.a.2"]); ("exp.b", ["exp.b.1"])])
         "exp.a, exp.b"
         [("exp.a", ["exp.a.1"; "exp.a.2"]); ("exp.b", ["exp.b.1"])]
         None (LaunchModel.typing ["   "; "q"])) = ["q"].
Proof.
  split; [|reflexivity].
  unfold LaunchModel.run_launch.
  rewrite (blank_and_refresh_never_end_launch LaunchModel.library_keys
             LaunchModel.experiment_id_to_record_ids
             LaunchModel.select_experiments
             DeleteModel.select_experiment_records
             LaunchModel.render_experiment_list DeleteModel.get_record_table
             Dispatch.interpret_index Dispatch.lev Dispatch.func_dict_keys
             "help text" LaunchModel.other_handler LaunchModel.self None
             (LaunchModel.typing ["   "; "q"])
             [("exp.a", ["exp.a.1"; "exp.a.2"]); ("exp.b", ["exp.b.1"])]
             "exp.a, exp.b" "" [] 1).
  - reflexivity.
  - vm_compute. reflexivity.
  - vm_compute. reflexivity.
  - vm_compute. reflexivity.
  - left. vm_compute. reflexivity.
Defined.

Lemma rejected_filter_witness :
  Py.split_space "filter nonsense" = ["filter"; "nonsense"]
  ∧ (LaunchModel.run_launch 2 LaunchModel.self None
       (LaunchModel.typing ["filter nonsense"; "q"])).1
    = Raise (PyError "RecordSelectionError" "nonsense")
  ∧ stdin (LaunchModel.run_launch 2 LaunchModel.self None
             (LaunchModel.typing ["filter nonsense"; "q"])).2 = ["q"].
Proof.
  split; [vm_compute; reflexivity|].
  destruct (rejected_filter_escapes_launch LaunchModel.library_keys
              LaunchModel.experiment_id_to_record_ids LaunchModel.select_experiments
              DeleteModel.select_experiment_records LaunchModel.render_experiment_list
              DeleteModel.get_record_table Dispatch.interpret_index Dispatch.lev
              Dispatch.func_dict_keys "help text" LaunchModel.other_handler
              LaunchModel.self None (LaunchModel.typing ["filter nonsense"; "q"])
              [("exp.a", ["exp.a.1"; "exp.a.2"]); ("exp.b", ["exp.b.1"])]
              "exp.a, exp.b" "filter nonsense" "nonsense"
              (PyError "RecordSelectionError" "nonsense") 0)
    as (Hraise & _ & Hstdin);
    try discriminate; try reflexivity; try (vm_compute; reflexivity).
  - apply (bool_decide_unpack _). vm_compute. exact I.
  - split; [exact Hraise | exact Hstdin].
Defined.

Lemma handler_error_witness :
  ExperimentBrowser.catch_errors LaunchModel.self = true
  ∧ LaunchModel.run_launch 2 LaunchModel.self None
      (LaunchModel.typing ["show 1 "; "x"; "q"])
    = LaunchModel.run_launch 1
        (set_exp_record_dict LaunchModel.self
           [("exp.a", ["exp.a.1"; "exp.a.2"]); ("exp.b", ["exp.b.1"])])
        None
        (raw_input (stacktrace_prompt "IOError" "no such record")
           (after_prompt "exp.a, exp.b" (LaunchModel.typing ["show 1 "; "x"; "q"]))).2.
Proof.
  split; [reflexivity|].
  unfold LaunchModel.run_launch.
  rewrite (proj2 (handler_error_is_caught_on_request LaunchModel.library_keys
                    LaunchModel.experiment_id_to_record_ids
                    LaunchModel.select_experiments
                    DeleteModel.select_experiment_records
                    LaunchModel.render_experiment_list DeleteModel.get_record_table
                    Dispatch.interpret_index Dispatch.lev Dispatch.func_dict_keys
                    "help text" LaunchModel.other_handler LaunchModel.self
                    None (LaunchModel.typing ["show 1 "; "x"; "q"])
                    [("exp.a", ["exp.a.1"; "exp.a.2"]); ("exp.b", ["exp.b.1"])]
                    "exp.a, exp.b" "show 1" "show" ["1"]
                    "IOError" "no such record"
                    (after_prompt "exp.a, exp.b"
                       (LaunchModel.typing ["show 1 "; "x"; "q"])) 1
                    eq_refl eq_refl eq_refl eq_refl ltac:(discriminate)
                    ltac:(apply (bool_decide_unpack _); vm_compute; exact I)
                    eq_refl)
             eq_refl "x" ["q"] eq_refl).
  vm_compute. reflexivity.
Defined.

Lemma q_at_help_prompt_witness :
  (LaunchModel.run_launch 1 LaunchModel.self None
     (LaunchModel.typing ["h"; "q"; "x"])).1
  = Raise SystemExit
  ∧ stdin (LaunchModel.run_launch 1 LaunchModel.self None
             (LaunchModel.typing ["h"; "q"; "x"])).2 = ["x"].
Proof.
  apply (q_at_help_prompt_exits LaunchModel.library_keys
           LaunchModel.experiment_id_to_record_ids LaunchModel.select_experiments
           DeleteModel.select_experiment_records LaunchModel.render_experiment_list
           DeleteModel.get_record_table Dispatch.interpret_index Dispatch.lev
           Dispatch.func_dict_keys "help text" LaunchModel.other_handler
           LaunchModel.self None (LaunchModel.typing ["h"; "q"; "x"])
           [("exp.a", ["exp.a.1"; "exp.a.2"]); ("exp.b", ["exp.b.1"])]
           "exp.a, exp.b" "h" ["x"] 0);
    try reflexivity; try (vm_compute; reflexivity).
  apply (bool_decide_unpack _). vm_compute. exact I.
Defined.

(** * The delete handlers: when the store can change *)

Section DeleteSafety.
Variable select_experiment_records :
  string → list (string * list string) → result (list string).
Variable select_experiment_records_from_list :
  string → list string → result (list string).
Variable get_all_record_ids : list string → list string.
Variable get_record_table : list string → string.

(** X21: Neither delete handler calls [clear_experiment_records] or changes the
    record store unless the selection succeeded and a confirmation line was
    read that is "yes" (after lower-casing for [ExperimentBrowser.delete], as
    typed for [ExperimentRecordBrowser.delete]); a failed selection, the end
    of the input, any other answer and [q] at the following prompt all leave
    the store as it was. *)
Theorem delete_changes_store_only_after_yes :
  (∀ exp_record_dict close_after user_range c,
     let c' := (ExperimentBrowser_delete select_experiment_records get_record_table
                  exp_record_dict close_after user_range c).2 in
     clear_calls c' ≠ clear_calls c ∨ record_store c' ≠ record_store c →
     ∃ records response rest,
       select_experiment_records user_range exp_record_dict = Ok records
       ∧ stdin c = response :: rest ∧ Py.lower response = "yes")
  ∧ (∀ record_ids user_range c,
       let c' := (ExperimentRecordBrowser_delete select_experiment_records_from_list
                    get_all_record_ids get_record_table record_ids user_range c).2 in
       clear_calls c' ≠ clear_calls c ∨ record_store c' ≠ record_store c →
       ∃ ids rest,
         select_experiment_records_from_list user_range record_ids = Ok ids
         ∧ stdin c = "yes" :: rest).
Proof.
  split.
  - intros d close_after user_range c c' Hchanged.
    destruct (select_experiment_records user_range d) as [records|e] eqn:Hsel.
    2:{ exfalso. subst c'. unfold ExperimentBrowser_delete, bind, lift in Hchanged.
        rewrite Hsel in Hchanged. simpl in Hchanged. tauto. }
    destruct (stdin c) as [|response rest] eqn:Hin.
    { exfalso. subst c'.
      unfold ExperimentBrowser_delete, bind, lift, print, raw_input in Hchanged.
      rewrite Hsel in Hchanged. simpl in Hchanged. rewrite Hin in Hchanged.
      simpl in Hchanged. tauto. }
    destruct (decide (Py.lower response = "yes")) as [Hyes|Hno];
      [by exists records, response, rest|].
    exfalso.
    destruct (browser_delete_confirmation select_experiment_records get_record_table
                d close_after user_range records response rest c Hsel Hin)
      as [_ Hsame].
    destruct (Hsame Hno) as [Hc Hs]. subst c'. tauto.
  - intros record_ids user_range c c' Hchanged.
    destruct (select_experiment_records_from_list user_range record_ids)
      as [ids|e] eqn:Hsel.
    2:{ exfalso. subst c'.
        unfold ExperimentRecordBrowser_delete, bind, lift in Hchanged.
        rewrite Hsel in Hchanged. simpl in Hchanged. tauto. }
    destruct (stdin c) as [|conf rest] eqn:Hin.
    { exfalso. subst c'.
      unfold ExperimentRecordBrowser_delete, bind, lift, print, raw_input in Hchanged.
      rewrite Hsel in Hchanged. simpl in Hchanged. rewrite Hin in Hchanged.
      simpl in Hchanged. tauto. }
    destruct (decide (conf = "yes")) as [->|Hno]; [by exists ids, rest|].
    exfalso.
    destruct (record_browser_delete_confirmation select_experiment_records_from_list
                get_all_record_ids get_record_table record_ids user_range ids conf rest
                c Hsel Hin) as [_ Hsame].
    destruct (Hsame Hno) as [Hc Hs]. subst c'. tauto.
Qed.

End DeleteSafety.

Lemma delete_changes_store_witness :
  record_store (ExperimentBrowser_delete DeleteModel.select_experiment_records
                  DeleteModel.get_record_table DeleteModel.exp_record_dict true "all"
                  (DeleteModel.typing ["Yes"])).2 = []
  ∧ ∃ records response rest,
      DeleteModel.select_experiment_records "all" DeleteModel.exp_record_dict
      = Ok records
      ∧ stdin (DeleteModel.typing ["Yes"]) = response :: rest
      ∧ Py.lower response = "yes".
Proof.
  split; [vm_compute; reflexivity|].
  apply (proj1 (delete_changes_store_only_after_yes
                  DeleteModel.select_experiment_records
                  DeleteModel.select_experiment_records_from_list
                  DeleteModel.get_all_record_ids DeleteModel.get_record_table)
           DeleteModel.exp_record_dict true "all" (DeleteModel.typing ["Yes"])).
  right. vm_compute. discriminate.
Defined.

Lemma fetch_touches_only_its_file_witness :
  files Model.corrupted_world
    !! cache_path Model.env "demo.finished" [RUNS; RESULT_STR] = Some Unreadable
  ∧ cache_path Model.env "demo.finished" [RUNS; RESULT_STR]
    ≠ cache_path Model.env "demo.broken" [DURATION]
  ∧ files (_get_record_rows_cached Model.env "demo.broken" [DURATION] false (Some 100)
             Model.corrupted_world).2
      !! cache_path Model.env "demo.finished" [RUNS; RESULT_STR] = Some Unreadable.
Proof.
  assert (files Model.corrupted_world
    !! cache_path Model.env "demo.finished" [RUNS; RESULT_STR] = Some Unreadable)
    as Hfile by (vm_compute; reflexivity).
  assert (cache_path Model.env "demo.finished" [RUNS; RESULT_STR]
          ≠ cache_path Model.env "demo.broken" [DURATION]) as Hne
    by (vm_compute; discriminate).
  split; [exact Hfile|]. split; [exact Hne|].
  rewrite <- Hfile.
  apply (proj1 (fetch_touches_only_its_cache_file Model.env "demo.broken" [DURATION]
                  false (Some 100) Model.corrupted_world
                  (cache_path Model.env "demo.finished" [RUNS; RESULT_STR]))).
  exact Hne.
Defined.
